(** * DFN interval control: a shallow embedding of [interval_control_lin.py]

    The controller is a Python 2.7 script (line 1 of the source) that drives
    a camera station through one night.  Its collaborators (the [leo]
    microcontroller driver, the [cam] gphoto wrapper, the [dfn] file
    utilities, the [cc] cloud monitor, the [sm] ephemeris, the operating
    system) are not part of the file: every call to them is recorded as an
    [event] in a trace, and every value they hand back is read from an
    [env] record of oracles.  The code of the script itself is written out
    as functions in a state-and-exception monad [M].

    Conventions.  The clock is moved by [time.sleep] alone: a collaborator
    answers at once, and it answers normally except where the script
    itself provides for its failure ([subprocess.Popen], the signals sent
    to the tether).  A log record is kept by its level and its key, the
    text before the first comma.  Every [while] loop carries a budget of
    iterations. *)

From Stdlib Require Import ZArith List String Ascii Bool Lia.
Import ListNotations.

Open Scope string_scope.
Open Scope list_scope.
Open Scope Z_scope.

(** ** Python-level preliminaries *)

(** The exception classes that can travel through the script. *)
Inductive exn : Type :=
| NameError (name : string)
| UnboundLocalError (name : string)
| TypeError
| OSError
| IOError
| ValueError
| CalledProcessError.

Definition exn_is_CalledProcessError (e : exn) : bool :=
  match e with CalledProcessError => true | _ => false end.

Definition exn_is_OSError (e : exn) : bool :=
  match e with OSError => true | _ => false end.

(** Instants ([datetime]) and durations ([timedelta]) are counted in
    microseconds, the resolution of both Python types.  They are
    unbounded integers here: Python's [datetime] ends with the year 9999,
    and arithmetic that leaves its range raises [OverflowError], which
    only spans of thousands of years can bring about. *)
Definition seconds (n : Z) : Z := n * 1000000.
Definition minutes (n : Z) : Z := seconds (60 * n).

(** [int(td.total_seconds())]: truncation towards zero.  The source
    truncates the [float] that [total_seconds] returns; the two agree as
    long as the float is exact, for spans of up to about 2^33 seconds. *)
Definition total_seconds_int (td : Z) : Z := Z.quot td 1000000.

(** [needle in hay] on [str]. *)
Fixpoint str_in (needle hay : string) : bool :=
  if String.prefix needle hay then true
  else match hay with
       | EmptyString => false
       | String _ rest => str_in needle rest
       end.

Definition lower_ascii (c : ascii) : ascii :=
  let n := nat_of_ascii c in
  if andb (Nat.leb 65 n) (Nat.leb n 90) then ascii_of_nat (n + 32) else c.

(** [s.lower()] *)
Fixpoint lower (s : string) : string :=
  match s with
  | EmptyString => EmptyString
  | String c rest => String (lower_ascii c) (lower rest)
  end.

(** [s.endswith(suffix)] *)
Definition endswith (s suffix : string) : bool :=
  let ls := String.length s in
  let lx := String.length suffix in
  andb (Nat.leb lx ls) (String.eqb (String.substring (ls - lx) lx s) suffix).

(** ** Module-level constants (lines 86-99) *)

Definition CLOUDY : Z := 0.
Definition CLEARING : Z := 1.
Definition CLEAR : Z := 2.

Definition RAW_MODE : Z := 4.
Definition JPG_MODE : Z := 2.

(** Line 101 is [global ser] at module level.  At that level the statement
    binds nothing, and no statement of the module assigns [ser]: the
    assignment on line 160 sits inside [main_function], which has no
    [global] declaration of its own, so it creates a local.  The module
    namespace therefore never holds the name. *)
Definition module_global_ser : option unit := None.

(** ** Events *)

Inductive level : Type := DEBUG | INFO | WARNING | CRITICAL.

(** The microcontroller commands the script issues. *)
Inductive leo_cmd : Type :=
| connect_to_leostick
| shutter_on | shutter_off | single_image
| camera_on | camera_off
| video_on | video_off
| cond_on | cond_off
| heater_on
| wait_for_camera_ready
| set_bulb_mode | set_non_bulb_mode
| get_temperature | get_version | get_sequence | get_debug_codes.

(** The gphoto wrapper calls. *)
Inductive cam_cmd : Type :=
| camera_download_images
| camera_set_time | camera_get_time
| camera_set_program | camera_set_autoiso
| camera_set_highisonr | camera_set_longexpnr | camera_set_vignette
| camera_set_fstop
| camera_set_quality (mode : Z)
| camera_set_shutter (exposure : string)
| camera_set_iso (iso : string)
| get_camera_shutterspeed.

(** The argument lists of the three [subprocess.Popen] calls and of the
    [subprocess.call]. *)
Inductive command : Type :=
| gphoto_tether_for (secs : Z)   (* --capture-tethered <secs>s --force-overwrite *)
| gphoto_tether                  (* --capture-tethered --force-overwrite *)
| gphoto_reset.                  (* --reset *)

Inductive signal : Type :=
| SIG0       (* the null signal of [os.kill(pid, 0)] *)
| SIGTERM
| SIGKILL.

Inductive event : Type :=
| Log (lvl : level) (key : string)      (* logger.<lvl>('<key>, ...') *)
| Print (key : string)
| Sleep (secs : Z)                      (* time.sleep *)
| Leo (c : leo_cmd)
| Cam (c : cam_cmd)
| Isfile (file : string)                (* os.path.isfile *)
| Listdir (dir : string)
| RenameRawAll (dir : string)           (* dfn.rename_RAW_all *)
| MakeAllThumb (dir : string)           (* dfn.make_all_thumb *)
| GetLatestImagefile (dir : string)     (* dfn.get_latest_imagefile *)
| RenameRaw (file : string)             (* dfn.rename_RAW *)
| MakeThumb (file : string)             (* dfn.make_thumb *)
| WriteLastImageFile (file pointer : string)
| Stat (file : string)                  (* os.stat, dfn.exposure_time *)
| SpawnVideo
| SaveConfig
| Popen (c : command)
| SubprocessCall (c : command)
| Poll                                  (* tether.poll() *)
| Kill (sig : signal)                   (* os.kill(tether.pid, sig) *)
| JobJoin (job : nat)
| SerClose
| Execvp                                (* hand-off to processing_wrapper.py *)
| LoggingShutdown.

(** ** The outside world *)

(** A station position as the GPS reports it; the controller only passes
    it on. *)
Definition position : Type := (Z * Z * Z)%type.

Record config_dict : Type := {
  sun_leeway : Z;                     (* timedelta(minutes=float(...)) *)
  exp_mode : string;
  video_enabled : string;
  firmware_heater : option bool;      (* None: no 'firmware_control' section *)
  twilight_exposuretime : option string;
  camera_exposuretime : string;
  twilight_iso : option string;
  camera_iso : string;
  time_checking_clear : Z;            (* int(...) of the three durations *)
  time_checking_cloudy : Z;
  time_checking_clearing : Z;
  clearing_quality : string;
  last_img_status_file : string;
  event_detect_enabled : option string
}.

Record env : Type := {
  generate_sun_and_moon : position -> Z * Z;       (* (sunrise, sunset) *)
  update_GPS_location : nat -> position -> position * string;
  read_cloud_status : nat -> Z;                    (* n-th reading *)
  detect_disk_full : Z -> bool;                    (* at an instant *)
  isfile : string -> bool;
  video0_exists : bool;
  get_latest_imagefile : Z -> string -> string;    (* at an instant *)
  rename_RAW : string -> string;
  make_thumb : string -> string;
  save_config_file : bool;
  daylight : bool;                                 (* time.daylight != 0 *)
  ntp_items : nat;                                 (* len(dfn.get_ntp_data()) *)
  several_raw_files : bool;                        (* len(raw_list) > 1 *)
  popen_raises : nat -> option exn;                (* n-th Popen *)
  tether_gone_by : Z -> bool;      (* gphoto2 has exited by itself by then *)
  sigterm_effective : bool;        (* gphoto2 dies on SIGTERM *)
  tether_exit_seen : nat -> bool;  (* the n-th poll finds a signalled child dead *)
  tether_returncode : Z
}.

(** ** Machine state *)

Record state : Type := {
  clock : Z;                  (* datetime.datetime.now() *)
  trace : list event;         (* oldest first *)
  gps_queries : nat;
  cloud_reads : nat;
  popen_calls : nat;
  serial_open : bool;         (* the channel behind main_function's [ser] *)
  tether_signalled : bool;    (* a fatal signal reached the night tether *)
  tether_reaped : bool        (* its return code has been collected *)
}.

Definition with_clock (t : Z) (s : state) : state :=
  {| clock := t; trace := trace s; gps_queries := gps_queries s;
     cloud_reads := cloud_reads s; popen_calls := popen_calls s;
     serial_open := serial_open s; tether_signalled := tether_signalled s;
     tether_reaped := tether_reaped s |}.

Definition with_trace (t : list event) (s : state) : state :=
  {| clock := clock s; trace := t; gps_queries := gps_queries s;
     cloud_reads := cloud_reads s; popen_calls := popen_calls s;
     serial_open := serial_open s; tether_signalled := tether_signalled s;
     tether_reaped := tether_reaped s |}.

Definition with_gps_queries (n : nat) (s : state) : state :=
  {| clock := clock s; trace := trace s; gps_queries := n;
     cloud_reads := cloud_reads s; popen_calls := popen_calls s;
     serial_open := serial_open s; tether_signalled := tether_signalled s;
     tether_reaped := tether_reaped s |}.

Definition with_cloud_reads (n : nat) (s : state) : state :=
  {| clock := clock s; trace := trace s; gps_queries := gps_queries s;
     cloud_reads := n; popen_calls := popen_calls s;
     serial_open := serial_open s; tether_signalled := tether_signalled s;
     tether_reaped := tether_reaped s |}.

Definition with_popen_calls (n : nat) (s : state) : state :=
  {| clock := clock s; trace := trace s; gps_queries := gps_queries s;
     cloud_reads := cloud_reads s; popen_calls := n;
     serial_open := serial_open s; tether_signalled := tether_signalled s;
     tether_reaped := tether_reaped s |}.

Definition with_serial_open (b : bool) (s : state) : state :=
  {| clock := clock s; trace := trace s; gps_queries := gps_queries s;
     cloud_reads := cloud_reads s; popen_calls := popen_calls s;
     serial_open := b; tether_signalled := tether_signalled s;
     tether_reaped := tether_reaped s |}.

Definition with_tether_signalled (b : bool) (s : state) : state :=
  {| clock := clock s; trace := trace s; gps_queries := gps_queries s;
     cloud_reads := cloud_reads s; popen_calls := popen_calls s;
     serial_open := serial_open s; tether_signalled := b;
     tether_reaped := tether_reaped s |}.

Definition with_tether_reaped (b : bool) (s : state) : state :=
  {| clock := clock s; trace := trace s; gps_queries := gps_queries s;
     cloud_reads := cloud_reads s; popen_calls := popen_calls s;
     serial_open := serial_open s; tether_signalled := tether_signalled s;
     tether_reaped := b |}.

(** ** The monad: state, exceptions, process replacement, loop budget *)

Inductive result (A : Type) : Type :=
| Ret (a : A)          (* normal completion *)
| Raise (e : exn)      (* an exception is propagating *)
| Replaced             (* os.execvp replaced the process *)
| Fuel.                (* the loop budget of the model ran out *)

Arguments Ret {A} a.
Arguments Raise {A} e.
Arguments Replaced {A}.
Arguments Fuel {A}.

Definition M (A : Type) : Type := state -> result A * state.

Definition ret {A} (a : A) : M A := fun s => (Ret a, s).

Definition raise {A} (e : exn) : M A := fun s => (Raise e, s).

Definition out_of_fuel {A} : M A := fun s => (Fuel, s).

Definition bind {A B} (m : M A) (k : A -> M B) : M B :=
  fun s =>
    match m s with
    | (Ret a, s') => k a s'
    | (Raise e, s') => (Raise e, s')
    | (Replaced, s') => (Replaced, s')
    | (Fuel, s') => (Fuel, s')
    end.

(** [try: m  except <class>: h], the class given by its membership test. *)
Definition try_except {A} (class : exn -> bool) (m : M A) (h : M A) : M A :=
  fun s =>
    match m s with
    | (Raise e, s') => if class e then h s' else (Raise e, s')
    | r => r
    end.

(** [try: m  except subprocess.CalledProcessError as e: h] *)
Definition try_except_CalledProcessError {A} (m : M A) (h : M A) : M A :=
  try_except exn_is_CalledProcessError m h.

Declare Scope py_scope.
Delimit Scope py_scope with py.
Notation "x <- m ;; k" := (bind m (fun x => k))
  (at level 61, m at next level, right associativity) : py_scope.
Notation "m ;; k" := (bind m (fun _ => k))
  (at level 61, right associativity) : py_scope.
Open Scope py_scope.

Definition when (b : bool) (m : M unit) : M unit := if b then m else ret tt.

Fixpoint for_each {A} (l : list A) (body : A -> M unit) : M unit :=
  match l with
  | [] => ret tt
  | a :: rest => body a ;; for_each rest body
  end.

(** ** Primitive operations *)

Definition emit (e : event) : M unit :=
  fun s => (Ret tt, with_trace (trace s ++ [e]) s).

Definition now : M Z := fun s => (Ret (clock s), s).

Definition log (lvl : level) (key : string) : M unit := emit (Log lvl key).
Definition print (key : string) : M unit := emit (Print key).
Definition leo (c : leo_cmd) : M unit := emit (Leo c).
Definition cam (c : cam_cmd) : M unit := emit (Cam c).

(** [time.sleep(n)]: the clock moves on by [n] seconds; Python 2.7 raises
    [IOError] (errno 22) for a negative argument. *)
Definition sleep (n : Z) : M unit :=
  if n <? 0 then raise IOError
  else fun s => (Ret tt, with_clock (clock s + seconds n)
                           (with_trace (trace s ++ [Sleep n]) s)).

(** [ser.close()] inside [main_function], where [ser] is the local bound
    on line 160. *)
Definition ser_close : M unit :=
  fun s => (Ret tt, with_serial_open false (with_trace (trace s ++ [SerClose]) s)).

(** A read of the module-level name [ser] followed by [.close()]. *)
Definition global_ser_close : M unit :=
  match module_global_ser with
  | Some _ => ser_close
  | None => raise (NameError "ser")
  end.

Definition is_Poll (e : event) : bool :=
  match e with Poll => true | _ => false end.

(** How many times [tether.poll()] has been called so far. *)
Definition polls_so_far (evs : list event) : nat :=
  List.length (filter is_Poll evs).

(** What the absent helper [dfn.get_latest_imagefile] can answer: a [str]
    (a path, or a not-found indicator that is a string) or a value of
    another type (a not-found indicator such as [None] or [False]). *)
Inductive helper_answer : Type :=
| Str (f : string)
| NotStr.

Section Controller.

Variable E : env.

Definition os_path_isfile (f : string) : M bool :=
  emit (Isfile f) ;; ret (isfile E f).

Definition dfn_detect_disk_full : M bool :=
  fun s => (Ret (detect_disk_full E (clock s)), s).

(** The helper is not in the file.  Both call sites concatenate its
    answer to a [str] (lines 669, 693), so the answer is taken as a [str]
    here; [high_acq_any] below leaves it open. *)
Definition dfn_get_latest_imagefile (dir : string) : M string :=
  emit (GetLatestImagefile dir) ;;
  fun s => (Ret (get_latest_imagefile E (clock s) dir), s).

Definition dfn_rename_RAW (f : string) : M string :=
  emit (RenameRaw f) ;; ret (rename_RAW E f).

Definition dfn_make_thumb (f : string) : M string :=
  emit (MakeThumb f) ;; ret (make_thumb E f).

Definition dfn_write_last_image_file (f pointer : string) : M unit :=
  emit (WriteLastImageFile f pointer).

(** ** [high_acq] (lines 646-671)

    [interval_time] is a [str] in the source; both call sites build it as
    [str(int(...))] (lines 390, 396), so it is carried as the integer it
    spells. *)
Definition high_acq (current_dir : string) (interval_time : Z)
    (cfg : config_dict) : M string :=
  log INFO "starting_high_acq_chunk" ;;
  leo shutter_on ;;
  print "hr" ;;
  sleep interval_time ;;
  leo shutter_off ;;
  emit (Listdir current_dir) ;;
  log INFO "finished_high_acq_chunk" ;;
  emit (RenameRawAll current_dir) ;;
  log DEBUG "renamed_images" ;;
  emit (MakeAllThumb current_dir) ;;
  log DEBUG "thumbed_images" ;;
  imgfile <- dfn_get_latest_imagefile current_dir ;;
  log INFO "finished_rename_get_latest" ;;
  ret imgfile.

(** [high_acq] (lines 646-671) with the answer of the absent helper left
    open: [latest] is [dfn.get_latest_imagefile] at an instant.  Line 669
    concatenates the answer to a [str], which raises [TypeError] for
    anything but a [str].  [high_acq] above is this procedure for a
    helper that answers a [str] every time (lemma [high_acq_any_str]). *)
Definition high_acq_any (latest : Z -> string -> helper_answer)
    (current_dir : string) (interval_time : Z) (cfg : config_dict)
    : M helper_answer :=
  log INFO "starting_high_acq_chunk" ;;
  leo shutter_on ;;
  print "hr" ;;
  sleep interval_time ;;
  leo shutter_off ;;
  emit (Listdir current_dir) ;;
  log INFO "finished_high_acq_chunk" ;;
  emit (RenameRawAll current_dir) ;;
  log DEBUG "renamed_images" ;;
  emit (MakeAllThumb current_dir) ;;
  log DEBUG "thumbed_images" ;;
  emit (GetLatestImagefile current_dir) ;;
  imgfile <- (fun s => (Ret (latest (clock s) current_dir), s)) ;;
  match imgfile with
  | Str _ => log INFO "finished_rename_get_latest"
  | NotStr => raise TypeError
  end ;;
  ret imgfile.

(** ** [low_acq] (lines 674-695)

    The two configured durations are [str]s that the source concatenates
    into the log line and converts with [int]; the fall-back [30] is an
    [int], so the concatenation on line 685 raises [TypeError] there. *)
Definition low_acq (current_dir : string) (cloud_status : Z)
    (cfg : config_dict) : M string :=
  sleep_time <-
    (if cloud_status =? CLOUDY then ret (time_checking_cloudy cfg)
     else if cloud_status =? CLEARING then ret (time_checking_clearing cfg)
     else raise TypeError) ;;
  log INFO "starting_low_acq" ;;
  sleep sleep_time ;;
  leo single_image ;;
  emit (RenameRawAll current_dir) ;;
  emit (MakeAllThumb current_dir) ;;
  imgfile <- dfn_get_latest_imagefile current_dir ;;
  log DEBUG "finished_low_acq" ;;
  ret imgfile.

(** ** [clean_up_no_dl] (lines 757-770) *)
Definition clean_up_no_dl (job_list : list nat) : M bool :=
  leo shutter_off ;;
  leo cond_off ;;
  leo wait_for_camera_ready ;;
  leo video_off ;;
  sleep 10 ;;
  leo camera_off ;;
  for_each job_list (fun job => emit (JobJoin job)) ;;
  global_ser_close ;;
  emit LoggingShutdown ;;
  ret false.

(** ** [handle_new_image] (lines 699-738)

    The result is [Some false] for the [False] that comes back from
    [clean_up_no_dl] and [None] for the bare [return]. *)
Definition handle_new_image (imgfile : string) (job_list : list nat)
    (current_dir : string) (cfg : config_dict) : M (option bool) :=
  exists_ <- os_path_isfile imgfile ;;
  if exists_ then
    log INFO "handle-image_starting" ;;
    full <- dfn_detect_disk_full ;;
    if full then
      log CRITICAL "disk-full_early-exit" ;;
      r <- clean_up_no_dl job_list ;;
      ret (Some r)
    else
      imgfile <-
        (if orb (str_in "cloudy_img" imgfile) (str_in "clearing" imgfile) then
           log INFO "handle-image_cloudy_and_clearing" ;;
           dfn_write_last_image_file imgfile (last_img_status_file cfg) ;;
           ret imgfile
         else
           imgfile <- dfn_rename_RAW imgfile ;;
           if endswith (lower imgfile) ".jpg" then
             log INFO "handle-image_jpg" ;;
             imgfile <-
               (if negb (str_in "thumb.jpg" imgfile) then
                  if String.eqb (clearing_quality cfg) "2" then
                    imgfile <- dfn_make_thumb imgfile ;;
                    log INFO "handle-image_thumb-jpg" ;;
                    ret imgfile
                  else ret imgfile
                else ret imgfile) ;;
             dfn_write_last_image_file imgfile (last_img_status_file cfg) ;;
             dfn_write_last_image_file imgfile "/tmp/latest_img.tmp" ;;
             ret imgfile
           else
             log INFO "making_thumb_for_cloudy" ;;
             dfn_make_thumb imgfile) ;;
      emit (Stat imgfile) ;;
      log INFO "latest_image" ;;
      ret None
  else
    log INFO "argh-imgfile_not_exist" ;;
    ret None.

(** ** [main_function] (lines 104-643)

    The function is one long block; its "TIP" comments mark the phases,
    and each phase is a definition here.  Logger and data-directory set-up
    (lines 110-157, 174-184) only prepares files and is left out. *)

(** The four instants the phases are bounded by (locals of the same names). *)
Record schedule : Type := {
  sunset : Z;
  sunset_after_twilight : Z;
  sunrise_before_twilight : Z;
  sunrise : Z
}.

Definition with_sunset (t : Z) (b : schedule) : schedule :=
  {| sunset := t;
     sunset_after_twilight := sunset_after_twilight b;
     sunrise_before_twilight := sunrise_before_twilight b;
     sunrise := sunrise b |}.

(** [config_dict['station']]: the position and the [gps_lock] letter. *)
Definition station : Type := (position * string)%type.

Definition leo_update_GPS_location (pos : position) : M station :=
  fun s => (Ret (update_GPS_location E (gps_queries s) pos),
            with_gps_queries (S (gps_queries s)) s).

(** Lines 159-172. *)
Definition initialise_microcontroller (cfg : config_dict) : M unit :=
  (fun s => (Ret tt, with_serial_open true
                       (with_trace (trace s ++ [Leo connect_to_leostick]) s))) ;;
  leo shutter_off ;;
  leo wait_for_camera_ready ;;
  leo camera_off ;;
  leo video_off ;;
  if String.eqb (exp_mode cfg) "BULB" then
    leo set_bulb_mode ;; log INFO "bulb_mode"
  else
    leo set_non_bulb_mode ;; log INFO "non_bulb_mode".

(** Lines 200-241, and again word for word on lines 267-310: sunset and
    sunrise with the configured leeway, the ten-minute twilights, the
    test-run values, and the late-start override. *)
Definition calculate_sunset_and_sunrise (test_time : Z) (pos : position)
    (cfg : config_dict) : M schedule :=
  let '(sunrise0, sunset0) := generate_sun_and_moon E pos in
  let sunset1 := sunset0 + sun_leeway cfg in
  let sunrise1 := sunrise0 - sun_leeway cfg in
  b <- (if negb (test_time =? 0) then
          t <- now ;;
          let sunset2 := t + seconds 30 in
          let sunrise2 := sunset2 + seconds test_time in
          ret {| sunset := sunset2;
                 sunset_after_twilight := sunset2;
                 sunrise_before_twilight := sunrise2;
                 sunrise := sunrise2 |}
        else
          ret {| sunset := sunset1;
                 sunset_after_twilight := sunset1 + minutes 10;
                 sunrise_before_twilight := sunrise1 - minutes 10;
                 sunrise := sunrise1 |}) ;;
  log INFO "sunset" ;;
  log INFO "sunset_after_twilight" ;;
  log INFO "sunrise_before_twilight" ;;
  log INFO "sunrise" ;;
  log INFO "now" ;;
  log INFO "UTCnow" ;;
  log INFO "timezone" ;;
  when (daylight E) (log INFO "altzone") ;;
  b <- (if sunset b >=? sunrise b then
          log INFO "late_start-forcing_immediate" ;;
          t <- now ;;
          ret (with_sunset (t + seconds 30) b)
        else ret b) ;;
  log DEBUG "recalc_sunrise" ;;
  ret b.

(** Lines 244-310. *)
Fixpoint wait_until_sunset (fuel : nat) (test_time : Z) (cfg : config_dict)
    (st : station) (b : schedule) : M (station * schedule) :=
  match fuel with
  | O => out_of_fuel
  | S fuel' =>
      t <- now ;;
      if t <? sunset b then
        log DEBUG "waiting_for_sunset" ;;
        print "waiting_for_sunset" ;;
        sleep 30 ;;
        r <- (if andb (String.eqb (snd st) "N") (test_time =? 0) then
                st' <- leo_update_GPS_location (fst st) ;;
                if negb (String.eqb (snd st') "N") then
                  log INFO "GPS_lonlat" ;;
                  b' <- calculate_sunset_and_sunrise test_time (fst st') cfg ;;
                  ret (st', b')
                else ret (st', b)
              else ret (st, b)) ;;
        wait_until_sunset fuel' test_time cfg (fst r) (snd r)
      else ret (st, b)
  end.

(** Lines 312-387: status report, video and camera switched on.  The
    result is [config_dict['camera']['video_device_exists']]. *)
Definition switch_on_hardware (test_time : Z) (data_path : string)
    (cfg : config_dict) : M bool :=
  log DEBUG "sunset_now" ;;
  leo get_temperature ;; log INFO "leostick_temperature" ;; sleep 1 ;;
  leo get_version ;; log INFO "leostick_version" ;; sleep 1 ;;
  leo get_sequence ;; log INFO "leostick_sequence" ;; sleep 1 ;;
  leo get_debug_codes ;; log INFO "leostick_debug" ;; sleep 1 ;;
  log INFO "cloud_file" ;;
  log INFO "HD_temperature" ;;
  log INFO "today_date" ;;
  log INFO "data_path" ;;
  log INFO "test_time" ;;
  log INFO "memory" ;;
  for_each (repeat tt (ntp_items E)) (fun _ => log INFO "ntp") ;;
  sleep 10 ;;
  video_device_exists <-
    (if video0_exists E then
       log INFO "video_device_found" ;;
       (if negb (String.eqb (video_enabled cfg) "0") then
          when (test_time =? 0) (log INFO "spawning_video" ;; emit SpawnVideo) ;;
          leo video_on ;;
          log INFO "video_on_ok"
        else log INFO "video_not_enabled") ;;
       ret true
     else
       log INFO "video_not_exist" ;; ret false) ;;
  leo camera_on ;;
  log INFO "camera_on_ok" ;;
  cam camera_download_images ;;
  emit (RenameRawAll data_path) ;;
  cam camera_set_time ;;
  sleep 1 ;;
  cam camera_get_time ;; log INFO "camera_time_get" ;;
  cam camera_set_program ;;
  cam camera_set_autoiso ;;
  cam camera_set_highisonr ;;
  cam camera_set_longexpnr ;;
  cam camera_set_vignette ;;
  cam camera_set_fstop ;;
  leo cond_on ;;
  when (match firmware_heater cfg with Some true => true | _ => false end)
       (leo heater_on) ;;
  cam get_camera_shutterspeed ;;
  emit SaveConfig ;;
  (if save_config_file E then log INFO "new_conf_file_written"
   else log WARNING "new_conf_file_write_error") ;;
  log INFO "location" ;;
  ret video_device_exists.

(** Lines 389-396. *)
Definition interval_time_of (test_time : Z) (cfg : config_dict) : Z :=
  if negb (test_time =? 0) then 180 else time_checking_clear cfg.

(** [subprocess.Popen([...])]: the launch either succeeds or raises the
    exception the operating system reports for this attempt. *)
Definition subprocess_Popen (c : command) : M unit :=
  fun s =>
    let s1 := with_popen_calls (S (popen_calls s))
                (with_trace (trace s ++ [Popen c]) s) in
    match popen_raises E (popen_calls s) with
    | Some e => (Raise e, s1)
    | None => (Ret tt, s1)
    end.

(** The [except subprocess.CalledProcessError] suites (lines 434-439,
    468-473, 553-558). *)
Definition tether_error_handler (err_key : string) : M unit :=
  log WARNING "argh-problem_starting_tether" ;;
  print err_key ;;
  emit (SubprocessCall gphoto_reset) ;;
  log INFO "gphoto_reset".

(** Camera settings of both twilights (lines 409-419, 529-538). *)
Definition twilight_settings (cfg : config_dict) : M unit :=
  cam (camera_set_quality JPG_MODE) ;;
  cam (camera_set_shutter
         (match twilight_exposuretime cfg with
          | Some x => x
          | None => camera_exposuretime cfg
          end)) ;;
  cam (camera_set_iso
         (match twilight_iso cfg with
          | Some x => x
          | None => camera_iso cfg
          end)).

(** The [while] loops of both twilights (lines 441-443, 560-562). *)
Fixpoint twilight_loop (fuel : nat) (boundary : Z) (current_dir : string)
    (interval_time : Z) (job_list : list nat) (cfg : config_dict) : M unit :=
  match fuel with
  | O => out_of_fuel
  | S fuel' =>
      t <- now ;;
      if t <? boundary then
        imgfile <- high_acq current_dir interval_time cfg ;;
        handle_new_image imgfile job_list current_dir cfg ;;
        twilight_loop fuel' boundary current_dir interval_time job_list cfg
      else ret tt
  end.

(** Lines 405-446. *)
Definition evening_twilight (fuel : nat) (test_time : Z) (b : schedule)
    (current_dir : string) (interval_time : Z) (job_list : list nat)
    (cfg : config_dict) : M unit :=
  if test_time =? 0 then
    log INFO "twilight_evening_settings" ;;
    twilight_settings cfg ;;
    log INFO "twilight_evening_starting" ;;
    try_except_CalledProcessError
      (t <- now ;;
       let evening_twilight_seconds :=
         total_seconds_int (sunset_after_twilight b - t) in
       subprocess_Popen (gphoto_tether_for evening_twilight_seconds) ;;
       log INFO "evening_twilight_tether_starting")
      (tether_error_handler "evening_twilight_tether_err") ;;
    twilight_loop fuel (sunset_after_twilight b) current_dir interval_time
      job_list cfg
  else
    log DEBUG "evening_twilight_not_called".

(** Lines 526-564. *)
Definition morning_twilight (fuel : nat) (test_time : Z) (b : schedule)
    (current_dir : string) (interval_time : Z) (job_list : list nat)
    (cfg : config_dict) : M unit :=
  if test_time =? 0 then
    log INFO "twilight_morning_settings" ;;
    twilight_settings cfg ;;
    log INFO "twilight_morning_start" ;;
    try_except_CalledProcessError
      (t <- now ;;
       let morning_twilight_seconds := total_seconds_int (sunrise b - t) in
       subprocess_Popen (gphoto_tether_for morning_twilight_seconds) ;;
       log INFO "morning_twilight_tether_starting")
      (tether_error_handler "morning_twilight_tether_err") ;;
    twilight_loop fuel (sunrise b) current_dir interval_time job_list cfg
  else
    log DEBUG "morning_twilight_not_called".

(** Lines 448-473.  The result is the local [tether]: bound ([Some]) only
    when the [Popen] call returned. *)
Definition start_night (cfg : config_dict) : M (option unit) :=
  log INFO "night_settings" ;;
  cam (camera_set_quality RAW_MODE) ;;
  cam (camera_set_shutter (camera_exposuretime cfg)) ;;
  cam (camera_set_iso (camera_iso cfg)) ;;
  log INFO "night_starting" ;;
  try_except_CalledProcessError
    (subprocess_Popen gphoto_tether ;;
     log INFO "night_tether_starting" ;;
     ret (Some tt))
    (tether_error_handler "night_tether_err" ;; ret None).

Definition cc_read_cloud_status : M Z :=
  fun s => (Ret (read_cloud_status E (cloud_reads s)),
            with_cloud_reads (S (cloud_reads s)) s).

(** One pass through the body of the night loop (lines 476-506); the
    result is the new [cloud_status_internal]. *)
Definition night_iteration (test_time : Z) (current_dir : string)
    (interval_time : Z) (cfg : config_dict) (cloud_status_internal : Z)
    : M Z :=
  cloud_status <- cc_read_cloud_status ;;
  print "sunrise" ;;
  log DEBUG "cloud_status" ;;
  cloud_status <-
    (if negb (test_time =? 0) then
       log DEBUG "testing_force_clear" ;; ret CLEAR
     else ret cloud_status) ;;
  (if cloud_status =? CLEAR then
     when (negb (cloud_status_internal =? CLEAR)) (log INFO "Gone_clear") ;;
     high_acq current_dir interval_time cfg
   else if cloud_status =? CLEARING then
     when (negb (cloud_status_internal =? CLEARING))
          (log INFO "Gone_clearing") ;;
     low_acq current_dir cloud_status cfg
   else if cloud_status =? CLOUDY then
     log INFO "Gone_cloudy" ;;
     low_acq current_dir cloud_status cfg
   else
     (if orb (cloud_status_internal =? CLEAR)
             (orb (cloud_status_internal =? CLEARING)
                  (cloud_status_internal =? CLOUDY))
      then log INFO "Gone_undefined_cloud_status"
      else log INFO "Still_undefined_cloud_status") ;;
     high_acq current_dir interval_time cfg) ;;
  ret cloud_status.

(** Lines 475-506. *)
Fixpoint night_loop (fuel : nat) (test_time : Z) (b : schedule)
    (current_dir : string) (interval_time : Z) (cfg : config_dict)
    (cloud_status_internal : Z) : M Z :=
  match fuel with
  | O => out_of_fuel
  | S fuel' =>
      t <- now ;;
      if t <? sunrise_before_twilight b then
        status <- night_iteration test_time current_dir interval_time cfg
                    cloud_status_internal ;;
        night_loop fuel' test_time b current_dir interval_time cfg status
      else ret cloud_status_internal
  end.

(** [tether.poll()].  An unbound [tether] raises [UnboundLocalError].
    Otherwise the call collects the child's status if the child has
    exited ([os.waitpid] with [WNOHANG]) and answers its return code, or
    [None] while it runs.  A child that exited by itself is found dead.
    A child that was sent a fatal signal dies asynchronously: whether
    this poll already finds it dead is up to the operating system
    ([tether_exit_seen], by the number of the poll), and right after
    [os.kill] it usually does not. *)
Definition tether_poll (tether : option unit) : M (option Z) :=
  match tether with
  | None => raise (UnboundLocalError "tether")
  | Some _ =>
      fun s =>
        let s1 := with_trace (trace s ++ [Poll]) s in
        if tether_reaped s then (Ret (Some (tether_returncode E)), s1)
        else if orb (tether_gone_by E (clock s))
                    (andb (tether_signalled s)
                          (tether_exit_seen E (polls_so_far (trace s))))
        then (Ret (Some (tether_returncode E)), with_tether_reaped true s1)
        else (Ret None, s1)
  end.

(** [Popen.send_signal] of Python 2.7 is the single statement
    [os.kill(self.pid, sig)].  With the child already collected the
    process id is gone and [os.kill] raises [OSError] (ESRCH); otherwise
    the signal is delivered, and it ends the child when it is [SIGKILL]
    or the child honours [SIGTERM]. *)
Definition tether_send_signal (tether : option unit) (sig : signal) : M unit :=
  match tether with
  | None => raise (UnboundLocalError "tether")
  | Some _ =>
      fun s =>
        if tether_reaped s then (Raise OSError, s)
        else
          let fatal := match sig with
                       | SIG0 => false
                       | SIGTERM => sigterm_effective E
                       | SIGKILL => true
                       end in
          (Ret tt, with_tether_signalled (orb (tether_signalled s) fatal)
                     (with_trace (trace s ++ [Kill sig]) s))
  end.

Definition tether_terminate (tether : option unit) : M unit :=
  tether_send_signal tether SIGTERM.

Definition tether_kill (tether : option unit) : M unit :=
  tether_send_signal tether SIGKILL.

(** [check_pid] (lines 774-781), for the process id of the night tether;
    nothing calls it. *)
Definition check_pid (tether : option unit) : M bool :=
  try_except exn_is_OSError
    (tether_send_signal tether SIG0 ;; ret true)
    (ret false).

(** Lines 510-514 and again 520-524. *)
Definition report_tether (tether : option unit) : M unit :=
  p <- tether_poll tether ;;
  print "tether.poll" ;;
  p <- tether_poll tether ;;
  match p with
  | None => log DEBUG "Tether_not_killed"
  | Some _ => log DEBUG "Tether_killed"
  end.

(** Lines 508-524. *)
Definition tether_teardown (tether : option unit) : M unit :=
  sleep 5 ;;
  report_tether tether ;;
  tether_terminate tether ;;
  tether_kill tether ;;
  report_tether tether.

(** Lines 566-643. *)
Definition sunrise_shutdown (test_time : Z) (video_device_exists : bool)
    (job_list : list nat) (data_path : string) (cfg : config_dict) : M bool :=
  log INFO "sunrise" ;;
  leo shutter_off ;;
  when video_device_exists (leo video_off ;; log INFO "video_off_ok") ;;
  leo wait_for_camera_ready ;;
  sleep 10 ;;
  for_each job_list (fun job => emit (JobJoin job)) ;;
  log INFO "finished_outstanding_tasks" ;;
  cam camera_download_images ;;
  leo camera_off ;;
  log INFO "camera_off_ok" ;;
  leo cond_off ;;
  ser_close ;;
  emit (RenameRawAll data_path) ;;
  log INFO "rename_RAW_all_ok" ;;
  (if String.eqb (clearing_quality cfg) "2" then
     emit (MakeAllThumb data_path) ;; log INFO "make_all_thumb_ok"
   else log DEBUG "make_all_thumb_not_called") ;;
  emit (Listdir data_path) ;;
  when (several_raw_files E) (log INFO "shuttercount") ;;
  log INFO "memory" ;;
  log INFO "today_disk_usage" ;;
  for_each (repeat tt (ntp_items E)) (fun _ => log INFO "ntp") ;;
  sleep 60 ;;
  (if test_time =? 0 then
     if match event_detect_enabled cfg with
        | None => true
        | Some v => andb (negb (String.eqb v "0")) (negb (String.eqb v "N"))
        end
     then
       log INFO "exiting_interval_control_calling_processing" ;;
       emit Execvp ;;
       (fun s => (Replaced, s))
     else log INFO "exiting_interval_control_processing_not_enabled"
   else log INFO "finished_interval_control_night_end_test") ;;
  emit LoggingShutdown ;;
  ret true.

(** The whole night, from line 159 on.  [job_list] is the empty list of
    line 111, which nothing appends to; [cfg], [data_path] and [pos] are
    what lines 118-122 loaded (the configuration, the directory of the
    night, the configured position); [fuel] bounds each loop. *)
Definition main_function (fuel : nat) (test_time : Z) (cfg : config_dict)
    (data_path : string) (pos : position) : M bool :=
  let job_list : list nat := [] in
  initialise_microcontroller cfg ;;
  st <- leo_update_GPS_location pos ;;
  log INFO "GPS_lonlat" ;;
  b <- calculate_sunset_and_sunrise test_time (fst st) cfg ;;
  r <- wait_until_sunset fuel test_time cfg st b ;;
  let b := snd r in
  video_device_exists <- switch_on_hardware test_time data_path cfg ;;
  let interval_time := interval_time_of test_time cfg in
  let current_dir := data_path in
  let cloud_status_internal := -3 in
  evening_twilight fuel test_time b current_dir interval_time job_list cfg ;;
  tether <- start_night cfg ;;
  night_loop fuel test_time b current_dir interval_time cfg
    cloud_status_internal ;;
  tether_teardown tether ;;
  morning_twilight fuel test_time b current_dir interval_time job_list cfg ;;
  sunrise_shutdown test_time video_device_exists job_list data_path cfg.

End Controller.

(** ** The script entry (lines 784-797) *)

Section Script.

Variable E : env.

(** [int(sys.argv[2])]: the integer the string spells, if it spells one. *)
Variable py_int : string -> option Z.

(** Lines 785-795: the value of [test_time] when [main_function] is
    called.  With a first argument other than "test" no branch assigns
    the name, and evaluating the call's argument raises [NameError]. *)
Definition script_test_time (argv : list string) : M Z :=
  match argv with
  | _ :: arg1 :: rest =>
      if String.eqb (lower arg1) "test" then
        print arg1 ;;
        test_time <-
          match rest with
          | arg2 :: _ =>
              match py_int arg2 with
              | Some n => ret n
              | None => raise ValueError
              end
          | [] => ret 180
          end ;;
        if test_time <? 180 then ret 180 else ret test_time
      else raise (NameError "test_time")
  | _ => ret 0
  end.

(** Lines 784-797; [sys.exit(0)] ends the process after the return. *)
Definition script_main (fuel : nat) (argv : list string) (cfg : config_dict)
    (data_path : string) (pos : position) : M bool :=
  test_time <- script_test_time argv ;;
  main_function E fuel test_time cfg data_path pos.

End Script.

(** ** [move_jpg_to_cloudy] (lines 741-753) *)

(** [os.path.join(a, b)] of [posixpath]. *)
Definition os_path_join (a b : string) : string :=
  if String.prefix "/" b then b
  else if orb (String.eqb a "") (endswith a "/") then String.append a b
  else String.append a (String.append "/" b).

(** What the function does to the outside: the one [shutil.move] and its
    log lines. *)
Inductive cloudy_event : Type :=
| ShutilMove (src dst : string)
| CloudyLog (lvl : level) (key : string).

(** [isfile] is [os.path.isfile]; [cloudy_img_file] is
    [config_dict['internal']['cloudy_img_file']]. *)
Definition move_jpg_to_cloudy (isfile : string -> bool)
    (current_dir imgfile cloudy_img_file : string)
    : list cloudy_event * string :=
  let imgfile := os_path_join current_dir imgfile in
  if isfile imgfile then
    ([ ShutilMove imgfile cloudy_img_file;
       CloudyLog INFO "moved imgfile";
       CloudyLog INFO "slow_dl_image2" ],
     cloudy_img_file)
  else
    ([ CloudyLog INFO "slow_dl_not-valid-file" ], imgfile).

(** ** Vocabulary of the statements *)

(** What one [high_acq] chunk leaves in the trace. *)
Definition high_acq_events (current_dir : string) (interval_time : Z)
    : list event :=
  [ Log INFO "starting_high_acq_chunk";
    Leo shutter_on;
    Print "hr";
    Sleep interval_time;
    Leo shutter_off;
    Listdir current_dir;
    Log INFO "finished_high_acq_chunk";
    RenameRawAll current_dir;
    Log DEBUG "renamed_images";
    MakeAllThumb current_dir;
    Log DEBUG "thumbed_images";
    GetLatestImagefile current_dir;
    Log INFO "finished_rename_get_latest" ].

(** What one [low_acq] call leaves in the trace. *)
Definition low_acq_events (current_dir : string) (sleep_time : Z)
    : list event :=
  [ Log INFO "starting_low_acq";
    Sleep sleep_time;
    Leo single_image;
    RenameRawAll current_dir;
    MakeAllThumb current_dir;
    GetLatestImagefile current_dir;
    Log DEBUG "finished_low_acq" ].

(** The state after [evs] were appended and [dt] seconds went by. *)
Definition advance (evs : list event) (dt : Z) (s : state) : state :=
  with_clock (clock s + seconds dt) (with_trace (trace s ++ evs) s).

(** [m] adds to the trace only events that satisfy [P], however it ends. *)
Definition only_emits {A} (P : event -> bool) (m : M A) : Prop :=
  forall s, exists evs,
    trace (snd (m s)) = trace s ++ evs /\ forallb P evs = true.

(** [os.path.isfile] is called by [handle_new_image] alone (and by the
    unused [move_jpg_to_cloudy]); the event marks a call of the former. *)
Definition is_Isfile (e : event) : bool :=
  match e with Isfile _ => true | _ => false end.

(** [leo.single_image()] is issued by [low_acq] alone. *)
Definition is_single_image (e : event) : bool :=
  match e with Leo single_image => true | _ => false end.

Definition is_shutter_on (e : event) : bool :=
  match e with Leo shutter_on => true | _ => false end.

Definition is_WriteLastImageFile (e : event) : bool :=
  match e with WriteLastImageFile _ _ => true | _ => false end.

(** The acquisition procedure behind each exposure command of a trace. *)
Inductive acquisition : Type := HighRate | LowRate.

Fixpoint acquisitions (evs : list event) : list acquisition :=
  match evs with
  | [] => []
  | Leo shutter_on :: rest => HighRate :: acquisitions rest
  | Leo single_image :: rest => LowRate :: acquisitions rest
  | _ :: rest => acquisitions rest
  end.

(** The "Gone_..." and "Still_..." lines of a trace, in order. *)
Fixpoint status_lines (evs : list event) : list string :=
  match evs with
  | [] => []
  | Log INFO key :: rest =>
      if orb (String.prefix "Gone_" key) (String.prefix "Still_" key)
      then key :: status_lines rest
      else status_lines rest
  | _ :: rest => status_lines rest
  end.

(** The status the night loop branches on (lines 477-485). *)
Definition effective_status (test_time reading : Z) : Z :=
  if negb (test_time =? 0) then CLEAR else reading.

(** The status line of one night iteration (lines 488-503). *)
Definition status_log (prev status : Z) : list event :=
  if status =? CLEAR then
    if negb (prev =? CLEAR) then [Log INFO "Gone_clear"] else []
  else if status =? CLEARING then
    if negb (prev =? CLEARING) then [Log INFO "Gone_clearing"] else []
  else if status =? CLOUDY then [Log INFO "Gone_cloudy"]
  else if orb (prev =? CLEAR) (orb (prev =? CLEARING) (prev =? CLOUDY))
       then [Log INFO "Gone_undefined_cloud_status"]
       else [Log INFO "Still_undefined_cloud_status"].

(** How long the acquisition selected for [status] sleeps. *)
Definition acquisition_seconds (interval_time : Z) (cfg : config_dict)
    (status : Z) : Z :=
  if status =? CLEAR then interval_time
  else if status =? CLEARING then time_checking_clearing cfg
  else if status =? CLOUDY then time_checking_cloudy cfg
  else interval_time.

(** What the acquisition selected for [status] leaves in the trace. *)
Definition acquisition_events (current_dir : string) (interval_time : Z)
    (cfg : config_dict) (status : Z) : list event :=
  if status =? CLEAR then high_acq_events current_dir interval_time
  else if status =? CLEARING
       then low_acq_events current_dir (time_checking_clearing cfg)
  else if status =? CLOUDY
       then low_acq_events current_dir (time_checking_cloudy cfg)
  else high_acq_events current_dir interval_time.

(** The trace of one night iteration. *)
Definition night_iteration_events (test_time : Z) (current_dir : string)
    (interval_time : Z) (cfg : config_dict) (prev reading : Z) : list event :=
  [Print "sunrise"; Log DEBUG "cloud_status"]
  ++ (if negb (test_time =? 0) then [Log DEBUG "testing_force_clear"] else [])
  ++ status_log prev (effective_status test_time reading)
  ++ acquisition_events current_dir interval_time cfg
       (effective_status test_time reading).

(** The image the JPEG branch of [handle_new_image] records (lines
    716-721). *)
Definition jpg_recorded (E : env) (cfg : config_dict) (renamed : string)
    : string :=
  if andb (negb (str_in "thumb.jpg" renamed))
          (String.eqb (clearing_quality cfg) "2")
  then make_thumb E renamed else renamed.

(** The boundaries of lines 201-216 before the late-start test of line
    230 is applied: [t] is the clock, [sun] the ephemeris answer. *)
Definition computed_boundaries (test_time t : Z) (sun : Z * Z)
    (leeway : Z) : schedule :=
  if negb (test_time =? 0) then
    {| sunset := t + seconds 30;
       sunset_after_twilight := t + seconds 30;
       sunrise_before_twilight := t + seconds 30 + seconds test_time;
       sunrise := t + seconds 30 + seconds test_time |}
  else
    {| sunset := snd sun + leeway;
       sunset_after_twilight := snd sun + leeway + minutes 10;
       sunrise_before_twilight := fst sun - leeway - minutes 10;
       sunrise := fst sun - leeway |}.

(** The log lines of one boundary computation. *)
Definition boundary_log (E : env) (late : bool) : list event :=
  [ Log INFO "sunset"; Log INFO "sunset_after_twilight";
    Log INFO "sunrise_before_twilight"; Log INFO "sunrise";
    Log INFO "now"; Log INFO "UTCnow"; Log INFO "timezone" ]
  ++ (if daylight E then [Log INFO "altzone"] else [])
  ++ (if late then [Log INFO "late_start-forcing_immediate"] else [])
  ++ [ Log DEBUG "recalc_sunrise" ].

(** ** Concrete stations for the examples *)

Definition sample_cfg : config_dict :=
  {| sun_leeway := minutes 10;
     exp_mode := "BULB";
     video_enabled := "0";
     firmware_heater := None;
     twilight_exposuretime := None;
     camera_exposuretime := "25";
     twilight_iso := None;
     camera_iso := "6400";
     time_checking_clear := 600;
     time_checking_cloudy := 900;
     time_checking_clearing := 300;
     clearing_quality := "2";
     last_img_status_file := "/tmp/last_img_status.txt";
     event_detect_enabled := None |}.

(** A station whose ephemeris answers [sun], whose cloud monitor reads
    [status], whose disk is full or not, whose [Popen] attempts end as
    [launch] says and whose night tether has died by itself or not. *)
Definition sample_env (sun : Z * Z) (status : nat -> Z) (full : bool)
    (launch : nat -> option exn) (gone : bool) : env :=
  {| generate_sun_and_moon := fun _ => sun;
     update_GPS_location := fun _ pos => (pos, "N");
     read_cloud_status := status;
     detect_disk_full := fun _ => full;
     isfile := fun f => negb (String.eqb f "");
     video0_exists := false;
     get_latest_imagefile := fun _ dir => String.append dir "/DSC_0001.NEF";
     rename_RAW := fun f => f;
     make_thumb := fun f => String.append f ".thumb.jpg";
     save_config_file := true;
     daylight := false;
     ntp_items := 0;
     several_raw_files := true;
     popen_raises := launch;
     tether_gone_by := fun _ => gone;
     sigterm_effective := false;
     tether_exit_seen := fun _ => false;
     tether_returncode := -9 |}.

(** Sunrise at 06:00 of the next day and sunset at 18:00, in seconds
    from midnight. *)
Definition usual_sun : Z * Z := (seconds 108000, seconds 64800).

Definition all_launches_succeed : nat -> option exn := fun _ => None.

Definition readings (l : list Z) : nat -> Z := fun n => nth n l (-1).

Definition start_state (t : Z) : state :=
  {| clock := t; trace := []; gps_queries := 0; cloud_reads := 0;
     popen_calls := 0; serial_open := false; tether_signalled := false;
     tether_reaped := false |}.

(** A schedule whose night ends at [t]. *)
Definition night_until (t : Z) : schedule :=
  {| sunset := 0; sunset_after_twilight := 0;
     sunrise_before_twilight := t; sunrise := t |}.

(** A night of 3000 seconds under the readings Clear, Clearing, Cloudy,
    an undefined value and Clear again, with the durations of
    [sample_cfg] (600, 300, 900, 600 and 600 seconds). *)
Definition five_status_night : result Z * state :=
  night_loop
    (sample_env usual_sun (readings [CLEAR; CLEARING; CLOUDY; -1; CLEAR])
       false all_launches_succeed false)
    6 0 (night_until (seconds 3000)) "/data0/latest" 600 sample_cfg (-3)
    (start_state 0).

(** A night of 1800 seconds that stays Cloudy. *)
Definition cloudy_night : result Z * state :=
  night_loop
    (sample_env usual_sun (readings [CLOUDY; CLOUDY])
       false all_launches_succeed false)
    3 0 (night_until (seconds 1800)) "/data0/latest" 600 sample_cfg (-3)
    (start_state 0).

(** A high-latitude summer night: the sun sets at 0 and rises 25
    minutes later. *)
Definition short_night_env : env :=
  sample_env (minutes 25, 0) (readings []) false all_launches_succeed false.

(** A station where gphoto2 cannot be started: every [Popen] raises
    [OSError]. *)
Definition no_gphoto_env : env :=
  sample_env usual_sun (readings []) false (fun _ => Some OSError) false.

(** A station whose night tether has died by itself. *)
Definition dead_tether_env : env :=
  sample_env usual_sun (readings []) false all_launches_succeed true.

(** The events of a twilight phase up to the [Popen] call. *)
Definition twilight_opening (settings_key starting_key : string)
    (cfg : config_dict) (secs : Z) : list event :=
  [ Log INFO settings_key;
    Cam (camera_set_quality JPG_MODE);
    Cam (camera_set_shutter
           (match twilight_exposuretime cfg with
            | Some x => x
            | None => camera_exposuretime cfg
            end));
    Cam (camera_set_iso
           (match twilight_iso cfg with
            | Some x => x
            | None => camera_iso cfg
            end));
    Log INFO starting_key;
    Popen (gphoto_tether_for secs) ].

(** The events of the [except] suite. *)
Definition tether_error_events (err_key : string) : list event :=
  [ Log WARNING "argh-problem_starting_tether";
    Print err_key;
    SubprocessCall gphoto_reset;
    Log INFO "gphoto_reset" ].

(** A night without test mode on the station where gphoto2 cannot be
    started, begun ten seconds before sunset (18:10 with the leeway). *)
Definition launch_failure_session : result bool * state :=
  main_function no_gphoto_env 3 0 sample_cfg "/data0/latest" (0, 0, 0)
    (start_state (seconds 65390)).

Definition is_SubprocessCall (e : event) : bool :=
  match e with SubprocessCall _ => true | _ => false end.

(** An uneventful station: room on the disk, gphoto2 starts and keeps
    running, no cloud readings on record. *)
Definition quiet_env : env :=
  sample_env usual_sun (readings []) false all_launches_succeed false.

(** A test run of 240 seconds on the station whose tether dies. *)
Definition dead_tether_session : result bool * state :=
  main_function dead_tether_env 3 240 sample_cfg "/data0/latest" (0, 0, 0)
    (start_state 0).

Definition is_SerClose (e : event) : bool :=
  match e with SerClose => true | _ => false end.

(** ** Further vocabulary *)

(** Whether the shutter trigger is held after [evs], given whether it
    was held before. *)
Fixpoint shutter_after (held : bool) (evs : list event) : bool :=
  match evs with
  | [] => held
  | Leo shutter_on :: rest => shutter_after true rest
  | Leo shutter_off :: rest => shutter_after false rest
  | _ :: rest => shutter_after held rest
  end.


(** A parser for the examples: the decimal strings the examples use. *)
Definition sample_int (s : string) : option Z :=
  if String.eqb s "240" then Some 240
  else if String.eqb s "60" then Some 60
  else None.

(** A station whose latest image is a twilight JPEG. *)
Definition jpg_env : env :=
  {| generate_sun_and_moon := fun _ => usual_sun;
     update_GPS_location := fun _ pos => (pos, "N");
     read_cloud_status := readings [];
     detect_disk_full := fun _ => false;
     isfile := fun f => negb (String.eqb f "");
     video0_exists := false;
     get_latest_imagefile := fun _ dir => String.append dir "/DSC_0002.JPG";
     rename_RAW := fun f => f;
     make_thumb := fun f => String.append f ".thumb.jpg";
     save_config_file := true;
     daylight := false;
     ntp_items := 0;
     several_raw_files := true;
     popen_raises := all_launches_succeed;
     tether_gone_by := fun _ => false;
     sigterm_effective := false;
     tether_exit_seen := fun _ => false;
     tether_returncode := -9 |}.

(** The trace of [n] polls of the wait for sunset. *)
Fixpoint poll_events (n : nat) : list event :=
  match n with
  | O => []
  | S n' =>
      [ Log DEBUG "waiting_for_sunset"; Print "waiting_for_sunset"; Sleep 30 ]
      ++ poll_events n'
  end.

(** A station started at 20:00, after sunset: the ephemeris answers the
    next sunrise (06:00 tomorrow) and the next sunset (18:00 tomorrow). *)
Definition late_env : env :=
  sample_env (seconds 108000, seconds 151200) (readings []) false
    all_launches_succeed false.

(** A station with a GPS lock. *)
Definition locked_station : station := ((0, 0, 0), "L").

(** The session of the late start, with budget for 150 passes per loop. *)
Definition late_session : result bool * state :=
  main_function late_env 150 0 sample_cfg "/data0/latest" (0, 0, 0)
    (start_state (seconds 72000)).

(** Whether the shutdown ends in the hand-off to the processing wrapper
    (lines 623-626). *)
Definition hands_off (test_time : Z) (cfg : config_dict) : bool :=
  andb (test_time =? 0)
       (match event_detect_enabled cfg with
        | None => true
        | Some v => andb (negb (String.eqb v "0")) (negb (String.eqb v "N"))
        end).

(** The steps of a shutdown that act on the station: commands, sleeps,
    joins, the download, the channel, the hand-off. *)
Definition is_shutdown_step (e : event) : bool :=
  match e with
  | Leo _ | Sleep _ | JobJoin _ | SerClose | Execvp => true
  | Cam camera_download_images => true
  | _ => false
  end.

(** [m] leaves the hardware channel as it found it and does not replace
    the process. *)
Definition quiet {A} (m : M A) : Prop :=
  forall s, serial_open (snd (m s)) = serial_open s /\ fst (m s) <> Replaced.

(** Entered with the channel open, [m] ends with the channel closed when
    it returns or hands off, and with the channel still open when it ends
    in an exception or runs out of budget. *)
Definition channel_law (m : M bool) : Prop :=
  forall s,
    serial_open s = true ->
    match fst (m s) with
    | Ret _ | Replaced => serial_open (snd (m s)) = false
    | Raise _ | Fuel => serial_open (snd (m s)) = true
    end.

(** Whatever [m] adds to the trace ends with the shutter trigger
    released, if it was released before. *)
Definition ends_released {A} (m : M A) : Prop :=
  forall s, exists evs,
    trace (snd (m s)) = trace s ++ evs /\ shutter_after false evs = false.

Definition is_Kill (e : event) : bool :=
  match e with Kill _ => true | _ => false end.

(** Whether the child of the night tether, which nothing has signalled
    yet, is still running [dt] seconds from now: not collected and not
    gone by itself. *)
Definition tether_running_after (E : env) (dt : Z) (s : state) : bool :=
  negb (orb (tether_reaped s) (tether_gone_by E (clock s + seconds dt))).

(** A station on which a killed child is found dead by the next poll. *)
Definition prompt_exit_env : env :=
  {| generate_sun_and_moon := fun _ => usual_sun;
     update_GPS_location := fun _ pos => (pos, "N");
     read_cloud_status := readings [];
     detect_disk_full := fun _ => false;
     isfile := fun f => negb (String.eqb f "");
     video0_exists := false;
     get_latest_imagefile := fun _ dir => String.append dir "/DSC_0001.NEF";
     rename_RAW := fun f => f;
     make_thumb := fun f => String.append f ".thumb.jpg";
     save_config_file := true;
     daylight := false;
     ntp_items := 0;
     several_raw_files := true;
     popen_raises := all_launches_succeed;
     tether_gone_by := fun _ => false;
     sigterm_effective := false;
     tether_exit_seen := fun _ => true;
     tether_returncode := -9 |}.

(** The trace of one teardown that goes through; [collected] tells
    whether one of the two polls after the kill found the child dead. *)
Definition teardown_events (collected : bool) : list event :=
  [ Sleep 5; Poll; Print "tether.poll"; Poll;
    Log DEBUG "Tether_not_killed";
    Kill SIGTERM; Kill SIGKILL;
    Poll; Print "tether.poll"; Poll;
    Log DEBUG (if collected then "Tether_killed" else "Tether_not_killed") ].


(** The outcome of [high_acq] as an outcome of [high_acq_any]. *)
Definition as_answer (r : result string) : result helper_answer :=
  match r with
  | Ret f => Ret (Str f)
  | Raise e => Raise e
  | Replaced => Replaced
  | Fuel => Fuel
  end.

(** A helper that finds no file and says so with the empty string, and
    one that says so with a value that is no string. *)
Definition latest_empty_string : Z -> string -> helper_answer :=
  fun _ _ => Str "".

Definition latest_not_a_string : Z -> string -> helper_answer :=
  fun _ _ => NotStr.

(** The acquisition procedure the night loop selects for a status. *)
Definition selected (status : Z) : acquisition :=
  if orb (status =? CLEARING) (status =? CLOUDY) then LowRate else HighRate.

(** The schedule that lines 200-236 arrive at outside a test run, at
    clock [t] and for the position [pos]. *)
Definition schedule_at (E : env) (cfg : config_dict) (t : Z) (pos : position)
    : schedule :=
  let raw := computed_boundaries 0 t (generate_sun_and_moon E pos)
               (sun_leeway cfg) in
  if sunset raw >=? sunrise raw then with_sunset (t + seconds 30) raw
  else raw.

(** Whether that computation takes the late-start branch. *)
Definition late_at (E : env) (cfg : config_dict) (t : Z) (pos : position)
    : bool :=
  let raw := computed_boundaries 0 t (generate_sun_and_moon E pos)
               (sun_leeway cfg) in
  sunset raw >=? sunrise raw.

(** A station whose GPS receiver reports a lock, and a position, at the
    first query. *)
Definition lock_env : env :=
  {| generate_sun_and_moon := fun _ => usual_sun;
     update_GPS_location := fun _ _ => ((115, -32, 20), "L");
     read_cloud_status := readings [];
     detect_disk_full := fun _ => false;
     isfile := fun f => negb (String.eqb f "");
     video0_exists := false;
     get_latest_imagefile := fun _ dir => String.append dir "/DSC_0001.NEF";
     rename_RAW := fun f => f;
     make_thumb := fun f => String.append f ".thumb.jpg";
     save_config_file := true;
     daylight := false;
     ntp_items := 0;
     several_raw_files := true;
     popen_raises := all_launches_succeed;
     tether_gone_by := fun _ => false;
     sigterm_effective := false;
     tether_exit_seen := fun _ => false;
     tether_returncode := -9 |}.


Definition is_ShutilMove (e : cloudy_event) : bool :=
  match e with ShutilMove _ _ => true | _ => false end.

(** ** Symbolic execution *)

Arguments endswith : simpl never.
Arguments polls_so_far : simpl never.
Arguments str_in : simpl never.
Arguments lower : simpl never.
Arguments seconds : simpl never.
Arguments sleep : simpl never.
Arguments high_acq : simpl never.
Arguments low_acq : simpl never.
Arguments handle_new_image : simpl never.
Arguments clean_up_no_dl : simpl never.

Lemma state_ext (s1 s2 : state) :
  clock s1 = clock s2 -> trace s1 = trace s2 ->
  gps_queries s1 = gps_queries s2 -> cloud_reads s1 = cloud_reads s2 ->
  popen_calls s1 = popen_calls s2 -> serial_open s1 = serial_open s2 ->
  tether_signalled s1 = tether_signalled s2 ->
  tether_reaped s1 = tether_reaped s2 ->
  s1 = s2.
Proof.
  destruct s1, s2; cbn; intros; subst; reflexivity.
Qed.

Lemma bind_Ret {A B} (m : M A) (k : A -> M B) s a s1 :
  m s = (Ret a, s1) -> bind m k s = k a s1.
Proof. intros H. unfold bind. rewrite H. reflexivity. Qed.

Lemma bind_Raise {A B} (m : M A) (k : A -> M B) s e s1 :
  m s = (Raise e, s1) -> bind m k s = (Raise e, s1).
Proof. intros H. unfold bind. rewrite H. reflexivity. Qed.

Lemma sleep_run (n : Z) (s : state) :
  0 <= n -> sleep n s = (Ret tt, advance [Sleep n] n s).
Proof.
  intros H. unfold sleep.
  destruct (n <? 0) eqn:Hn; [apply Z.ltb_lt in Hn; lia | reflexivity].
Qed.

Example str_in_examples :
  str_in "cloudy_img" "/tmp/cloudy_img.jpg" = true /\
  str_in "clearing" "/data0/latest/DSC_0001.NEF" = false /\
  str_in "thumb.jpg" "/data0/latest/DSC_0002.thumb.jpg" = true /\
  str_in "" "" = true.
Proof. repeat split. Qed.

Example endswith_lower_examples :
  endswith (lower "/data0/latest/DSC_0002.JPG") ".jpg" = true /\
  endswith (lower "/data0/latest/DSC_0001.NEF") ".jpg" = false /\
  endswith "jpg" ".jpg" = false /\
  lower "DSC_0001.NEF" = "dsc_0001.nef".
Proof. repeat split. Qed.

Example total_seconds_int_examples :
  total_seconds_int 1500000 = 1 /\ total_seconds_int (-1500000) = -1.
Proof. split; reflexivity. Qed.

Ltac exec :=
  unfold when, log, leo, cam, print; unfold bind, emit, ret, raise, now; cbn.

Ltac run_sleep :=
  match goal with
  | |- context [sleep ?n ?s0] => rewrite (sleep_run n s0) by lia; cbn
  end.

(** Read a field off a state built with the setters. *)
Ltac fields :=
  cbn [clock trace gps_queries cloud_reads popen_calls serial_open
       tether_signalled tether_reaped advance with_clock with_trace
       with_gps_queries with_cloud_reads with_popen_calls with_serial_open
       with_tether_signalled with_tether_reaped
       sunset sunset_after_twilight sunrise_before_twilight sunrise
       with_sunset] in *.

Ltac state_eq :=
  apply state_ext; fields; unfold seconds; rewrite <- ?app_assoc; cbn [app];
  try reflexivity; try lia.

Section Acquisition.

Variable E : env.

Lemma high_acq_run current_dir interval_time cfg s :
  0 <= interval_time ->
  high_acq E current_dir interval_time cfg s =
    (Ret (get_latest_imagefile E (clock s + seconds interval_time) current_dir),
     advance (high_acq_events current_dir interval_time) interval_time s).
Proof.
  intros H. unfold high_acq, log, leo, print, dfn_get_latest_imagefile.
  cbn. rewrite (bind_Ret _ _ _ _ _ (sleep_run _ _ H)). cbn.
  unfold ret. f_equal. state_eq.
Qed.

Lemma low_acq_run current_dir cloud_status cfg s sleep_time :
  sleep_time = (if cloud_status =? CLOUDY then time_checking_cloudy cfg
                else time_checking_clearing cfg) ->
  cloud_status = CLOUDY \/ cloud_status = CLEARING ->
  0 <= sleep_time ->
  low_acq E current_dir cloud_status cfg s =
    (Ret (get_latest_imagefile E (clock s + seconds sleep_time) current_dir),
     advance (low_acq_events current_dir sleep_time) sleep_time s).
Proof.
  intros Hst Hcs H. unfold low_acq, log, leo, dfn_get_latest_imagefile.
  assert (Hsel : (if cloud_status =? CLOUDY
                  then ret (time_checking_cloudy cfg)
                  else if cloud_status =? CLEARING
                       then ret (time_checking_clearing cfg)
                       else raise TypeError) s = (Ret sleep_time, s)).
  { subst sleep_time. destruct Hcs as [-> | ->]; reflexivity. }
  rewrite (bind_Ret _ _ _ _ _ Hsel). cbn.
  rewrite (bind_Ret _ _ _ _ _ (sleep_run _ _ H)). cbn.
  unfold ret. f_equal. state_eq.
Qed.

Lemma join_jobs_run (job_list : list nat) (s : state) :
  for_each job_list (fun job => emit (JobJoin job)) s =
    (Ret tt, with_trace (trace s ++ map JobJoin job_list) s).
Proof.
  revert s. induction job_list as [|j l IH]; intros s; cbn.
  - unfold ret. f_equal. state_eq. now rewrite app_nil_r.
  - rewrite IH. f_equal. state_eq.
Qed.

(** The fault shutdown stops at [ser.close()]. *)
Lemma clean_up_no_dl_run (job_list : list nat) (s : state) :
  clean_up_no_dl job_list s =
    (Raise (NameError "ser"),
     advance ([Leo shutter_off; Leo cond_off; Leo wait_for_camera_ready;
               Leo video_off; Sleep 10; Leo camera_off]
              ++ map JobJoin job_list) 10 s).
Proof.
  unfold clean_up_no_dl. exec. run_sleep.
  rewrite join_jobs_run. cbn. f_equal. state_eq.
Qed.

Lemma handle_new_image_disk_full imgfile job_list current_dir cfg s :
  isfile E imgfile = true ->
  detect_disk_full E (clock s) = true ->
  handle_new_image E imgfile job_list current_dir cfg s =
    (Raise (NameError "ser"),
     advance ([Isfile imgfile;
               Log INFO "handle-image_starting";
               Log CRITICAL "disk-full_early-exit";
               Leo shutter_off; Leo cond_off; Leo wait_for_camera_ready;
               Leo video_off; Sleep 10; Leo camera_off]
              ++ map JobJoin job_list) 10 s).
Proof.
  intros Hf Hd. unfold handle_new_image, os_path_isfile, log. cbn.
  rewrite Hf. cbn. rewrite Hd. cbn.
  rewrite (bind_Raise _ _ _ _ _ (clean_up_no_dl_run _ _)).
  f_equal. state_eq.
Qed.

Lemma handle_new_image_missing imgfile job_list current_dir cfg s :
  isfile E imgfile = false ->
  handle_new_image E imgfile job_list current_dir cfg s =
    (Ret None,
     advance [Isfile imgfile; Log INFO "argh-imgfile_not_exist"] 0 s).
Proof.
  intros Hf. unfold handle_new_image, os_path_isfile, log. cbn.
  rewrite Hf. cbn. unfold ret. f_equal. state_eq.
Qed.

End Acquisition.

Section ImageHandling.

Variable E : env.

Lemma handle_new_image_marker imgfile job_list current_dir cfg s :
  isfile E imgfile = true ->
  detect_disk_full E (clock s) = false ->
  orb (str_in "cloudy_img" imgfile) (str_in "clearing" imgfile) = true ->
  handle_new_image E imgfile job_list current_dir cfg s =
    (Ret None,
     advance [Isfile imgfile;
              Log INFO "handle-image_starting";
              Log INFO "handle-image_cloudy_and_clearing";
              WriteLastImageFile imgfile (last_img_status_file cfg);
              Stat imgfile;
              Log INFO "latest_image"] 0 s).
Proof.
  intros Hf Hd Hm.
  unfold handle_new_image, os_path_isfile, log, dfn_write_last_image_file.
  cbn. rewrite Hf. cbn. rewrite Hd. cbn. rewrite Hm. cbn.
  unfold ret. f_equal. state_eq.
Qed.

Lemma handle_new_image_jpg imgfile job_list current_dir cfg s :
  isfile E imgfile = true ->
  detect_disk_full E (clock s) = false ->
  orb (str_in "cloudy_img" imgfile) (str_in "clearing" imgfile) = false ->
  endswith (lower (rename_RAW E imgfile)) ".jpg" = true ->
  handle_new_image E imgfile job_list current_dir cfg s =
    (Ret None,
     advance ([Isfile imgfile;
               Log INFO "handle-image_starting";
               RenameRaw imgfile;
               Log INFO "handle-image_jpg"]
              ++ (if andb (negb (str_in "thumb.jpg" (rename_RAW E imgfile)))
                          (String.eqb (clearing_quality cfg) "2")
                  then [MakeThumb (rename_RAW E imgfile);
                        Log INFO "handle-image_thumb-jpg"]
                  else [])
              ++ [WriteLastImageFile (jpg_recorded E cfg (rename_RAW E imgfile))
                    (last_img_status_file cfg);
                  WriteLastImageFile (jpg_recorded E cfg (rename_RAW E imgfile))
                    "/tmp/latest_img.tmp";
                  Stat (jpg_recorded E cfg (rename_RAW E imgfile));
                  Log INFO "latest_image"]) 0 s).
Proof.
  intros Hf Hd Hm Hj.
  unfold handle_new_image, os_path_isfile, dfn_write_last_image_file,
    dfn_rename_RAW, dfn_make_thumb, dfn_detect_disk_full, jpg_recorded.
  exec. rewrite Hf. cbn. rewrite Hd. cbn. rewrite Hm. cbn. rewrite Hj.
  destruct (str_in "thumb.jpg" (rename_RAW E imgfile)); cbn;
    [| destruct (String.eqb (clearing_quality cfg) "2"); cbn];
    f_equal; state_eq.
Qed.

Lemma handle_new_image_raw imgfile job_list current_dir cfg s :
  isfile E imgfile = true ->
  detect_disk_full E (clock s) = false ->
  orb (str_in "cloudy_img" imgfile) (str_in "clearing" imgfile) = false ->
  endswith (lower (rename_RAW E imgfile)) ".jpg" = false ->
  handle_new_image E imgfile job_list current_dir cfg s =
    (Ret None,
     advance [Isfile imgfile;
              Log INFO "handle-image_starting";
              RenameRaw imgfile;
              Log INFO "making_thumb_for_cloudy";
              MakeThumb (rename_RAW E imgfile);
              Stat (make_thumb E (rename_RAW E imgfile));
              Log INFO "latest_image"] 0 s).
Proof.
  intros Hf Hd Hm Hj.
  unfold handle_new_image, os_path_isfile, dfn_rename_RAW, dfn_make_thumb,
    dfn_detect_disk_full.
  exec. rewrite Hf. cbn. rewrite Hd. cbn. rewrite Hm. cbn. rewrite Hj. cbn.
  f_equal. state_eq.
Qed.

End ImageHandling.

(** ** The acquisition and image-handling procedures *)

(** [high_acq_any] step by step: the trigger window and both passes come
    first, then the helper is asked, and only a [str] gets past line 669. *)
Lemma high_acq_any_run latest current_dir interval_time cfg s :
  0 <= interval_time ->
  high_acq_any latest current_dir interval_time cfg s =
    match latest (clock s + seconds interval_time) current_dir with
    | Str f =>
        (Ret (Str f),
         advance (high_acq_events current_dir interval_time) interval_time s)
    | NotStr =>
        (Raise TypeError,
         advance (removelast (high_acq_events current_dir interval_time))
           interval_time s)
    end.
Proof.
  intros H. unfold high_acq_any, log, leo, print.
  cbn. rewrite (bind_Ret _ _ _ _ _ (sleep_run _ _ H)). cbn.
  destruct (latest (clock s + seconds interval_time) current_dir);
    cbn; unfold ret, raise; f_equal; state_eq.
Qed.

(** For a helper that answers a [str] every time, [high_acq_any] is
    [high_acq]. *)
Lemma high_acq_any_str E current_dir interval_time cfg s :
  high_acq_any (fun t dir => Str (get_latest_imagefile E t dir))
    current_dir interval_time cfg s =
    (as_answer (fst (high_acq E current_dir interval_time cfg s)),
     snd (high_acq E current_dir interval_time cfg s)).
Proof.
  destruct (Z_lt_ge_dec interval_time 0) as [Hneg|Hpos].
  - apply Z.ltb_lt in Hneg.
    unfold high_acq_any, high_acq, log, leo, print, sleep.
    rewrite Hneg. reflexivity.
  - assert (H : 0 <= interval_time) by lia.
    rewrite (high_acq_any_run _ current_dir interval_time cfg s H).
    rewrite (high_acq_run E current_dir interval_time cfg s H).
    reflexivity.
Qed.

(** C8. For every interval, zero included, [high_acq] holds the shutter
    trigger for the interval and releases it, then runs the rename pass
    and the thumbnail pass, asks [dfn.get_latest_imagefile] and returns
    what it answered, be it the latest file or a not-found indicator,
    without raising, provided the answer is a string. *)
Theorem C8_high_acq_window_rename_thumb_latest
    (latest : Z -> string -> helper_answer) (current_dir : string)
    (interval_time : Z) (cfg : config_dict) (s : state) (f : string) :
  0 <= interval_time ->
  latest (clock s + seconds interval_time) current_dir = Str f ->
  exists s',
    high_acq_any latest current_dir interval_time cfg s = (Ret (Str f), s') /\
    clock s' = clock s + seconds interval_time /\
    trace s' = trace s ++
      [ Log INFO "starting_high_acq_chunk";
        Leo shutter_on;
        Print "hr";
        Sleep interval_time;
        Leo shutter_off;
        Listdir current_dir;
        Log INFO "finished_high_acq_chunk";
        RenameRawAll current_dir;
        Log DEBUG "renamed_images";
        MakeAllThumb current_dir;
        Log DEBUG "thumbed_images";
        GetLatestImagefile current_dir;
        Log INFO "finished_rename_get_latest" ].
Proof.
  intros H Hstr.
  exists (advance (high_acq_events current_dir interval_time) interval_time s).
  split; [|split].
  - rewrite (high_acq_any_run latest current_dir interval_time cfg s H), Hstr.
    reflexivity.
  - reflexivity.
  - reflexivity.
Qed.

(** Interval zero with no file in the directory, on a station whose
    helper says so with the empty string. *)
Lemma C8_witness_interval_zero :
  0 <= 0 /\
  latest_empty_string (clock (start_state 0) + seconds 0) "/data0/latest"
    = Str "" /\
  exists s',
    high_acq_any latest_empty_string "/data0/latest" 0 sample_cfg
      (start_state 0) = (Ret (Str ""), s') /\
    clock s' = clock (start_state 0) + seconds 0 /\
    trace s' = trace (start_state 0) ++
      [ Log INFO "starting_high_acq_chunk";
        Leo shutter_on;
        Print "hr";
        Sleep 0;
        Leo shutter_off;
        Listdir "/data0/latest";
        Log INFO "finished_high_acq_chunk";
        RenameRawAll "/data0/latest";
        Log DEBUG "renamed_images";
        MakeAllThumb "/data0/latest";
        Log DEBUG "thumbed_images";
        GetLatestImagefile "/data0/latest";
        Log INFO "finished_rename_get_latest" ].
Proof.
  split; [lia|]. split; [reflexivity|].
  apply (C8_high_acq_window_rename_thumb_latest latest_empty_string
           "/data0/latest" 0 sample_cfg (start_state 0) "").
  - lia.
  - reflexivity.
Defined.

(** The same iteration on a station whose helper answers a not-found
    indicator that is no string: the trigger window and both passes are
    done, and the log line of 669 raises [TypeError]; nothing is
    returned. *)
Lemma C8_counterexample_not_a_string :
  high_acq_any latest_not_a_string "/data0/latest" 0 sample_cfg
    (start_state 0) =
    (Raise TypeError,
     advance
       [ Log INFO "starting_high_acq_chunk";
         Leo shutter_on;
         Print "hr";
         Sleep 0;
         Leo shutter_off;
         Listdir "/data0/latest";
         Log INFO "finished_high_acq_chunk";
         RenameRawAll "/data0/latest";
         Log DEBUG "renamed_images";
         MakeAllThumb "/data0/latest";
         Log DEBUG "thumbed_images";
         GetLatestImagefile "/data0/latest" ] 0 (start_state 0)).
Proof.
  rewrite (high_acq_any_run latest_not_a_string "/data0/latest" 0 sample_cfg
             (start_state 0)) by lia.
  reflexivity.
Qed.

(** C1. With the input file present and the disk full, [handle_new_image]
    enters [clean_up_no_dl], which switches the shutter, the fan and the
    camera off once each and then fails at [ser.close()]: the name [ser]
    is not bound at module level, so [NameError] is raised, the channel
    stays as it was and no [False] reaches the caller. *)
Theorem C1_disk_full_shutdown_stops_at_ser_close
    (E : env) (imgfile : string) (job_list : list nat) (current_dir : string)
    (cfg : config_dict) (s : state) :
  isfile E imgfile = true ->
  detect_disk_full E (clock s) = true ->
  exists s',
    handle_new_image E imgfile job_list current_dir cfg s =
      (Raise (NameError "ser"), s') /\
    trace s' = trace s ++
      [ Isfile imgfile;
        Log INFO "handle-image_starting";
        Log CRITICAL "disk-full_early-exit";
        Leo shutter_off;
        Leo cond_off;
        Leo wait_for_camera_ready;
        Leo video_off;
        Sleep 10;
        Leo camera_off ] ++ map JobJoin job_list /\
    serial_open s' = serial_open s.
Proof.
  intros Hf Hd. eexists. split; [|split].
  - apply handle_new_image_disk_full; assumption.
  - reflexivity.
  - reflexivity.
Qed.

Lemma C1_witness_full_disk :
  isfile (sample_env usual_sun (readings []) true all_launches_succeed false)
    "/data0/latest/DSC_0001.JPG" = true /\
  detect_disk_full (sample_env usual_sun (readings []) true all_launches_succeed false)
    (clock (with_serial_open true (start_state 0))) = true /\
  exists s',
    handle_new_image (sample_env usual_sun (readings []) true all_launches_succeed false)
      "/data0/latest/DSC_0001.JPG" [] "/data0/latest" sample_cfg
      (with_serial_open true (start_state 0)) =
      (Raise (NameError "ser"), s') /\
    trace s' = trace (with_serial_open true (start_state 0)) ++
      [ Isfile "/data0/latest/DSC_0001.JPG";
        Log INFO "handle-image_starting";
        Log CRITICAL "disk-full_early-exit";
        Leo shutter_off;
        Leo cond_off;
        Leo wait_for_camera_ready;
        Leo video_off;
        Sleep 10;
        Leo camera_off ] ++ map JobJoin [] /\
    serial_open s' = serial_open (with_serial_open true (start_state 0)).
Proof.
  split; [reflexivity|]. split; [reflexivity|].
  apply (C1_disk_full_shutdown_stops_at_ser_close
           (sample_env usual_sun (readings []) true all_launches_succeed false)
           "/data0/latest/DSC_0001.JPG" [] "/data0/latest" sample_cfg
           (with_serial_open true (start_state 0)));
    reflexivity.
Defined.

(** C7. For an existing image that is no cloud marker and whose renamed
    name does not end in [.jpg] (a raw capture), with room on the disk,
    [handle_new_image] renames it and makes the thumbnail but never calls
    [dfn.write_last_image_file]: the "last image" pointer is not updated. *)
Theorem C7_raw_image_leaves_last_image_pointer
    (E : env) (imgfile : string) (job_list : list nat) (current_dir : string)
    (cfg : config_dict) (s : state) :
  isfile E imgfile = true ->
  detect_disk_full E (clock s) = false ->
  orb (str_in "cloudy_img" imgfile) (str_in "clearing" imgfile) = false ->
  endswith (lower (rename_RAW E imgfile)) ".jpg" = false ->
  exists s' evs,
    handle_new_image E imgfile job_list current_dir cfg s = (Ret None, s') /\
    trace s' = trace s ++ evs /\
    evs = [ Isfile imgfile;
            Log INFO "handle-image_starting";
            RenameRaw imgfile;
            Log INFO "making_thumb_for_cloudy";
            MakeThumb (rename_RAW E imgfile);
            Stat (make_thumb E (rename_RAW E imgfile));
            Log INFO "latest_image" ] /\
    existsb is_WriteLastImageFile evs = false.
Proof.
  intros Hf Hd Hm Hj. eexists. eexists. split; [|split; [|split]].
  - apply handle_new_image_raw; assumption.
  - reflexivity.
  - reflexivity.
  - reflexivity.
Qed.

Lemma C7_witness_raw_image :
  isfile (sample_env usual_sun (readings []) false all_launches_succeed false)
    "/data0/latest/DSC_0001.NEF" = true /\
  detect_disk_full (sample_env usual_sun (readings []) false all_launches_succeed false)
    (clock (start_state 0)) = false /\
  orb (str_in "cloudy_img" "/data0/latest/DSC_0001.NEF")
      (str_in "clearing" "/data0/latest/DSC_0001.NEF") = false /\
  endswith (lower (rename_RAW
                     (sample_env usual_sun (readings []) false all_launches_succeed false)
                     "/data0/latest/DSC_0001.NEF")) ".jpg" = false /\
  exists s' evs,
    handle_new_image (sample_env usual_sun (readings []) false all_launches_succeed false)
      "/data0/latest/DSC_0001.NEF" [] "/data0/latest" sample_cfg (start_state 0) =
      (Ret None, s') /\
    trace s' = trace (start_state 0) ++ evs /\
    evs = [ Isfile "/data0/latest/DSC_0001.NEF";
            Log INFO "handle-image_starting";
            RenameRaw "/data0/latest/DSC_0001.NEF";
            Log INFO "making_thumb_for_cloudy";
            MakeThumb (rename_RAW
                         (sample_env usual_sun (readings []) false all_launches_succeed false)
                         "/data0/latest/DSC_0001.NEF");
            Stat (make_thumb
                    (sample_env usual_sun (readings []) false all_launches_succeed false)
                    (rename_RAW
                       (sample_env usual_sun (readings []) false all_launches_succeed false)
                       "/data0/latest/DSC_0001.NEF"));
            Log INFO "latest_image" ] /\
    existsb is_WriteLastImageFile evs = false.
Proof.
  split; [reflexivity|]. split; [reflexivity|].
  split; [reflexivity|]. split; [reflexivity|].
  apply (C7_raw_image_leaves_last_image_pointer
           (sample_env usual_sun (readings []) false all_launches_succeed false)
           "/data0/latest/DSC_0001.NEF" [] "/data0/latest" sample_cfg
           (start_state 0));
    reflexivity.
Defined.

(** ** What a procedure can add to the trace *)

Lemma only_emits_ret {A} P (a : A) : only_emits P (ret a).
Proof. intros s. exists []. cbn. now rewrite app_nil_r. Qed.

Lemma only_emits_raise {A} P e : only_emits P (@raise A e).
Proof. intros s. exists []. cbn. now rewrite app_nil_r. Qed.

Lemma only_emits_out_of_fuel {A} P : only_emits P (@out_of_fuel A).
Proof. intros s. exists []. cbn. now rewrite app_nil_r. Qed.

Lemma only_emits_now P : only_emits P now.
Proof. intros s. exists []. cbn. now rewrite app_nil_r. Qed.

Lemma only_emits_emit P e : P e = true -> only_emits P (emit e).
Proof. intros H s. exists [e]. cbn. now rewrite H. Qed.

Lemma only_emits_sleep P n : P (Sleep n) = true -> only_emits P (sleep n).
Proof.
  intros H s. unfold sleep. destruct (n <? 0).
  - exists []. cbn. now rewrite app_nil_r.
  - exists [Sleep n]. cbn. now rewrite H.
Qed.

Lemma only_emits_bind {A B} P (m : M A) (k : A -> M B) :
  only_emits P m -> (forall a, only_emits P (k a)) -> only_emits P (bind m k).
Proof.
  intros Hm Hk s. destruct (Hm s) as [evs [Ht Hp]].
  unfold bind. destruct (m s) as [[a|e| |] s1] eqn:Hms; cbn in Ht.
  - destruct (Hk a s1) as [evs' [Ht' Hp']].
    exists (evs ++ evs'). rewrite Ht', Ht, app_assoc. split; [reflexivity|].
    rewrite forallb_app, Hp, Hp'. reflexivity.
  - exists evs. auto.
  - exists evs. auto.
  - exists evs. auto.
Qed.

Lemma only_emits_try {A} P (m h : M A) :
  only_emits P m -> only_emits P h ->
  only_emits P (try_except_CalledProcessError m h).
Proof.
  intros Hm Hh s. destruct (Hm s) as [evs [Ht Hp]].
  unfold try_except_CalledProcessError, try_except.
  destruct (m s) as [[a|e| |] s1] eqn:Hms; cbn in Ht.
  - exists evs. auto.
  - destruct (exn_is_CalledProcessError e); [|exists evs; auto].
    destruct (Hh s1) as [evs' [Ht' Hp']].
    exists (evs ++ evs'). rewrite Ht', Ht, app_assoc. split; [reflexivity|].
    rewrite forallb_app, Hp, Hp'. reflexivity.
  - exists evs. auto.
  - exists evs. auto.
Qed.

Lemma only_emits_when P b m : only_emits P m -> only_emits P (when b m).
Proof. intros H. destruct b; [exact H | apply only_emits_ret]. Qed.

Lemma only_emits_for_each {A} P (l : list A) body :
  (forall a, only_emits P (body a)) -> only_emits P (for_each l body).
Proof.
  intros H. induction l as [|a l IH]; cbn.
  - apply only_emits_ret.
  - apply only_emits_bind; [apply H | intros _; exact IH].
Qed.

Lemma only_emits_weaken {A} (P Q : event -> bool) (m : M A) :
  (forall e, P e = true -> Q e = true) -> only_emits P m -> only_emits Q m.
Proof.
  intros HPQ Hm s. destruct (Hm s) as [evs [Ht Hp]]. exists evs.
  split; [exact Ht|]. rewrite forallb_forall in *. auto.
Qed.

(** Straight-line code: split at every bind, close every leaf. *)
Ltac emits :=
  repeat first
    [ apply only_emits_ret
    | apply only_emits_raise
    | apply only_emits_out_of_fuel
    | apply only_emits_now
    | apply only_emits_emit; reflexivity
    | apply only_emits_sleep; reflexivity
    | apply only_emits_when
    | apply only_emits_for_each; intros ?
    | apply only_emits_bind; [|intros ?]
    | match goal with
      | |- only_emits _ (if ?c then _ else _) => destruct c
      | |- only_emits _ (match ?c with Some _ => _ | None => _ end) => destruct c
      end ].

Section NightPhase.

Variable E : env.

(** Neither acquisition procedure issues an exposure command of the
    other, and neither looks a file up. *)
Lemma high_acq_emits current_dir interval_time cfg :
  only_emits (fun e => negb (orb (is_Isfile e) (is_single_image e)))
    (high_acq E current_dir interval_time cfg).
Proof.
  unfold high_acq, dfn_get_latest_imagefile, log, leo, print. emits.
Qed.

Lemma low_acq_emits current_dir cloud_status cfg :
  only_emits (fun e => negb (orb (is_Isfile e) (is_shutter_on e)))
    (low_acq E current_dir cloud_status cfg).
Proof.
  unfold low_acq, dfn_get_latest_imagefile, log, leo. emits.
Qed.

Lemma cc_read_cloud_status_emits P : only_emits P (cc_read_cloud_status E).
Proof. intros s. exists []. cbn. now rewrite app_nil_r. Qed.

Lemma night_iteration_emits test_time current_dir interval_time cfg prev :
  only_emits (fun e => negb (is_Isfile e))
    (night_iteration E test_time current_dir interval_time cfg prev).
Proof.
  assert (Hh : forall d i c, only_emits (fun e => negb (is_Isfile e))
                               (high_acq E d i c)).
  { intros. eapply only_emits_weaken; [|apply high_acq_emits].
    intros e. cbn. destruct (is_Isfile e); cbn; congruence. }
  assert (Hl : forall d i c, only_emits (fun e => negb (is_Isfile e))
                               (low_acq E d i c)).
  { intros. eapply only_emits_weaken; [|apply low_acq_emits].
    intros e. cbn. destruct (is_Isfile e); cbn; congruence. }
  unfold night_iteration, log, print.
  apply only_emits_bind; [apply cc_read_cloud_status_emits | intros r].
  emits; auto.
Qed.

Lemma night_loop_emits fuel test_time b current_dir interval_time cfg prev :
  only_emits (fun e => negb (is_Isfile e))
    (night_loop E fuel test_time b current_dir interval_time cfg prev).
Proof.
  revert prev. induction fuel as [|fuel IH]; intros prev; cbn.
  - apply only_emits_out_of_fuel.
  - apply only_emits_bind; [apply only_emits_now | intros t].
    destruct (t <? sunrise_before_twilight b); [|apply only_emits_ret].
    apply only_emits_bind; [apply night_iteration_emits | intros st; apply IH].
Qed.

(** One iteration, spelled out: the status that is branched on, the
    log line, the acquisition, the clock. *)
Lemma night_iteration_run test_time current_dir interval_time cfg prev s :
  0 <= interval_time ->
  0 <= time_checking_clearing cfg ->
  0 <= time_checking_cloudy cfg ->
  night_iteration E test_time current_dir interval_time cfg prev s =
    (Ret (effective_status test_time (read_cloud_status E (cloud_reads s))),
     with_cloud_reads (S (cloud_reads s))
       (advance
          (night_iteration_events test_time current_dir interval_time cfg prev
             (read_cloud_status E (cloud_reads s)))
          (acquisition_seconds interval_time cfg
             (effective_status test_time (read_cloud_status E (cloud_reads s))))
          s)).
Proof.
  intros Hi Hc1 Hc0.
  unfold night_iteration, cc_read_cloud_status, night_iteration_events,
    effective_status, status_log, acquisition_events, acquisition_seconds.
  set (r := read_cloud_status E (cloud_reads s)).
  assert (Hhigh : forall s0 (k : string -> M Z),
             bind (high_acq E current_dir interval_time cfg) k s0 =
             k (get_latest_imagefile E (clock s0 + seconds interval_time)
                  current_dir)
               (advance (high_acq_events current_dir interval_time)
                  interval_time s0)).
  { intros. apply bind_Ret. now apply high_acq_run. }
  assert (Hlow : forall st s0 (k : string -> M Z),
             st = CLOUDY \/ st = CLEARING ->
             bind (low_acq E current_dir st cfg) k s0 =
             k (get_latest_imagefile E
                  (clock s0 + seconds (if st =? CLOUDY
                                       then time_checking_cloudy cfg
                                       else time_checking_clearing cfg))
                  current_dir)
               (advance (low_acq_events current_dir
                           (if st =? CLOUDY then time_checking_cloudy cfg
                            else time_checking_clearing cfg))
                  (if st =? CLOUDY then time_checking_cloudy cfg
                   else time_checking_clearing cfg) s0)).
  { intros st s0 k Hst. apply bind_Ret. apply low_acq_run; auto.
    destruct Hst as [-> | ->]; cbn; assumption. }
  destruct (test_time =? 0) eqn:Ht; cbn [negb].
  - destruct (r =? CLEAR) eqn:H2.
    { apply Z.eqb_eq in H2. exec. fold r. rewrite H2. cbn.
      destruct (prev =? CLEAR); cbn;
        (match goal with |- context [high_acq _ _ _ _ ?s0] =>
           rewrite (high_acq_run E current_dir interval_time cfg s0 Hi) end);
        cbn; f_equal; state_eq. }
    destruct (r =? CLEARING) eqn:H1.
    { apply Z.eqb_eq in H1. exec. fold r. rewrite H1. cbn.
      destruct (prev =? CLEARING); cbn;
        (match goal with |- context [low_acq _ _ _ _ ?s0] =>
           rewrite (low_acq_run E current_dir CLEARING cfg s0 _ eq_refl
                      (or_intror eq_refl) Hc1) end);
        cbn; f_equal; state_eq. }
    destruct (r =? CLOUDY) eqn:H0.
    { apply Z.eqb_eq in H0. exec. fold r. rewrite H0. cbn.
      (match goal with |- context [low_acq _ _ _ _ ?s0] =>
         rewrite (low_acq_run E current_dir CLOUDY cfg s0 _ eq_refl
                    (or_introl eq_refl) Hc0) end);
      cbn; f_equal; state_eq. }
    exec. fold r. rewrite H2, H1, H0. cbn.
    destruct (prev =? CLEAR), (prev =? CLEARING), (prev =? CLOUDY); cbn;
      (match goal with |- context [high_acq _ _ _ _ ?s0] =>
         rewrite (high_acq_run E current_dir interval_time cfg s0 Hi) end);
      cbn; f_equal; state_eq.
  - exec.
    destruct (prev =? CLEAR); cbn;
      (match goal with |- context [high_acq _ _ _ _ ?s0] =>
         rewrite (high_acq_run E current_dir interval_time cfg s0 Hi) end);
      cbn; f_equal; state_eq.
Qed.

End NightPhase.

Lemma bind_assoc {A B C} (m : M A) (f : A -> M B) (g : B -> M C) s :
  bind (bind m f) g s = bind m (fun a => bind (f a) g) s.
Proof. unfold bind. destruct (m s) as [[a|e| |] s1]; reflexivity. Qed.

Lemma only_emits_ext {A} P (m m' : M A) :
  (forall s, m s = m' s) -> only_emits P m' -> only_emits P m.
Proof. intros H Hm s. rewrite H. apply Hm. Qed.

Lemma bind_emit_first {A} e (k : unit -> M A) s :
  only_emits (fun _ => true) (k tt) ->
  exists evs, trace (snd (bind (emit e) k s)) = trace s ++ e :: evs.
Proof.
  intros HK. unfold bind, emit.
  destruct (HK (with_trace (trace s ++ [e]) s)) as [evs [Ht _]].
  exists evs. rewrite Ht. cbn. rewrite <- app_assoc. reflexivity.
Qed.

(** Every call of [handle_new_image] starts by looking its argument up. *)
Lemma handle_new_image_looks_up E imgfile job_list current_dir cfg s :
  exists evs,
    trace (snd (handle_new_image E imgfile job_list current_dir cfg s)) =
    trace s ++ Isfile imgfile :: evs.
Proof.
  unfold handle_new_image, os_path_isfile. rewrite bind_assoc.
  apply bind_emit_first.
  unfold clean_up_no_dl, global_ser_close, module_global_ser,
    dfn_detect_disk_full, dfn_write_last_image_file, dfn_rename_RAW,
    dfn_make_thumb, log, leo.
  apply only_emits_bind; [apply only_emits_ret | intros b].
  destruct b; [|emits].
  apply only_emits_bind; [emits | intros _].
  apply only_emits_bind;
    [intros s0; exists []; cbn; now rewrite app_nil_r | intros full].
  emits.
Qed.

(** ** The night loop *)

(** C2. In the night loop the image reference that [high_acq] or
    [low_acq] returns is dropped: every call of [handle_new_image] starts
    with the [os.path.isfile] look-up of its argument, and no run of the
    night loop, whatever its length, readings or outcome, contains such a
    look-up. *)
Theorem C2_night_loop_never_calls_handle_new_image
    (E : env) (fuel : nat) (test_time : Z) (b : schedule)
    (current_dir : string) (interval_time : Z) (cfg : config_dict)
    (cloud_status_internal : Z) (job_list : list nat) :
  (forall imgfile s, exists evs,
      trace (snd (handle_new_image E imgfile job_list current_dir cfg s)) =
      trace s ++ Isfile imgfile :: evs) /\
  only_emits (fun e => negb (is_Isfile e))
    (night_loop E fuel test_time b current_dir interval_time cfg
       cloud_status_internal).
Proof.
  split.
  - intros imgfile s. apply handle_new_image_looks_up.
  - apply night_loop_emits.
Qed.

(** C3. With the monitor reading Cloudy and [cloud_status_internal]
    already Cloudy, the iteration still logs the transition line
    "Gone_cloudy" before the low-rate acquisition: line 497 has no test
    of the previous status. *)
Theorem C3_cloudy_logged_without_transition
    (E : env) (current_dir : string) (interval_time : Z) (cfg : config_dict)
    (s : state) :
  read_cloud_status E (cloud_reads s) = CLOUDY ->
  0 <= time_checking_cloudy cfg ->
  exists s',
    night_iteration E 0 current_dir interval_time cfg CLOUDY s =
      (Ret CLOUDY, s') /\
    trace s' = trace s ++
      [ Print "sunrise";
        Log DEBUG "cloud_status";
        Log INFO "Gone_cloudy";
        Log INFO "starting_low_acq";
        Sleep (time_checking_cloudy cfg);
        Leo single_image;
        RenameRawAll current_dir;
        MakeAllThumb current_dir;
        GetLatestImagefile current_dir;
        Log DEBUG "finished_low_acq" ].
Proof.
  intros Hr Hc.
  exists (with_cloud_reads (S (cloud_reads s))
            (advance ([Print "sunrise"; Log DEBUG "cloud_status";
                       Log INFO "Gone_cloudy"]
                      ++ low_acq_events current_dir (time_checking_cloudy cfg))
               (time_checking_cloudy cfg) s)).
  split; [|reflexivity].
  unfold night_iteration, cc_read_cloud_status. exec. rewrite Hr. cbn.
  match goal with
  | |- context [low_acq _ _ _ _ ?s0] =>
      rewrite (low_acq_run E current_dir CLOUDY cfg s0 _ eq_refl
                 (or_introl eq_refl) Hc)
  end.
  cbn. f_equal. state_eq.
Qed.

Lemma C3_witness_cloudy_twice :
  read_cloud_status
    (sample_env usual_sun (readings [CLOUDY; CLOUDY]) false
       all_launches_succeed false)
    (cloud_reads (with_cloud_reads 1 (start_state (seconds 900)))) = CLOUDY /\
  0 <= time_checking_cloudy sample_cfg /\
  exists s',
    night_iteration
      (sample_env usual_sun (readings [CLOUDY; CLOUDY]) false
         all_launches_succeed false)
      0 "/data0/latest" 600 sample_cfg CLOUDY
      (with_cloud_reads 1 (start_state (seconds 900))) =
      (Ret CLOUDY, s') /\
    trace s' = trace (with_cloud_reads 1 (start_state (seconds 900))) ++
      [ Print "sunrise";
        Log DEBUG "cloud_status";
        Log INFO "Gone_cloudy";
        Log INFO "starting_low_acq";
        Sleep (time_checking_cloudy sample_cfg);
        Leo single_image;
        RenameRawAll "/data0/latest";
        MakeAllThumb "/data0/latest";
        GetLatestImagefile "/data0/latest";
        Log DEBUG "finished_low_acq" ].
Proof.
  split; [reflexivity|]. split; [cbn; lia|].
  apply (C3_cloudy_logged_without_transition
           (sample_env usual_sun (readings [CLOUDY; CLOUDY]) false
              all_launches_succeed false)
           "/data0/latest" 600 sample_cfg
           (with_cloud_reads 1 (start_state (seconds 900)))).
  - reflexivity.
  - cbn. lia.
Defined.

(** The selection itself follows the readings, and the other transition
    lines appear at changes only. *)
Example five_status_night_modes :
  fst five_status_night = Ret CLEAR /\
  acquisitions (trace (snd five_status_night)) =
    [HighRate; LowRate; LowRate; HighRate; HighRate] /\
  status_lines (trace (snd five_status_night)) =
    ["Gone_clear"; "Gone_clearing"; "Gone_cloudy";
     "Gone_undefined_cloud_status"; "Gone_clear"] /\
  existsb is_Isfile (trace (snd five_status_night)) = false.
Proof. vm_compute. repeat split. Qed.

Example cloudy_night_lines :
  fst cloudy_night = Ret CLOUDY /\
  acquisitions (trace (snd cloudy_night)) = [LowRate; LowRate] /\
  status_lines (trace (snd cloudy_night)) = ["Gone_cloudy"; "Gone_cloudy"].
Proof. vm_compute. repeat split. Qed.

(** C10. In a test run every night iteration replaces the reading by
    [CLEAR] before the branch is chosen: the iteration is the high-rate
    one whatever the monitor said, and no run of the night loop issues
    the single exposure of [low_acq]. *)
Theorem C10_test_run_forces_clear
    (E : env) (test_time : Z) (current_dir : string) (interval_time : Z)
    (cfg : config_dict) :
  test_time <> 0 ->
  (forall prev s,
      night_iteration E test_time current_dir interval_time cfg prev s =
        (cc_read_cloud_status E ;;
         print "sunrise" ;;
         log DEBUG "cloud_status" ;;
         log DEBUG "testing_force_clear" ;;
         when (negb (prev =? CLEAR)) (log INFO "Gone_clear") ;;
         high_acq E current_dir interval_time cfg ;;
         ret CLEAR) s) /\
  (forall fuel b prev,
      only_emits (fun e => negb (is_single_image e))
        (night_loop E fuel test_time b current_dir interval_time cfg prev)).
Proof.
  intros Ht.
  assert (Heq : forall prev s,
      night_iteration E test_time current_dir interval_time cfg prev s =
        (cc_read_cloud_status E ;;
         print "sunrise" ;;
         log DEBUG "cloud_status" ;;
         log DEBUG "testing_force_clear" ;;
         when (negb (prev =? CLEAR)) (log INFO "Gone_clear") ;;
         high_acq E current_dir interval_time cfg ;;
         ret CLEAR) s).
  { intros prev s. unfold night_iteration, cc_read_cloud_status.
    apply Z.eqb_neq in Ht. rewrite Ht. exec.
    destruct (prev =? CLEAR); cbn;
      match goal with
      | |- context [high_acq E current_dir interval_time cfg ?s0] =>
          destruct (high_acq E current_dir interval_time cfg s0)
            as [[a|e| |] s1]; reflexivity
      end. }
  split; [exact Heq|].
  intros fuel b. induction fuel as [|fuel IH]; intros prev; cbn.
  - apply only_emits_out_of_fuel.
  - apply only_emits_bind; [apply only_emits_now | intros t].
    destruct (t <? sunrise_before_twilight b); [|apply only_emits_ret].
    apply only_emits_bind; [|intros st; apply IH].
    eapply only_emits_ext; [apply Heq|].
    unfold log, print.
    apply only_emits_bind; [apply cc_read_cloud_status_emits | intros r].
    emits.
Qed.

Lemma C10_witness_test_run :
  180 <> 0 /\
  (forall prev s,
      night_iteration
        (sample_env usual_sun (readings [CLOUDY; CLOUDY]) false
           all_launches_succeed false)
        180 "/data0/latest" 180 sample_cfg prev s =
        (cc_read_cloud_status
           (sample_env usual_sun (readings [CLOUDY; CLOUDY]) false
              all_launches_succeed false) ;;
         print "sunrise" ;;
         log DEBUG "cloud_status" ;;
         log DEBUG "testing_force_clear" ;;
         when (negb (prev =? CLEAR)) (log INFO "Gone_clear") ;;
         high_acq
           (sample_env usual_sun (readings [CLOUDY; CLOUDY]) false
              all_launches_succeed false)
           "/data0/latest" 180 sample_cfg ;;
         ret CLEAR) s) /\
  (forall fuel b prev,
      only_emits (fun e => negb (is_single_image e))
        (night_loop
           (sample_env usual_sun (readings [CLOUDY; CLOUDY]) false
              all_launches_succeed false)
           fuel 180 b "/data0/latest" 180 sample_cfg prev)).
Proof.
  split; [lia|].
  apply (C10_test_run_forces_clear
           (sample_env usual_sun (readings [CLOUDY; CLOUDY]) false
              all_launches_succeed false)
           180 "/data0/latest" 180 sample_cfg).
  lia.
Defined.

(** ** Boundaries *)

Lemma calculate_sunset_and_sunrise_run E test_time pos cfg s :
  calculate_sunset_and_sunrise E test_time pos cfg s =
    (Ret (if sunset (computed_boundaries test_time (clock s)
                       (generate_sun_and_moon E pos) (sun_leeway cfg))
             >=? sunrise (computed_boundaries test_time (clock s)
                            (generate_sun_and_moon E pos) (sun_leeway cfg))
          then with_sunset (clock s + seconds 30)
                 (computed_boundaries test_time (clock s)
                    (generate_sun_and_moon E pos) (sun_leeway cfg))
          else computed_boundaries test_time (clock s)
                 (generate_sun_and_moon E pos) (sun_leeway cfg)),
     advance
       (boundary_log E
          (sunset (computed_boundaries test_time (clock s)
                     (generate_sun_and_moon E pos) (sun_leeway cfg))
           >=? sunrise (computed_boundaries test_time (clock s)
                          (generate_sun_and_moon E pos) (sun_leeway cfg))))
       0 s).
Proof.
  unfold calculate_sunset_and_sunrise, computed_boundaries, boundary_log.
  destruct (generate_sun_and_moon E pos) as [sunrise0 sunset0].
  destruct (test_time =? 0); cbn [negb fst snd]; exec;
    destruct (daylight E); cbn;
    match goal with
    | |- context [?a >=? ?b] => destruct (a >=? b)
    end; cbn; f_equal; state_eq.
Qed.

Lemma boundary_log_late E late :
  In (Log INFO "late_start-forcing_immediate") (boundary_log E late) <->
  late = true.
Proof.
  unfold boundary_log. destruct (daylight E), late; cbn; split; intros H;
    try reflexivity; try discriminate;
    repeat (destruct H as [H|H]; try discriminate; try tauto); tauto.
Qed.

(** C4, as the code has it.  The override is triggered by sunset not
    lying before sunrise (the evening start against the morning end, not
    against the start of the morning twilight): then the evening start
    becomes the clock plus 30 seconds, the fallback line is logged and
    the other three boundaries stay as computed.  Otherwise nothing is
    overridden or logged and, outside test runs, the evening start lies
    before the end of the evening twilight and the start of the morning
    twilight before the morning end, while the two twilights are in
    order exactly when sunrise is at least 20 minutes after sunset. *)
Theorem C4_late_start_override
    (E : env) (test_time : Z) (pos : position) (cfg : config_dict)
    (s : state) :
  exists b s' evs,
    calculate_sunset_and_sunrise E test_time pos cfg s = (Ret b, s') /\
    trace s' = trace s ++ evs /\
    clock s' = clock s /\
    (sunset (computed_boundaries test_time (clock s)
               (generate_sun_and_moon E pos) (sun_leeway cfg))
     >= sunrise (computed_boundaries test_time (clock s)
                   (generate_sun_and_moon E pos) (sun_leeway cfg)) ->
     b = with_sunset (clock s + seconds 30)
           (computed_boundaries test_time (clock s)
              (generate_sun_and_moon E pos) (sun_leeway cfg)) /\
     In (Log INFO "late_start-forcing_immediate") evs) /\
    (sunset (computed_boundaries test_time (clock s)
               (generate_sun_and_moon E pos) (sun_leeway cfg))
     < sunrise (computed_boundaries test_time (clock s)
                  (generate_sun_and_moon E pos) (sun_leeway cfg)) ->
     b = computed_boundaries test_time (clock s)
           (generate_sun_and_moon E pos) (sun_leeway cfg) /\
     ~ In (Log INFO "late_start-forcing_immediate") evs /\
     (test_time = 0 ->
      sunset b < sunset_after_twilight b /\
      sunrise_before_twilight b < sunrise b /\
      (sunset_after_twilight b <= sunrise_before_twilight b <->
       minutes 20 <= sunrise b - sunset b))).
Proof.
  eexists. eexists. eexists.
  split; [apply calculate_sunset_and_sunrise_run|].
  split; [reflexivity|]. split; [cbn; unfold seconds; lia|].
  set (raw := computed_boundaries test_time (clock s)
                (generate_sun_and_moon E pos) (sun_leeway cfg)).
  split.
  - intros Hlate.
    assert (Hb : (sunset raw >=? sunrise raw) = true)
      by (apply Z.geb_le; lia).
    rewrite Hb. split; [reflexivity|]. now apply boundary_log_late.
  - intros Hok.
    assert (Hb : (sunset raw >=? sunrise raw) = false).
    { destruct (sunset raw >=? sunrise raw) eqn:Hg; [|reflexivity].
      apply Z.geb_le in Hg. lia. }
    rewrite Hb. split; [reflexivity|]. split.
    + intros Hin. apply boundary_log_late in Hin. discriminate.
    + intros ->. subst raw. unfold computed_boundaries. cbn.
      unfold minutes, seconds. lia.
Qed.

(** C4, as stated, fails: with sunset (after leeway) at minute 10 and
    sunrise at minute 15 the evening start is not before the start of the
    morning twilight (minute 5), yet nothing is overridden or logged, and
    the boundaries are out of order. *)
Lemma C4_counterexample_short_night :
  exists b s',
    calculate_sunset_and_sunrise short_night_env 0 (0, 0, 0) sample_cfg
      (start_state 0) = (Ret b, s') /\
    b = computed_boundaries 0 0 (minutes 25, 0) (minutes 10) /\
    sunset b >= sunrise_before_twilight b /\
    sunset b <> clock (start_state 0) + seconds 30 /\
    ~ In (Log INFO "late_start-forcing_immediate") (trace s') /\
    ~ (sunset b < sunset_after_twilight b /\
       sunset_after_twilight b <= sunrise_before_twilight b /\
       sunrise_before_twilight b < sunrise b).
Proof.
  eexists. eexists. split; [vm_compute; reflexivity|].
  split; [reflexivity|]. split; [vm_compute; discriminate|].
  split; [vm_compute; discriminate|]. split.
  - cbn. intros H.
    repeat (destruct H as [H|H]; [discriminate|]). exact H.
  - vm_compute. intros [_ [H _]]. apply H. reflexivity.
Qed.

(** ** The night tether *)

(** With the child alive the teardown goes through: poll, terminate,
    kill, poll.  Whether the child is collected by then depends on
    whether one of the last two polls already finds it dead. *)
Lemma tether_teardown_live E s :
  tether_reaped s = false ->
  tether_signalled s = false ->
  tether_gone_by E (clock s + seconds 5) = false ->
  exists collected : bool,
    tether_teardown E (Some tt) s =
      (Ret tt,
       with_tether_reaped collected
         (with_tether_signalled true
            (advance (teardown_events collected) 5 s))).
Proof.
  intros Hr Hs Hg.
  unfold tether_teardown, report_tether, tether_terminate, tether_kill,
    tether_poll, tether_send_signal, teardown_events.
  exec. run_sleep.
  repeat (progress (rewrite ?Hr, ?Hs, ?Hg, ?orb_true_r; cbn)).
  match goal with
  | |- context [tether_exit_seen E ?k] =>
      destruct (tether_exit_seen E k)
  end; cbn.
  - exists true. exec. f_equal. state_eq.
  - repeat (progress (rewrite ?Hr, ?Hs, ?Hg, ?orb_true_r; cbn)).
    match goal with
    | |- context [tether_exit_seen E ?k] =>
        destruct (tether_exit_seen E k)
    end; cbn; [exists true | exists false]; exec; f_equal; state_eq; auto.
Qed.

Lemma tether_teardown_exited E s :
  tether_gone_by E (clock s + seconds 5) = true ->
  tether_teardown E (Some tt) s =
    (Raise OSError,
     with_tether_reaped true
       (advance [ Sleep 5; Poll; Print "tether.poll"; Poll;
                  Log DEBUG "Tether_killed" ] 5 s)).
Proof.
  intros Hg.
  unfold tether_teardown, report_tether, tether_terminate, tether_kill,
    tether_poll, tether_send_signal.
  exec. run_sleep.
  destruct (tether_reaped s) eqn:Hr; cbn;
    repeat (progress (rewrite ?Hr, ?Hg, ?orb_true_r; cbn));
    exec; f_equal; state_eq; auto.
Qed.

(** The same whenever the child is not running any more at the first
    poll, collected before or not. *)
Lemma tether_teardown_not_running E s :
  orb (tether_reaped s) (tether_gone_by E (clock s + seconds 5)) = true ->
  tether_teardown E (Some tt) s =
    (Raise OSError,
     with_tether_reaped true
       (advance [ Sleep 5; Poll; Print "tether.poll"; Poll;
                  Log DEBUG "Tether_killed" ] 5 s)).
Proof.
  intros H.
  unfold tether_teardown, report_tether, tether_terminate, tether_kill,
    tether_poll, tether_send_signal.
  exec. run_sleep.
  destruct (tether_reaped s) eqn:Hr; cbn in H; cbn;
    repeat (progress (rewrite ?Hr, ?H; cbn));
    exec; f_equal; state_eq; auto.
Qed.

(** C5. The teardown polls, then calls [terminate] and [kill] with no
    guard.  When the gphoto2 child has already exited, the first poll
    collects it, and [terminate] (Python 2.7: a bare [os.kill] on the
    process id) raises [OSError]; the kill signal is never sent and the
    error leaves the teardown. *)
Theorem C5_teardown_raises_on_exited_tether (E : env) (s : state) :
  tether_gone_by E (clock s + seconds 5) = true ->
  exists s',
    tether_teardown E (Some tt) s = (Raise OSError, s') /\
    trace s' = trace s ++
      [ Sleep 5; Poll; Print "tether.poll"; Poll; Log DEBUG "Tether_killed" ].
Proof.
  intros Hg. eexists. split.
  - apply tether_teardown_exited. exact Hg.
  - reflexivity.
Qed.

Lemma C5_witness_dead_tether :
  tether_gone_by dead_tether_env
    (clock (start_state (seconds 108000)) + seconds 5) = true /\
  exists s',
    tether_teardown dead_tether_env (Some tt) (start_state (seconds 108000)) =
      (Raise OSError, s') /\
    trace s' = trace (start_state (seconds 108000)) ++
      [ Sleep 5; Poll; Print "tether.poll"; Poll; Log DEBUG "Tether_killed" ].
Proof.
  split; [reflexivity|].
  apply (C5_teardown_raises_on_exited_tether dead_tether_env
           (start_state (seconds 108000))).
  reflexivity.
Defined.

(** ** The twilight phases *)

Lemma evening_twilight_launch_raises E fuel b current_dir interval_time
    job_list cfg s e :
  popen_raises E (popen_calls s) = Some e ->
  exn_is_CalledProcessError e = false ->
  evening_twilight E fuel 0 b current_dir interval_time job_list cfg s =
    (Raise e,
     with_popen_calls (S (popen_calls s))
       (advance
          (twilight_opening "twilight_evening_settings"
             "twilight_evening_starting" cfg
             (total_seconds_int (sunset_after_twilight b - clock s)))
          0 s)).
Proof.
  intros Hp He.
  unfold evening_twilight, twilight_settings, try_except_CalledProcessError,
    try_except, subprocess_Popen, twilight_opening.
  exec. rewrite Hp. cbn. rewrite He. f_equal. state_eq.
Qed.

Lemma morning_twilight_launch_raises E fuel b current_dir interval_time
    job_list cfg s e :
  popen_raises E (popen_calls s) = Some e ->
  exn_is_CalledProcessError e = false ->
  morning_twilight E fuel 0 b current_dir interval_time job_list cfg s =
    (Raise e,
     with_popen_calls (S (popen_calls s))
       (advance
          (twilight_opening "twilight_morning_settings"
             "twilight_morning_start" cfg
             (total_seconds_int (sunrise b - clock s)))
          0 s)).
Proof.
  intros Hp He.
  unfold morning_twilight, twilight_settings, try_except_CalledProcessError,
    try_except, subprocess_Popen, twilight_opening.
  exec. rewrite Hp. cbn. rewrite He. f_equal. state_eq.
Qed.

(** The [except] suite does what it says for the one class it names. *)
Lemma evening_twilight_CalledProcessError E fuel b current_dir interval_time
    job_list cfg s :
  popen_raises E (popen_calls s) = Some CalledProcessError ->
  evening_twilight E fuel 0 b current_dir interval_time job_list cfg s =
    twilight_loop E fuel (sunset_after_twilight b) current_dir interval_time
      job_list cfg
      (with_popen_calls (S (popen_calls s))
         (advance
            (twilight_opening "twilight_evening_settings"
               "twilight_evening_starting" cfg
               (total_seconds_int (sunset_after_twilight b - clock s))
             ++ tether_error_events "evening_twilight_tether_err")
            0 s)).
Proof.
  intros Hp.
  unfold evening_twilight, twilight_settings, try_except_CalledProcessError,
    try_except, subprocess_Popen, tether_error_handler, twilight_opening,
    tether_error_events.
  exec. rewrite Hp. cbn. f_equal. state_eq.
Qed.

(** C6. [subprocess.Popen] reports a failed launch as [OSError], which
    the [except subprocess.CalledProcessError] clause does not catch: in
    either twilight the exception leaves the phase straight after the
    [Popen] attempt, with no [gphoto2 --reset] and no acquisition. *)
Theorem C6_launch_failure_leaves_the_twilight_phase
    (E : env) (fuel : nat) (b : schedule) (current_dir : string)
    (interval_time : Z) (job_list : list nat) (cfg : config_dict) (s : state) :
  popen_raises E (popen_calls s) = Some OSError ->
  (exists s',
      evening_twilight E fuel 0 b current_dir interval_time job_list cfg s =
        (Raise OSError, s') /\
      trace s' = trace s ++
        [ Log INFO "twilight_evening_settings";
          Cam (camera_set_quality JPG_MODE);
          Cam (camera_set_shutter
                 (match twilight_exposuretime cfg with
                  | Some x => x
                  | None => camera_exposuretime cfg
                  end));
          Cam (camera_set_iso
                 (match twilight_iso cfg with
                  | Some x => x
                  | None => camera_iso cfg
                  end));
          Log INFO "twilight_evening_starting";
          Popen (gphoto_tether_for
                   (total_seconds_int (sunset_after_twilight b - clock s))) ]) /\
  (exists s',
      morning_twilight E fuel 0 b current_dir interval_time job_list cfg s =
        (Raise OSError, s') /\
      trace s' = trace s ++
        [ Log INFO "twilight_morning_settings";
          Cam (camera_set_quality JPG_MODE);
          Cam (camera_set_shutter
                 (match twilight_exposuretime cfg with
                  | Some x => x
                  | None => camera_exposuretime cfg
                  end));
          Cam (camera_set_iso
                 (match twilight_iso cfg with
                  | Some x => x
                  | None => camera_iso cfg
                  end));
          Log INFO "twilight_morning_start";
          Popen (gphoto_tether_for
                   (total_seconds_int (sunrise b - clock s))) ]).
Proof.
  intros Hp. split.
  - eexists. split; [now apply evening_twilight_launch_raises | reflexivity].
  - eexists. split; [now apply morning_twilight_launch_raises | reflexivity].
Qed.

Lemma C6_witness_no_gphoto :
  popen_raises no_gphoto_env (popen_calls (start_state (seconds 65420))) =
    Some OSError /\
  (exists s',
      evening_twilight no_gphoto_env 3 0
        (computed_boundaries 0 0 usual_sun (minutes 10))
        "/data0/latest" 600 [] sample_cfg (start_state (seconds 65420)) =
        (Raise OSError, s') /\
      trace s' = trace (start_state (seconds 65420)) ++
        [ Log INFO "twilight_evening_settings";
          Cam (camera_set_quality JPG_MODE);
          Cam (camera_set_shutter
                 (match twilight_exposuretime sample_cfg with
                  | Some x => x
                  | None => camera_exposuretime sample_cfg
                  end));
          Cam (camera_set_iso
                 (match twilight_iso sample_cfg with
                  | Some x => x
                  | None => camera_iso sample_cfg
                  end));
          Log INFO "twilight_evening_starting";
          Popen (gphoto_tether_for
                   (total_seconds_int
                      (sunset_after_twilight
                         (computed_boundaries 0 0 usual_sun (minutes 10))
                       - clock (start_state (seconds 65420))))) ]) /\
  (exists s',
      morning_twilight no_gphoto_env 3 0
        (computed_boundaries 0 0 usual_sun (minutes 10))
        "/data0/latest" 600 [] sample_cfg (start_state (seconds 65420)) =
        (Raise OSError, s') /\
      trace s' = trace (start_state (seconds 65420)) ++
        [ Log INFO "twilight_morning_settings";
          Cam (camera_set_quality JPG_MODE);
          Cam (camera_set_shutter
                 (match twilight_exposuretime sample_cfg with
                  | Some x => x
                  | None => camera_exposuretime sample_cfg
                  end));
          Cam (camera_set_iso
                 (match twilight_iso sample_cfg with
                  | Some x => x
                  | None => camera_iso sample_cfg
                  end));
          Log INFO "twilight_morning_start";
          Popen (gphoto_tether_for
                   (total_seconds_int
                      (sunrise (computed_boundaries 0 0 usual_sun (minutes 10))
                       - clock (start_state (seconds 65420))))) ]).
Proof.
  split; [reflexivity|].
  apply (C6_launch_failure_leaves_the_twilight_phase no_gphoto_env 3
           (computed_boundaries 0 0 usual_sun (minutes 10))
           "/data0/latest" 600 [] sample_cfg (start_state (seconds 65420))).
  reflexivity.
Defined.

(** The same failure seen from [main_function]: the night ends in the
    uncaught [OSError] before the first exposure. *)
Example launch_failure_ends_the_session :
  fst launch_failure_session = Raise OSError /\
  acquisitions (trace (snd launch_failure_session)) = [] /\
  existsb is_SubprocessCall (trace (snd launch_failure_session)) = false.
Proof. vm_compute. repeat split. Qed.

(** ** A test run *)



Lemma ntp_log_run (n : nat) (s : state) :
  for_each (repeat tt n) (fun _ => log INFO "ntp") s =
    (Ret tt, with_trace (trace s ++ repeat (Log INFO "ntp") n) s).
Proof.
  revert s. induction n as [|n IH]; intros s; cbn.
  - unfold ret. f_equal. state_eq. now rewrite app_nil_r.
  - unfold bind, log, emit. rewrite IH. f_equal. state_eq.
Qed.



Lemma initialise_microcontroller_run cfg s :
  exists evs,
    initialise_microcontroller cfg s =
      (Ret tt, with_serial_open true (advance evs 0 s)) /\
    acquisitions evs = [].
Proof.
  unfold initialise_microcontroller.
  destruct (String.eqb (exp_mode cfg) "BULB"); exec;
    eexists; (split; [f_equal; state_eq | reflexivity]).
Qed.














(** The boundaries of an ordinary night, sunset at 18:10 and sunrise at
    05:50 once the leeway is applied. *)
Lemma C4_witness_quiet_station :
  exists b s' evs,
    calculate_sunset_and_sunrise quiet_env 0 (0, 0, 0) sample_cfg
      (start_state 0) = (Ret b, s') /\
    trace s' = trace (start_state 0) ++ evs /\
    clock s' = clock (start_state 0) /\
    (sunset (computed_boundaries 0 (clock (start_state 0))
               (generate_sun_and_moon quiet_env (0, 0, 0))
               (sun_leeway sample_cfg))
     >= sunrise (computed_boundaries 0 (clock (start_state 0))
                   (generate_sun_and_moon quiet_env (0, 0, 0))
                   (sun_leeway sample_cfg)) ->
     b = with_sunset (clock (start_state 0) + seconds 30)
           (computed_boundaries 0 (clock (start_state 0))
              (generate_sun_and_moon quiet_env (0, 0, 0))
              (sun_leeway sample_cfg)) /\
     In (Log INFO "late_start-forcing_immediate") evs) /\
    (sunset (computed_boundaries 0 (clock (start_state 0))
               (generate_sun_and_moon quiet_env (0, 0, 0))
               (sun_leeway sample_cfg))
     < sunrise (computed_boundaries 0 (clock (start_state 0))
                  (generate_sun_and_moon quiet_env (0, 0, 0))
                  (sun_leeway sample_cfg)) ->
     b = computed_boundaries 0 (clock (start_state 0))
           (generate_sun_and_moon quiet_env (0, 0, 0))
           (sun_leeway sample_cfg) /\
     ~ In (Log INFO "late_start-forcing_immediate") evs /\
     (0 = 0 ->
      sunset b < sunset_after_twilight b /\
      sunrise_before_twilight b < sunrise b /\
      (sunset_after_twilight b <= sunrise_before_twilight b <->
       minutes 20 <= sunrise b - sunset b))).
Proof.
  exact (C4_late_start_override quiet_env 0 (0, 0, 0) sample_cfg
           (start_state 0)).
Defined.

(** ** Consequences at the level of the loops and of the session *)

(** A full disk met in a twilight loop: the chunk is taken, the fault
    shutdown starts, and the [NameError] of C1 leaves the loop, so no
    further chunk is taken. *)
Lemma twilight_loop_leaves_on_disk_full E fuel boundary current_dir
    interval_time job_list cfg s :
  clock s < boundary ->
  0 <= interval_time ->
  isfile E (get_latest_imagefile E (clock s + seconds interval_time)
              current_dir) = true ->
  detect_disk_full E (clock s + seconds interval_time) = true ->
  twilight_loop E (S fuel) boundary current_dir interval_time job_list cfg s =
    (Raise (NameError "ser"),
     advance
       (high_acq_events current_dir interval_time
        ++ [ Isfile (get_latest_imagefile E (clock s + seconds interval_time)
                       current_dir);
             Log INFO "handle-image_starting";
             Log CRITICAL "disk-full_early-exit";
             Leo shutter_off; Leo cond_off; Leo wait_for_camera_ready;
             Leo video_off; Sleep 10; Leo camera_off ]
        ++ map JobJoin job_list)
       (interval_time + 10) s).
Proof.
  intros Hb Hi Hf Hd. cbn [twilight_loop]. unfold bind at 1, now.
  apply Z.ltb_lt in Hb. rewrite Hb.
  rewrite (bind_Ret _ _ _ _ _ (high_acq_run E current_dir interval_time cfg s Hi)).
  rewrite (bind_Raise _ _ _ _ _
             (handle_new_image_disk_full E _ job_list current_dir cfg
                (advance (high_acq_events current_dir interval_time)
                   interval_time s) Hf Hd)).
  f_equal. state_eq.
Qed.

(** [check_pid] is the one place where the source guards [os.kill]: it
    answers, and raises nothing, whether or not the child was collected. *)
Lemma check_pid_run E s :
  check_pid E (Some tt) s =
    if tether_reaped s then (Ret false, s)
    else (Ret true,
          with_tether_signalled (orb (tether_signalled s) false)
            (with_trace (trace s ++ [Kill SIG0]) s)).
Proof.
  unfold check_pid, try_except, tether_send_signal. exec.
  destruct (tether_reaped s); reflexivity.
Qed.

(** The failure of C5 seen from [main_function]: the night ends in the
    uncaught [OSError] at the teardown, before the morning phase and the
    shutdown, with the channel still open. *)
Example dead_tether_ends_the_session :
  fst dead_tether_session = Raise OSError /\
  last (trace (snd dead_tether_session)) (Log DEBUG "")
    = Log DEBUG "Tether_killed" /\
  existsb is_SerClose (trace (snd dead_tether_session)) = false /\
  serial_open (snd dead_tether_session) = true.
Proof. vm_compute. repeat split. Qed.

(** * Further properties of the code *)

(** ** The acquisition procedures, at their edges *)

(** X1. Called with a status that is neither [CLOUDY] nor [CLEARING],
    [low_acq] raises [TypeError] at once: nothing is logged, slept or
    exposed. *)
Theorem X1_low_acq_rejects_other_status
    (E : env) (current_dir : string) (cloud_status : Z) (cfg : config_dict)
    (s : state) :
  cloud_status <> CLOUDY ->
  cloud_status <> CLEARING ->
  low_acq E current_dir cloud_status cfg s = (Raise TypeError, s).
Proof.
  intros H0 H1. unfold low_acq.
  apply Z.eqb_neq in H0. apply Z.eqb_neq in H1. rewrite H0, H1.
  reflexivity.
Qed.

Lemma X1_witness_clear_status :
  CLEAR <> CLOUDY /\ CLEAR <> CLEARING /\
  low_acq quiet_env "/data0/latest" CLEAR sample_cfg (start_state 0)
    = (Raise TypeError, start_state 0).
Proof.
  split; [discriminate|]. split; [discriminate|].
  apply (X1_low_acq_rejects_other_status quiet_env "/data0/latest" CLEAR
           sample_cfg (start_state 0)); discriminate.
Defined.



(** X3. With a negative interval [high_acq] stops at [time.sleep], which
    raises: the shutter trigger was switched on and is never released, and
    neither the rename nor the thumbnail pass runs. *)
Theorem X3_high_acq_negative_interval_holds_trigger
    (E : env) (current_dir : string) (interval_time : Z) (cfg : config_dict)
    (s : state) :
  interval_time < 0 ->
  exists s',
    high_acq E current_dir interval_time cfg s = (Raise IOError, s') /\
    trace s' = trace s ++
      [ Log INFO "starting_high_acq_chunk"; Leo shutter_on; Print "hr" ] /\
    shutter_after false
      [ Log INFO "starting_high_acq_chunk"; Leo shutter_on; Print "hr" ]
      = true.
Proof.
  intros H. apply Z.ltb_lt in H.
  exists (advance [ Log INFO "starting_high_acq_chunk"; Leo shutter_on;
                    Print "hr" ] 0 s).
  split; [|split; reflexivity].
  unfold high_acq, sleep. rewrite H. exec. f_equal. state_eq.
Qed.

Lemma X3_witness_minus_one :
  -1 < 0 /\
  exists s',
    high_acq quiet_env "/data0/latest" (-1) sample_cfg (start_state 0)
      = (Raise IOError, s') /\
    trace s' = trace (start_state 0) ++
      [ Log INFO "starting_high_acq_chunk"; Leo shutter_on; Print "hr" ] /\
    shutter_after false
      [ Log INFO "starting_high_acq_chunk"; Leo shutter_on; Print "hr" ]
      = true.
Proof.
  split; [lia|].
  apply (X3_high_acq_negative_interval_holds_trigger quiet_env
           "/data0/latest" (-1) sample_cfg (start_state 0)).
  lia.
Defined.

(** ** Image handling, branch by branch *)


(** X4. An existing image that is no cloud marker and whose renamed name
    ends in [.jpg], with room on the disk: the "last image" pointer and
    [/tmp/latest_img.tmp] are both written with the same file, which is
    the thumbnail when the name has no "thumb.jpg" and [clearing_quality]
    is '2' (the only case in which a thumbnail is made) and the renamed
    file otherwise. *)
Theorem X4_jpg_image_updates_both_pointers
    (E : env) (imgfile : string) (job_list : list nat) (current_dir : string)
    (cfg : config_dict) (s : state) :
  isfile E imgfile = true ->
  detect_disk_full E (clock s) = false ->
  orb (str_in "cloudy_img" imgfile) (str_in "clearing" imgfile) = false ->
  endswith (lower (rename_RAW E imgfile)) ".jpg" = true ->
  exists s',
    handle_new_image E imgfile job_list current_dir cfg s = (Ret None, s') /\
    trace s' = trace s ++
      [ Isfile imgfile;
        Log INFO "handle-image_starting";
        RenameRaw imgfile;
        Log INFO "handle-image_jpg" ]
      ++ (if andb (negb (str_in "thumb.jpg" (rename_RAW E imgfile)))
                  (String.eqb (clearing_quality cfg) "2")
          then [ MakeThumb (rename_RAW E imgfile);
                 Log INFO "handle-image_thumb-jpg" ]
          else [])
      ++ [ WriteLastImageFile
             (if andb (negb (str_in "thumb.jpg" (rename_RAW E imgfile)))
                      (String.eqb (clearing_quality cfg) "2")
              then make_thumb E (rename_RAW E imgfile)
              else rename_RAW E imgfile)
             (last_img_status_file cfg);
           WriteLastImageFile
             (if andb (negb (str_in "thumb.jpg" (rename_RAW E imgfile)))
                      (String.eqb (clearing_quality cfg) "2")
              then make_thumb E (rename_RAW E imgfile)
              else rename_RAW E imgfile)
             "/tmp/latest_img.tmp";
           Stat
             (if andb (negb (str_in "thumb.jpg" (rename_RAW E imgfile)))
                      (String.eqb (clearing_quality cfg) "2")
              then make_thumb E (rename_RAW E imgfile)
              else rename_RAW E imgfile);
           Log INFO "latest_image" ].
Proof.
  intros Hf Hd Hm Hj. eexists. split.
  - apply handle_new_image_jpg; assumption.
  - unfold jpg_recorded. reflexivity.
Qed.

Lemma X4_witness_twilight_jpg :
  isfile jpg_env "/data0/latest/DSC_0002.JPG" = true /\
  detect_disk_full jpg_env (clock (start_state 0)) = false /\
  orb (str_in "cloudy_img" "/data0/latest/DSC_0002.JPG")
      (str_in "clearing" "/data0/latest/DSC_0002.JPG") = false /\
  endswith (lower (rename_RAW jpg_env "/data0/latest/DSC_0002.JPG")) ".jpg"
    = true /\
  exists s',
    handle_new_image jpg_env "/data0/latest/DSC_0002.JPG" [] "/data0/latest"
      sample_cfg (start_state 0) = (Ret None, s') /\
    trace s' = trace (start_state 0) ++
      [ Isfile "/data0/latest/DSC_0002.JPG";
        Log INFO "handle-image_starting";
        RenameRaw "/data0/latest/DSC_0002.JPG";
        Log INFO "handle-image_jpg" ]
      ++ (if andb (negb (str_in "thumb.jpg"
                           (rename_RAW jpg_env "/data0/latest/DSC_0002.JPG")))
                  (String.eqb (clearing_quality sample_cfg) "2")
          then [ MakeThumb (rename_RAW jpg_env "/data0/latest/DSC_0002.JPG");
                 Log INFO "handle-image_thumb-jpg" ]
          else [])
      ++ [ WriteLastImageFile
             (if andb (negb (str_in "thumb.jpg"
                               (rename_RAW jpg_env
                                  "/data0/latest/DSC_0002.JPG")))
                      (String.eqb (clearing_quality sample_cfg) "2")
              then make_thumb jpg_env
                     (rename_RAW jpg_env "/data0/latest/DSC_0002.JPG")
              else rename_RAW jpg_env "/data0/latest/DSC_0002.JPG")
             (last_img_status_file sample_cfg);
           WriteLastImageFile
             (if andb (negb (str_in "thumb.jpg"
                               (rename_RAW jpg_env
                                  "/data0/latest/DSC_0002.JPG")))
                      (String.eqb (clearing_quality sample_cfg) "2")
              then make_thumb jpg_env
                     (rename_RAW jpg_env "/data0/latest/DSC_0002.JPG")
              else rename_RAW jpg_env "/data0/latest/DSC_0002.JPG")
             "/tmp/latest_img.tmp";
           Stat
             (if andb (negb (str_in "thumb.jpg"
                               (rename_RAW jpg_env
                                  "/data0/latest/DSC_0002.JPG")))
                      (String.eqb (clearing_quality sample_cfg) "2")
              then make_thumb jpg_env
                     (rename_RAW jpg_env "/data0/latest/DSC_0002.JPG")
              else rename_RAW jpg_env "/data0/latest/DSC_0002.JPG");
           Log INFO "latest_image" ].
Proof.
  split; [reflexivity|]. split; [reflexivity|].
  split; [reflexivity|]. split; [reflexivity|].
  apply (X4_jpg_image_updates_both_pointers jpg_env
           "/data0/latest/DSC_0002.JPG" [] "/data0/latest" sample_cfg
           (start_state 0)); reflexivity.
Defined.

(** X5. An existing image whose name contains "cloudy_img" or "clearing",
    with room on the disk, is recorded in the "last image" pointer as it
    is: it is neither renamed nor thumbnailed. *)
Theorem X5_cloud_marker_recorded_untouched
    (E : env) (imgfile : string) (job_list : list nat) (current_dir : string)
    (cfg : config_dict) (s : state) :
  isfile E imgfile = true ->
  detect_disk_full E (clock s) = false ->
  orb (str_in "cloudy_img" imgfile) (str_in "clearing" imgfile) = true ->
  exists s',
    handle_new_image E imgfile job_list current_dir cfg s = (Ret None, s') /\
    trace s' = trace s ++
      [ Isfile imgfile;
        Log INFO "handle-image_starting";
        Log INFO "handle-image_cloudy_and_clearing";
        WriteLastImageFile imgfile (last_img_status_file cfg);
        Stat imgfile;
        Log INFO "latest_image" ].
Proof.
  intros Hf Hd Hm. eexists. split.
  - apply handle_new_image_marker; assumption.
  - reflexivity.
Qed.

Lemma X5_witness_cloudy_img :
  isfile quiet_env "/tmp/cloudy_img.jpg" = true /\
  detect_disk_full quiet_env (clock (start_state 0)) = false /\
  orb (str_in "cloudy_img" "/tmp/cloudy_img.jpg")
      (str_in "clearing" "/tmp/cloudy_img.jpg") = true /\
  exists s',
    handle_new_image quiet_env "/tmp/cloudy_img.jpg" [] "/data0/latest"
      sample_cfg (start_state 0) = (Ret None, s') /\
    trace s' = trace (start_state 0) ++
      [ Isfile "/tmp/cloudy_img.jpg";
        Log INFO "handle-image_starting";
        Log INFO "handle-image_cloudy_and_clearing";
        WriteLastImageFile "/tmp/cloudy_img.jpg"
          (last_img_status_file sample_cfg);
        Stat "/tmp/cloudy_img.jpg";
        Log INFO "latest_image" ].
Proof.
  split; [reflexivity|]. split; [reflexivity|]. split; [reflexivity|].
  apply (X5_cloud_marker_recorded_untouched quiet_env "/tmp/cloudy_img.jpg"
           [] "/data0/latest" sample_cfg (start_state 0)); reflexivity.
Defined.

(** X6. A path that is not a file is logged ("argh-imgfile_not_exist")
    and skipped: the disk is not even checked, nothing is renamed,
    thumbnailed or recorded, and [None] comes back. *)
Theorem X6_missing_image_logged_and_skipped
    (E : env) (imgfile : string) (job_list : list nat) (current_dir : string)
    (cfg : config_dict) (s : state) :
  isfile E imgfile = false ->
  exists s',
    handle_new_image E imgfile job_list current_dir cfg s = (Ret None, s') /\
    trace s' = trace s ++
      [ Isfile imgfile; Log INFO "argh-imgfile_not_exist" ] /\
    clock s' = clock s.
Proof.
  intros Hf. eexists. split; [|split].
  - apply handle_new_image_missing. exact Hf.
  - reflexivity.
  - fields. unfold seconds. lia.
Qed.

Lemma X6_witness_empty_name :
  isfile (sample_env usual_sun (readings []) true all_launches_succeed false)
    "" = false /\
  exists s',
    handle_new_image
      (sample_env usual_sun (readings []) true all_launches_succeed false)
      "" [] "/data0/latest" sample_cfg (start_state 0) = (Ret None, s') /\
    trace s' = trace (start_state 0) ++
      [ Isfile ""; Log INFO "argh-imgfile_not_exist" ] /\
    clock s' = clock (start_state 0).
Proof.
  split; [reflexivity|].
  apply (X6_missing_image_logged_and_skipped
           (sample_env usual_sun (readings []) true all_launches_succeed false)
           "" [] "/data0/latest" sample_cfg (start_state 0)).
  reflexivity.
Defined.



(** ** The loops *)

Lemma bind_Ret_inv {A B} (m : M A) (k : A -> M B) s b s' :
  bind m k s = (Ret b, s') ->
  exists a s1, m s = (Ret a, s1) /\ k a s1 = (Ret b, s').
Proof.
  unfold bind. destruct (m s) as [[a|e| |] s1]; intros H;
    try discriminate. exists a, s1. auto.
Qed.





Lemma night_loop_exit E fuel test_time b current_dir interval_time cfg :
  forall prev s r s',
    night_loop E fuel test_time b current_dir interval_time cfg prev s
      = (Ret r, s') ->
    sunrise_before_twilight b <= clock s'.
Proof.
  induction fuel as [|fuel IH]; intros prev s r s' H; [discriminate|].
  cbn [night_loop] in H.
  apply bind_Ret_inv in H. destruct H as [t [s0 [Hn H]]].
  unfold now in Hn. inversion Hn; subst t s0; clear Hn.
  destruct (clock s <? sunrise_before_twilight b) eqn:Hc.
  - apply bind_Ret_inv in H. destruct H as [st [s1 [_ H]]].
    eapply IH. exact H.
  - inversion H; subst. apply Z.ltb_ge. exact Hc.
Qed.

Lemma twilight_loop_exit E fuel boundary current_dir interval_time job_list
    cfg :
  forall s s',
    twilight_loop E fuel boundary current_dir interval_time job_list cfg s
      = (Ret tt, s') ->
    boundary <= clock s'.
Proof.
  induction fuel as [|fuel IH]; intros s s' H; [discriminate|].
  cbn [twilight_loop] in H.
  apply bind_Ret_inv in H. destruct H as [t [s0 [Hn H]]].
  unfold now in Hn. inversion Hn; subst t s0; clear Hn.
  destruct (clock s <? boundary) eqn:Hc.
  - apply bind_Ret_inv in H. destruct H as [img [s1 [_ H]]].
    apply bind_Ret_inv in H. destruct H as [r [s2 [_ H]]].
    eapply IH. exact H.
  - inversion H; subst. apply Z.ltb_ge. exact Hc.
Qed.

Lemma wait_until_sunset_exit E fuel test_time cfg :
  forall st b s r s',
    wait_until_sunset E fuel test_time cfg st b s = (Ret r, s') ->
    sunset (snd r) <= clock s'.
Proof.
  induction fuel as [|fuel IH]; intros st b s r s' H; [discriminate|].
  cbn [wait_until_sunset] in H.
  apply bind_Ret_inv in H. destruct H as [t [s0 [Hn H]]].
  unfold now in Hn. inversion Hn; subst t s0; clear Hn.
  destruct (clock s <? sunset b) eqn:Hc.
  - apply bind_Ret_inv in H. destruct H as [u1 [s1 [_ H]]].
    apply bind_Ret_inv in H. destruct H as [u2 [s2 [_ H]]].
    apply bind_Ret_inv in H. destruct H as [u3 [s3 [_ H]]].
    apply bind_Ret_inv in H. destruct H as [r1 [s4 [_ H]]].
    eapply IH. exact H.
  - inversion H; subst. cbn [snd]. apply Z.ltb_ge. exact Hc.
Qed.

(** X9. No loop is left early.  Whenever the wait for sunset, a twilight
    loop or the night loop returns, the clock has reached the boundary the
    loop was waiting for: the sunset of the schedule handed back, the
    twilight boundary, the start of the morning twilight. *)
Theorem X9_loops_return_at_or_after_their_boundary
    (E : env) (fuel : nat) (test_time : Z) (cfg : config_dict) :
  (forall st b s r s',
      wait_until_sunset E fuel test_time cfg st b s = (Ret r, s') ->
      sunset (snd r) <= clock s') /\
  (forall boundary current_dir interval_time job_list s s',
      twilight_loop E fuel boundary current_dir interval_time job_list cfg s
        = (Ret tt, s') ->
      boundary <= clock s') /\
  (forall b current_dir interval_time prev s r s',
      night_loop E fuel test_time b current_dir interval_time cfg prev s
        = (Ret r, s') ->
      sunrise_before_twilight b <= clock s').
Proof.
  split; [|split].
  - apply wait_until_sunset_exit.
  - intros. eapply twilight_loop_exit. eassumption.
  - intros. eapply night_loop_exit. eassumption.
Qed.

Lemma X9_witness_five_status_night :
  sunrise_before_twilight (night_until (seconds 3000))
    <= clock (snd five_status_night).
Proof.
  apply (proj2 (proj2 (X9_loops_return_at_or_after_their_boundary
                         (sample_env usual_sun
                            (readings [CLEAR; CLEARING; CLOUDY; -1; CLEAR])
                            false all_launches_succeed false)
                         6 0 sample_cfg))
           (night_until (seconds 3000)) "/data0/latest" 600 (-3)
           (start_state 0) CLEAR (snd five_status_night)).
  vm_compute. reflexivity.
Defined.

(** ** Waiting for sunset *)

(** With a GPS lock, or in a test run, the wait only polls: every 30
    seconds, until the clock has reached sunset. *)
Lemma wait_until_sunset_polls E test_time cfg st b (n : nat) :
  andb (String.eqb (snd st) "N") (test_time =? 0) = false ->
  forall fuel s,
    (n < fuel)%nat ->
    sunset b - clock s <= seconds (30 * Z.of_nat n) ->
    (n <> 0%nat -> seconds (30 * (Z.of_nat n - 1)) < sunset b - clock s) ->
    wait_until_sunset E fuel test_time cfg st b s =
      (Ret (st, b), advance (poll_events n) (30 * Z.of_nat n) s).
Proof.
  intros Hno. induction n as [|n IH]; intros fuel s Hf Hup Hlow.
  - destruct fuel as [|fuel]; [lia|].
    cbn [wait_until_sunset]. unfold bind, now.
    assert (Hc : (clock s <? sunset b) = false).
    { apply Z.ltb_ge. unfold seconds in Hup. lia. }
    rewrite Hc. unfold ret. f_equal. state_eq;
      try (now rewrite app_nil_r); try lia.
  - destruct fuel as [|fuel]; [lia|].
    assert (Hc : (clock s <? sunset b) = true).
    { apply Z.ltb_lt. specialize (Hlow ltac:(lia)). unfold seconds in Hlow.
      lia. }
    cbn [wait_until_sunset]. unfold bind at 1. unfold now. rewrite Hc.
    rewrite Hno. exec. run_sleep. unfold ret.
    match goal with
    | |- context [wait_until_sunset E fuel test_time cfg st b ?s1] =>
        rewrite (IH fuel s1)
    end.
    + f_equal. state_eq.
    + lia.
    + fields. unfold seconds in *. lia.
    + intros Hn. specialize (Hlow ltac:(lia)). fields.
      unfold seconds in *. lia.
Qed.

(** X10. While the station has a GPS lock (or in a test run) the wait
    for sunset never asks the GPS again and never touches the schedule:
    it polls every 30 seconds and hands back the station and schedule it
    was given, at the first poll at or after sunset, so less than 30
    seconds late. *)
Theorem X10_wait_with_lock_polls_every_30_seconds
    (E : env) (test_time : Z) (cfg : config_dict) (st : station)
    (b : schedule) (n fuel : nat) (s : state) :
  andb (String.eqb (snd st) "N") (test_time =? 0) = false ->
  (n < fuel)%nat ->
  sunset b - clock s <= seconds (30 * Z.of_nat n) ->
  (n <> 0%nat -> seconds (30 * (Z.of_nat n - 1)) < sunset b - clock s) ->
  exists s',
    wait_until_sunset E fuel test_time cfg st b s = (Ret (st, b), s') /\
    trace s' = trace s ++ poll_events n /\
    clock s' = clock s + seconds (30 * Z.of_nat n) /\
    sunset b <= clock s' /\
    (n <> 0%nat -> clock s' < sunset b + seconds 30) /\
    gps_queries s' = gps_queries s.
Proof.
  intros Hno Hf Hup Hlow. eexists. split.
  - apply wait_until_sunset_polls; eassumption.
  - split; [reflexivity|]. split; [reflexivity|].
    split; [fields; lia|]. split; [|reflexivity].
    intros Hn. specialize (Hlow Hn). fields. unfold seconds in *. lia.
Qed.

Lemma X10_witness_one_minute_early :
  andb (String.eqb (snd locked_station) "N") (0 =? 0) = false /\
  (2 < 3)%nat /\
  sunset (computed_boundaries 0 0 usual_sun (minutes 10))
    - clock (start_state (seconds 65340)) <= seconds (30 * Z.of_nat 2) /\
  (2%nat <> 0%nat ->
   seconds (30 * (Z.of_nat 2 - 1))
   < sunset (computed_boundaries 0 0 usual_sun (minutes 10))
     - clock (start_state (seconds 65340))) /\
  exists s',
    wait_until_sunset quiet_env 3 0 sample_cfg locked_station
      (computed_boundaries 0 0 usual_sun (minutes 10))
      (start_state (seconds 65340)) =
      (Ret (locked_station, computed_boundaries 0 0 usual_sun (minutes 10)),
       s') /\
    trace s' = trace (start_state (seconds 65340)) ++ poll_events 2 /\
    clock s' = clock (start_state (seconds 65340))
               + seconds (30 * Z.of_nat 2) /\
    sunset (computed_boundaries 0 0 usual_sun (minutes 10)) <= clock s' /\
    (2%nat <> 0%nat ->
     clock s' < sunset (computed_boundaries 0 0 usual_sun (minutes 10))
                + seconds 30) /\
    gps_queries s' = gps_queries (start_state (seconds 65340)).
Proof.
  split; [reflexivity|]. split; [lia|].
  split; [vm_compute; discriminate|]. split; [intros _; reflexivity|].
  apply (X10_wait_with_lock_polls_every_30_seconds quiet_env 0 sample_cfg
           locked_station (computed_boundaries 0 0 usual_sun (minutes 10))
           2 3 (start_state (seconds 65340))).
  - reflexivity.
  - lia.
  - vm_compute. discriminate.
  - intros _. reflexivity.
Defined.

(** ** A late start *)

Lemma start_night_clock E cfg s :
  clock (snd (start_night E cfg s)) = clock s.
Proof.
  unfold start_night, try_except_CalledProcessError, try_except,
    subprocess_Popen, tether_error_handler. exec.
  destruct (popen_raises E (popen_calls s)) as [e|]; cbn; [|reflexivity].
  destruct e; reflexivity.
Qed.

Lemma evening_twilight_exit E fuel b current_dir interval_time job_list
    cfg s s' :
  evening_twilight E fuel 0 b current_dir interval_time job_list cfg s
    = (Ret tt, s') ->
  sunset_after_twilight b <= clock s'.
Proof.
  unfold evening_twilight. cbn [Z.eqb]. intros H.
  apply bind_Ret_inv in H. destruct H as [u1 [s1 [_ H]]].
  apply bind_Ret_inv in H. destruct H as [u2 [s2 [_ H]]].
  apply bind_Ret_inv in H. destruct H as [u3 [s3 [_ H]]].
  apply bind_Ret_inv in H. destruct H as [u4 [s4 [_ H]]].
  eapply twilight_loop_exit. exact H.
Qed.

Lemma night_loop_over E fuel test_time b current_dir interval_time cfg
    prev s :
  sunrise_before_twilight b <= clock s ->
  night_loop E (S fuel) test_time b current_dir interval_time cfg prev s
    = (Ret prev, s).
Proof.
  intros H. cbn [night_loop]. unfold bind, now.
  apply Z.ltb_ge in H. rewrite H. reflexivity.
Qed.

(** X11. After the late-start override only the evening start is moved:
    the end of the evening twilight stays ten minutes after the computed
    sunset, which is after the start of the morning twilight.  So when
    the evening twilight phase returns and the night tether is started,
    the night loop is over before its first pass: a late-started session
    takes no night exposure. *)
Theorem X11_late_start_leaves_no_night
    (E : env) (pos : position) (cfg : config_dict) (s : state) :
  sunset (computed_boundaries 0 (clock s) (generate_sun_and_moon E pos)
            (sun_leeway cfg))
  >= sunrise (computed_boundaries 0 (clock s) (generate_sun_and_moon E pos)
                (sun_leeway cfg)) ->
  exists b s1,
    calculate_sunset_and_sunrise E 0 pos cfg s = (Ret b, s1) /\
    sunset b = clock s + seconds 30 /\
    sunrise_before_twilight b < sunset_after_twilight b /\
    (forall fuel current_dir interval_time job_list prev s2 s3 tether s4,
        evening_twilight E fuel 0 b current_dir interval_time job_list cfg s2
          = (Ret tt, s3) ->
        start_night E cfg s3 = (Ret tether, s4) ->
        night_loop E (S fuel) 0 b current_dir interval_time cfg prev s4
          = (Ret prev, s4)).
Proof.
  intros Hlate.
  set (raw := computed_boundaries 0 (clock s) (generate_sun_and_moon E pos)
                (sun_leeway cfg)) in *.
  assert (Hb : (sunset raw >=? sunrise raw) = true) by (apply Z.geb_le; lia).
  exists (with_sunset (clock s + seconds 30) raw). eexists.
  split; [|split; [reflexivity|]].
  - rewrite calculate_sunset_and_sunrise_run. fold raw. rewrite Hb.
    reflexivity.
  - assert (Hord : sunrise_before_twilight raw < sunset_after_twilight raw).
    { subst raw. unfold computed_boundaries in *. cbn in *.
      unfold minutes, seconds in *. lia. }
    split; [exact Hord|].
    intros fuel current_dir interval_time job_list prev s2 s3 tether s4
      Hev Hst.
    apply night_loop_over.
    apply evening_twilight_exit in Hev.
    pose proof (start_night_clock E cfg s3) as Hck. rewrite Hst in Hck.
    cbn [snd] in Hck. cbn [sunset_after_twilight sunrise_before_twilight
                           with_sunset] in *. lia.
Qed.

Lemma X11_witness_started_at_eight :
  sunset (computed_boundaries 0 (clock (start_state (seconds 72000)))
            (generate_sun_and_moon late_env (0, 0, 0))
            (sun_leeway sample_cfg))
  >= sunrise (computed_boundaries 0 (clock (start_state (seconds 72000)))
                (generate_sun_and_moon late_env (0, 0, 0))
                (sun_leeway sample_cfg)) /\
  exists b s1,
    calculate_sunset_and_sunrise late_env 0 (0, 0, 0) sample_cfg
      (start_state (seconds 72000)) = (Ret b, s1) /\
    sunset b = clock (start_state (seconds 72000)) + seconds 30 /\
    sunrise_before_twilight b < sunset_after_twilight b /\
    (forall fuel current_dir interval_time job_list prev s2 s3 tether s4,
        evening_twilight late_env fuel 0 b current_dir interval_time job_list
          sample_cfg s2 = (Ret tt, s3) ->
        start_night late_env sample_cfg s3 = (Ret tether, s4) ->
        night_loop late_env (S fuel) 0 b current_dir interval_time sample_cfg
          prev s4 = (Ret prev, s4)).
Proof.
  split; [vm_compute; discriminate|].
  apply (X11_late_start_leaves_no_night late_env (0, 0, 0) sample_cfg
           (start_state (seconds 72000))).
  vm_compute. discriminate.
Defined.

(** The late start on a concrete station: 134 chunks are taken, every one
    of them in the evening twilight phase, before the hand-off. *)
Example late_session_is_all_twilight :
  fst late_session = Replaced /\
  acquisitions (trace (snd late_session)) = repeat HighRate 134 /\
  List.length (filter is_Isfile (trace (snd late_session))) = 134%nat.
Proof. vm_compute. repeat split. Qed.

(** ** The normal shutdown *)

Lemma filter_shutdown_ntp n :
  filter is_shutdown_step (repeat (Log INFO "ntp") n) = [].
Proof. induction n as [|n IH]; [reflexivity | exact IH]. Qed.

Lemma filter_shutdown_joins job_list :
  filter is_shutdown_step (map JobJoin job_list) = map JobJoin job_list.
Proof.
  induction job_list as [|j l IH]; [reflexivity|]. cbn. now rewrite IH.
Qed.

Lemma sunrise_shutdown_run E test_time video_device_exists job_list
    data_path cfg s :
  exists evs,
    sunrise_shutdown E test_time video_device_exists job_list data_path cfg s
      = (if hands_off test_time cfg then Replaced else Ret true,
         with_serial_open false (advance evs 70 s)) /\
    filter is_shutdown_step evs =
      [Leo shutter_off]
      ++ (if video_device_exists then [Leo video_off] else [])
      ++ [Leo wait_for_camera_ready; Sleep 10]
      ++ map JobJoin job_list
      ++ [Cam camera_download_images; Leo camera_off; Leo cond_off;
          SerClose; Sleep 60]
      ++ (if hands_off test_time cfg then [Execvp] else []).
Proof.
  unfold sunrise_shutdown, ser_close, hands_off. exec.
  destruct video_device_exists; cbn; run_sleep;
    rewrite join_jobs_run; cbn;
    destruct (String.eqb (clearing_quality cfg) "2"); cbn;
    destruct (several_raw_files E); cbn;
    rewrite ntp_log_run; cbn; run_sleep;
    destruct (test_time =? 0); cbn;
    try (destruct (event_detect_enabled cfg) as [v|]; cbn;
         [destruct (String.eqb v "0"); cbn;
          [|destruct (String.eqb v "N"); cbn]|]);
    eexists; (split; [f_equal; state_eq|]);
    cbn [app];
    repeat (rewrite ?filter_app, ?filter_shutdown_ntp, ?filter_shutdown_joins;
            cbn [filter is_shutdown_step app]);
    rewrite ?app_nil_r; reflexivity.
Qed.

(** X12. The shutdown at sunrise never raises.  It releases the shutter,
    switches the video off if a video device was found, waits for the
    camera and ten seconds more, joins the jobs, downloads what is left on
    the camera and only then powers the camera and the fan off and closes
    the channel.  It ends in the hand-off to the processing wrapper exactly
    when the run is no test and [event_detect] has no 'enabled' key or one
    that is neither '0' nor 'N'; otherwise it returns [True]. *)
Theorem X12_shutdown_order_and_hand_off
    (E : env) (test_time : Z) (video_device_exists : bool)
    (job_list : list nat) (data_path : string) (cfg : config_dict)
    (s : state) :
  exists s' evs,
    sunrise_shutdown E test_time video_device_exists job_list data_path cfg s
      = (if hands_off test_time cfg then Replaced else Ret true, s') /\
    trace s' = trace s ++ evs /\
    serial_open s' = false /\
    clock s' = clock s + seconds 70 /\
    filter is_shutdown_step evs =
      [Leo shutter_off]
      ++ (if video_device_exists then [Leo video_off] else [])
      ++ [Leo wait_for_camera_ready; Sleep 10]
      ++ map JobJoin job_list
      ++ [Cam camera_download_images; Leo camera_off; Leo cond_off;
          SerClose; Sleep 60]
      ++ (if hands_off test_time cfg then [Execvp] else []).
Proof.
  destruct (sunrise_shutdown_run E test_time video_device_exists job_list
              data_path cfg s) as [evs [Hrun Hord]].
  eexists. exists evs. split; [exact Hrun|].
  repeat split; [exact Hord].
Qed.

(** ** The hardware channel over a whole session *)

Lemma quiet_ret {A} (a : A) : quiet (ret a).
Proof. intros s. split; [reflexivity | discriminate]. Qed.

Lemma quiet_raise {A} e : quiet (@raise A e).
Proof. intros s. split; [reflexivity | discriminate]. Qed.

Lemma quiet_out_of_fuel {A} : quiet (@out_of_fuel A).
Proof. intros s. split; [reflexivity | discriminate]. Qed.

Lemma quiet_now : quiet now.
Proof. intros s. split; [reflexivity | discriminate]. Qed.

Lemma quiet_emit e : quiet (emit e).
Proof. intros s. split; [reflexivity | discriminate]. Qed.

Lemma quiet_sleep n : quiet (sleep n).
Proof.
  intros s. unfold sleep. destruct (n <? 0);
    (split; [reflexivity | discriminate]).
Qed.

Lemma quiet_bind {A B} (m : M A) (k : A -> M B) :
  quiet m -> (forall a, quiet (k a)) -> quiet (bind m k).
Proof.
  intros Hm Hk s. destruct (Hm s) as [Hs Hr]. unfold bind.
  destruct (m s) as [[a|e| |] s1] eqn:Hms; cbn in Hs, Hr.
  - destruct (Hk a s1) as [Hs' Hr']. split; [congruence | exact Hr'].
  - split; [exact Hs | discriminate].
  - congruence.
  - split; [exact Hs | discriminate].
Qed.

Lemma quiet_try {A} class (m h : M A) :
  quiet m -> quiet h -> quiet (try_except class m h).
Proof.
  intros Hm Hh s. destruct (Hm s) as [Hs Hr]. unfold try_except.
  destruct (m s) as [[a|e| |] s1] eqn:Hms; cbn in Hs, Hr.
  - split; [exact Hs | discriminate].
  - destruct (class e).
    + destruct (Hh s1) as [Hs' Hr']. split; [congruence | exact Hr'].
    + split; [exact Hs | discriminate].
  - congruence.
  - split; [exact Hs | discriminate].
Qed.

Lemma quiet_when b m : quiet m -> quiet (when b m).
Proof. intros H. destruct b; [exact H | apply quiet_ret]. Qed.

Lemma quiet_for_each {A} (l : list A) body :
  (forall a, quiet (body a)) -> quiet (for_each l body).
Proof.
  intros H. induction l as [|a l IH]; cbn.
  - apply quiet_ret.
  - apply quiet_bind; [apply H | intros _; exact IH].
Qed.

Lemma quiet_gps E pos : quiet (leo_update_GPS_location E pos).
Proof. intros s. split; [reflexivity | discriminate]. Qed.

Lemma quiet_cloud E : quiet (cc_read_cloud_status E).
Proof. intros s. split; [reflexivity | discriminate]. Qed.

Lemma quiet_disk E : quiet (dfn_detect_disk_full E).
Proof. intros s. split; [reflexivity | discriminate]. Qed.

Lemma quiet_latest E dir : quiet (dfn_get_latest_imagefile E dir).
Proof. intros s. split; [reflexivity | discriminate]. Qed.

Lemma quiet_Popen E c : quiet (subprocess_Popen E c).
Proof.
  intros s. unfold subprocess_Popen.
  destruct (popen_raises E (popen_calls s));
    (split; [reflexivity | discriminate]).
Qed.

Lemma quiet_poll E tether : quiet (tether_poll E tether).
Proof.
  intros s. unfold tether_poll. destruct tether; [|apply quiet_raise].
  destruct (tether_reaped s);
    [|destruct (orb (tether_gone_by E (clock s)) _)];
    (split; [reflexivity | discriminate]).
Qed.

Lemma quiet_signal E tether sig : quiet (tether_send_signal E tether sig).
Proof.
  intros s. unfold tether_send_signal. destruct tether; [|apply quiet_raise].
  destruct (tether_reaped s); (split; [reflexivity | discriminate]).
Qed.

(** Chosen by the head of the program, so that nothing is run to find
    the rule. *)
Ltac quiets :=
  repeat lazymatch goal with
    | |- quiet (bind _ _) => apply quiet_bind; [|intros ?]
    | |- quiet (ret _) => apply quiet_ret
    | |- quiet (raise _) => apply quiet_raise
    | |- quiet out_of_fuel => apply quiet_out_of_fuel
    | |- quiet now => apply quiet_now
    | |- quiet (emit _) => apply quiet_emit
    | |- quiet (sleep _) => apply quiet_sleep
    | |- quiet (leo_update_GPS_location _ _) => apply quiet_gps
    | |- quiet (cc_read_cloud_status _) => apply quiet_cloud
    | |- quiet (dfn_detect_disk_full _) => apply quiet_disk
    | |- quiet (dfn_get_latest_imagefile _ _) => apply quiet_latest
    | |- quiet (subprocess_Popen _ _) => apply quiet_Popen
    | |- quiet (tether_poll _ _) => apply quiet_poll
    | |- quiet (tether_send_signal _ _ _) => apply quiet_signal
    | |- quiet (when _ _) => apply quiet_when
    | |- quiet (for_each _ _) => apply quiet_for_each; intros ?
    | |- quiet (try_except _ _ _) => apply quiet_try
    | |- quiet (if ?c then _ else _) => destruct c
    | |- quiet (match ?c with Some _ => _ | None => _ end) => destruct c
    end.

Lemma quiet_high_acq E d i c : quiet (high_acq E d i c).
Proof. unfold high_acq, log, leo, print. quiets. Qed.

Lemma quiet_low_acq E d st c : quiet (low_acq E d st c).
Proof. unfold low_acq, log, leo. quiets. Qed.

Lemma quiet_handle_new_image E img jobs d c :
  quiet (handle_new_image E img jobs d c).
Proof.
  unfold handle_new_image, os_path_isfile, clean_up_no_dl, global_ser_close,
    module_global_ser, dfn_write_last_image_file, dfn_rename_RAW,
    dfn_make_thumb, log, leo.
  quiets.
Qed.

Lemma quiet_calculate E test_time pos cfg :
  quiet (calculate_sunset_and_sunrise E test_time pos cfg).
Proof.
  unfold calculate_sunset_and_sunrise, log.
  destruct (generate_sun_and_moon E pos) as [sunrise0 sunset0]. quiets.
Qed.

Lemma quiet_wait E fuel test_time cfg :
  forall st b, quiet (wait_until_sunset E fuel test_time cfg st b).
Proof.
  induction fuel as [|fuel IH]; intros st b; cbn [wait_until_sunset].
  - apply quiet_out_of_fuel.
  - apply quiet_bind; [apply quiet_now | intros t].
    destruct (t <? sunset b); [|apply quiet_ret].
    unfold log, print.
    do 3 (apply quiet_bind; [quiets | intros ?]).
    apply quiet_bind; [|intros r; apply IH].
    destruct (andb (String.eqb (snd st) "N") (test_time =? 0));
      [|apply quiet_ret].
    apply quiet_bind; [apply quiet_gps | intros st'].
    destruct (negb (String.eqb (snd st') "N")); [|apply quiet_ret].
    apply quiet_bind; [apply quiet_emit | intros _].
    apply quiet_bind; [apply quiet_calculate | intros b'; apply quiet_ret].
Qed.

Lemma quiet_switch_on E test_time data_path cfg :
  quiet (switch_on_hardware E test_time data_path cfg).
Proof. unfold switch_on_hardware, log, leo, cam. quiets. Qed.

Lemma quiet_twilight_loop E fuel boundary d i jobs c :
  quiet (twilight_loop E fuel boundary d i jobs c).
Proof.
  induction fuel as [|fuel IH]; cbn [twilight_loop].
  - apply quiet_out_of_fuel.
  - apply quiet_bind; [apply quiet_now | intros t].
    destruct (t <? boundary); [|apply quiet_ret].
    apply quiet_bind; [apply quiet_high_acq | intros img].
    apply quiet_bind; [apply quiet_handle_new_image | intros _; exact IH].
Qed.

Lemma quiet_evening E fuel test_time b d i jobs c :
  quiet (evening_twilight E fuel test_time b d i jobs c).
Proof.
  unfold evening_twilight, twilight_settings, try_except_CalledProcessError,
    tether_error_handler, log, cam, print.
  destruct (test_time =? 0); [|apply quiet_emit].
  do 3 (apply quiet_bind; [quiets | intros ?]).
  apply quiet_bind; [quiets | intros ?; apply quiet_twilight_loop].
Qed.

Lemma quiet_morning E fuel test_time b d i jobs c :
  quiet (morning_twilight E fuel test_time b d i jobs c).
Proof.
  unfold morning_twilight, twilight_settings, try_except_CalledProcessError,
    tether_error_handler, log, cam, print.
  destruct (test_time =? 0); [|apply quiet_emit].
  do 3 (apply quiet_bind; [quiets | intros ?]).
  apply quiet_bind; [quiets | intros ?; apply quiet_twilight_loop].
Qed.

Lemma quiet_start_night E cfg : quiet (start_night E cfg).
Proof.
  unfold start_night, try_except_CalledProcessError, tether_error_handler,
    log, cam, print.
  quiets.
Qed.

Lemma quiet_night_iteration E test_time d i c prev :
  quiet (night_iteration E test_time d i c prev).
Proof.
  unfold night_iteration, log, print.
  apply quiet_bind; [apply quiet_cloud | intros r].
  do 2 (apply quiet_bind; [quiets | intros ?]).
  apply quiet_bind; [quiets | intros st].
  apply quiet_bind; [|intros ?; apply quiet_ret].
  destruct (st =? CLEAR);
    [|destruct (st =? CLEARING); [|destruct (st =? CLOUDY)]];
    (apply quiet_bind;
     [quiets | intros ?; first [apply quiet_high_acq | apply quiet_low_acq]]).
Qed.

Lemma quiet_night_loop E fuel test_time b d i c :
  forall prev, quiet (night_loop E fuel test_time b d i c prev).
Proof.
  induction fuel as [|fuel IH]; intros prev; cbn [night_loop].
  - apply quiet_out_of_fuel.
  - apply quiet_bind; [apply quiet_now | intros t].
    destruct (t <? sunrise_before_twilight b); [|apply quiet_ret].
    apply quiet_bind; [apply quiet_night_iteration | intros st; apply IH].
Qed.

Lemma quiet_teardown E tether : quiet (tether_teardown E tether).
Proof.
  unfold tether_teardown, report_tether, tether_terminate, tether_kill,
    log, print.
  quiets.
Qed.

Lemma channel_law_bind {A} (m : M A) (k : A -> M bool) :
  quiet m -> (forall a, channel_law (k a)) -> channel_law (bind m k).
Proof.
  intros Hm Hk s Hopen. destruct (Hm s) as [Hs Hr]. unfold bind.
  destruct (m s) as [[a|e| |] s1] eqn:Hms; cbn in Hs, Hr; cbn.
  - apply Hk. congruence.
  - congruence.
  - congruence.
  - congruence.
Qed.

Lemma channel_law_shutdown E test_time vde jobs data_path cfg :
  channel_law (sunrise_shutdown E test_time vde jobs data_path cfg).
Proof.
  intros s _.
  destruct (sunrise_shutdown_run E test_time vde jobs data_path cfg s)
    as [evs [Hrun _]].
  rewrite Hrun. destruct (hands_off test_time cfg); reflexivity.
Qed.

(** X13. The hardware channel over a session.  [main_function] opens the
    channel first; when it returns or hands off to the processing wrapper
    the channel has been closed, and whenever it ends otherwise (an
    exception from any phase, disk-full shutdown included, or an exhausted
    loop budget) the channel is still open: nothing but the normal
    shutdown closes it. *)
Theorem X13_channel_closed_only_by_the_normal_shutdown
    (E : env) (fuel : nat) (test_time : Z) (cfg : config_dict)
    (data_path : string) (pos : position) (s : state) :
  match fst (main_function E fuel test_time cfg data_path pos s) with
  | Ret _ | Replaced =>
      serial_open (snd (main_function E fuel test_time cfg data_path pos s))
        = false
  | Raise _ | Fuel =>
      serial_open (snd (main_function E fuel test_time cfg data_path pos s))
        = true
  end.
Proof.
  unfold main_function.
  destruct (initialise_microcontroller_run cfg s) as [e1 [H1 _]].
  rewrite (bind_Ret _ _ _ _ _ H1).
  match goal with
  | |- context [fst (?m ?s1)] =>
      assert (Hlaw : channel_law m); [|apply (Hlaw s1); reflexivity]
  end.
  apply channel_law_bind; [apply quiet_gps | intros st].
  apply channel_law_bind; [apply quiet_emit | intros _].
  apply channel_law_bind; [apply quiet_calculate | intros b].
  apply channel_law_bind; [apply quiet_wait | intros r].
  apply channel_law_bind; [apply quiet_switch_on | intros vde].
  apply channel_law_bind; [apply quiet_evening | intros _].
  apply channel_law_bind; [apply quiet_start_night | intros tether].
  apply channel_law_bind; [apply quiet_night_loop | intros _].
  apply channel_law_bind; [apply quiet_teardown | intros _].
  apply channel_law_bind; [apply quiet_morning | intros _].
  apply channel_law_shutdown.
Qed.

(** ** The shutter trigger over a whole session *)

Lemma shutter_after_app held (l1 l2 : list event) :
  shutter_after held (l1 ++ l2) = shutter_after (shutter_after held l1) l2.
Proof.
  revert held. induction l1 as [|e l1 IH]; intros held; [reflexivity|].
  destruct e; try match goal with c : leo_cmd |- _ => destruct c end;
    cbn; apply IH.
Qed.

Lemma shutter_after_one e :
  is_shutter_on e = false -> shutter_after false [e] = false.
Proof.
  destruct e; try match goal with c : leo_cmd |- _ => destruct c end;
    cbn; congruence.
Qed.

Lemma ends_released_silent {A} (m : M A) :
  (forall s, trace (snd (m s)) = trace s) -> ends_released m.
Proof. intros H s. exists []. rewrite H, app_nil_r. auto. Qed.

Lemma ends_released_emit e :
  is_shutter_on e = false -> ends_released (emit e).
Proof. intros H s. exists [e]. split; [reflexivity|]. now apply shutter_after_one. Qed.

Lemma ends_released_sleep n : ends_released (sleep n).
Proof.
  intros s. unfold sleep. destruct (n <? 0).
  - exists []. cbn. now rewrite app_nil_r.
  - exists [Sleep n]. split; reflexivity.
Qed.

Lemma ends_released_bind {A B} (m : M A) (k : A -> M B) :
  ends_released m -> (forall a, ends_released (k a)) ->
  ends_released (bind m k).
Proof.
  intros Hm Hk s. destruct (Hm s) as [evs [Ht Hq]]. unfold bind.
  destruct (m s) as [[a|e| |] s1] eqn:Hms; cbn in Ht;
    try (exists evs; split; assumption).
  destruct (Hk a s1) as [evs' [Ht' Hq']].
  exists (evs ++ evs'). rewrite Ht', Ht, app_assoc. split; [reflexivity|].
  rewrite shutter_after_app, Hq. exact Hq'.
Qed.

Lemma ends_released_try {A} class (m h : M A) :
  ends_released m -> ends_released h -> ends_released (try_except class m h).
Proof.
  intros Hm Hh s. destruct (Hm s) as [evs [Ht Hq]]. unfold try_except.
  destruct (m s) as [[a|e| |] s1] eqn:Hms; cbn in Ht;
    try (exists evs; split; assumption).
  destruct (class e); [|exists evs; split; assumption].
  destruct (Hh s1) as [evs' [Ht' Hq']].
  exists (evs ++ evs'). rewrite Ht', Ht, app_assoc. split; [reflexivity|].
  rewrite shutter_after_app, Hq. exact Hq'.
Qed.

Lemma ends_released_when b m : ends_released m -> ends_released (when b m).
Proof.
  intros H. destruct b; [exact H|]. apply ends_released_silent. reflexivity.
Qed.

Lemma ends_released_for_each {A} (l : list A) body :
  (forall a, ends_released (body a)) -> ends_released (for_each l body).
Proof.
  intros H. induction l as [|a l IH]; cbn.
  - apply ends_released_silent. reflexivity.
  - apply ends_released_bind; [apply H | intros _; exact IH].
Qed.

Lemma ends_released_Popen E c : ends_released (subprocess_Popen E c).
Proof.
  intros s. exists [Popen c]. unfold subprocess_Popen.
  destruct (popen_raises E (popen_calls s)); split; reflexivity.
Qed.

Lemma ends_released_poll E tether : ends_released (tether_poll E tether).
Proof.
  destruct tether; [|apply ends_released_silent; reflexivity].
  intros s. exists [Poll]. unfold tether_poll.
  destruct (tether_reaped s);
    [|destruct (orb (tether_gone_by E (clock s)) _)];
    split; reflexivity.
Qed.

Lemma ends_released_signal E tether sig :
  ends_released (tether_send_signal E tether sig).
Proof.
  destruct tether; [|apply ends_released_silent; reflexivity].
  intros s. unfold tether_send_signal. destruct (tether_reaped s).
  - exists []. cbn. now rewrite app_nil_r.
  - exists [Kill sig]. split; reflexivity.
Qed.

Lemma ends_released_ser_close : ends_released ser_close.
Proof. intros s. exists [SerClose]. split; reflexivity. Qed.

Lemma ends_released_high_acq E d i c :
  0 <= i -> ends_released (high_acq E d i c).
Proof.
  intros Hi s. exists (high_acq_events d i).
  rewrite (high_acq_run E d i c s Hi). split; reflexivity.
Qed.

Ltac releases :=
  repeat lazymatch goal with
    | |- ends_released (bind _ _) => apply ends_released_bind; [|intros ?]
    | |- ends_released (ret _) => apply ends_released_silent; reflexivity
    | |- ends_released (raise _) => apply ends_released_silent; reflexivity
    | |- ends_released out_of_fuel => apply ends_released_silent; reflexivity
    | |- ends_released now => apply ends_released_silent; reflexivity
    | |- ends_released (emit _) => apply ends_released_emit; reflexivity
    | |- ends_released (sleep _) => apply ends_released_sleep
    | |- ends_released ser_close => apply ends_released_ser_close
    | |- ends_released (leo_update_GPS_location _ _) =>
        apply ends_released_silent; reflexivity
    | |- ends_released (cc_read_cloud_status _) =>
        apply ends_released_silent; reflexivity
    | |- ends_released (dfn_detect_disk_full _) =>
        apply ends_released_silent; reflexivity
    | |- ends_released (subprocess_Popen _ _) => apply ends_released_Popen
    | |- ends_released (tether_poll _ _) => apply ends_released_poll
    | |- ends_released (tether_send_signal _ _ _) =>
        apply ends_released_signal
    | |- ends_released (when _ _) => apply ends_released_when
    | |- ends_released (for_each _ _) =>
        apply ends_released_for_each; intros ?
    | |- ends_released (try_except _ _ _) => apply ends_released_try
    | |- ends_released (if ?c then _ else _) => destruct c
    | |- ends_released (match ?c with Some _ => _ | None => _ end) =>
        destruct c
    | |- ends_released (fun _ => _) =>
        apply ends_released_silent; intros; reflexivity
    end.

Lemma ends_released_low_acq E d st c : ends_released (low_acq E d st c).
Proof. unfold low_acq, dfn_get_latest_imagefile, log, leo. releases. Qed.

Lemma ends_released_handle_new_image E img jobs d c :
  ends_released (handle_new_image E img jobs d c).
Proof.
  unfold handle_new_image, os_path_isfile, clean_up_no_dl, global_ser_close,
    module_global_ser, dfn_write_last_image_file, dfn_rename_RAW,
    dfn_make_thumb, log, leo.
  releases.
Qed.

Lemma ends_released_calculate E test_time pos cfg :
  ends_released (calculate_sunset_and_sunrise E test_time pos cfg).
Proof.
  unfold calculate_sunset_and_sunrise, log.
  destruct (generate_sun_and_moon E pos) as [sunrise0 sunset0]. releases.
Qed.

Lemma ends_released_wait E fuel test_time cfg :
  forall st b, ends_released (wait_until_sunset E fuel test_time cfg st b).
Proof.
  induction fuel as [|fuel IH]; intros st b; cbn [wait_until_sunset].
  - apply ends_released_silent. reflexivity.
  - apply ends_released_bind; [releases | intros t].
    destruct (t <? sunset b); [|releases].
    unfold log, print.
    do 3 (apply ends_released_bind; [releases | intros ?]).
    apply ends_released_bind; [|intros r; apply IH].
    destruct (andb (String.eqb (snd st) "N") (test_time =? 0)); [|releases].
    apply ends_released_bind; [releases | intros st'].
    destruct (negb (String.eqb (snd st') "N")); [|releases].
    apply ends_released_bind; [releases | intros _].
    apply ends_released_bind; [apply ends_released_calculate | intros b'].
    releases.
Qed.

Lemma ends_released_switch_on E test_time data_path cfg :
  ends_released (switch_on_hardware E test_time data_path cfg).
Proof. unfold switch_on_hardware, log, leo, cam. releases. Qed.

Lemma ends_released_twilight_loop E fuel boundary d i jobs c :
  0 <= i -> ends_released (twilight_loop E fuel boundary d i jobs c).
Proof.
  intros Hi. induction fuel as [|fuel IH]; cbn [twilight_loop].
  - apply ends_released_silent. reflexivity.
  - apply ends_released_bind; [releases | intros t].
    destruct (t <? boundary); [|releases].
    apply ends_released_bind; [now apply ends_released_high_acq | intros img].
    apply ends_released_bind;
      [apply ends_released_handle_new_image | intros _; exact IH].
Qed.

Lemma ends_released_evening E fuel test_time b d i jobs c :
  0 <= i -> ends_released (evening_twilight E fuel test_time b d i jobs c).
Proof.
  intros Hi.
  unfold evening_twilight, twilight_settings, try_except_CalledProcessError,
    tether_error_handler, log, cam, print.
  destruct (test_time =? 0); [|releases].
  do 3 (apply ends_released_bind; [releases | intros ?]).
  apply ends_released_bind;
    [releases | intros ?; now apply ends_released_twilight_loop].
Qed.

Lemma ends_released_morning E fuel test_time b d i jobs c :
  0 <= i -> ends_released (morning_twilight E fuel test_time b d i jobs c).
Proof.
  intros Hi.
  unfold morning_twilight, twilight_settings, try_except_CalledProcessError,
    tether_error_handler, log, cam, print.
  destruct (test_time =? 0); [|releases].
  do 3 (apply ends_released_bind; [releases | intros ?]).
  apply ends_released_bind;
    [releases | intros ?; now apply ends_released_twilight_loop].
Qed.

Lemma ends_released_start_night E cfg : ends_released (start_night E cfg).
Proof.
  unfold start_night, try_except_CalledProcessError, tether_error_handler,
    log, cam, print.
  releases.
Qed.

Lemma ends_released_night_iteration E test_time d i c prev :
  0 <= i -> ends_released (night_iteration E test_time d i c prev).
Proof.
  intros Hi. unfold night_iteration, log, print.
  apply ends_released_bind; [releases | intros r].
  do 2 (apply ends_released_bind; [releases | intros ?]).
  apply ends_released_bind; [releases | intros st].
  apply ends_released_bind; [|intros ?; releases].
  destruct (st =? CLEAR);
    [|destruct (st =? CLEARING); [|destruct (st =? CLOUDY)]];
    (apply ends_released_bind;
     [releases
     | intros ?; first [now apply ends_released_high_acq
                       | apply ends_released_low_acq]]).
Qed.

Lemma ends_released_night_loop E fuel test_time b d i c :
  0 <= i -> forall prev, ends_released (night_loop E fuel test_time b d i c prev).
Proof.
  intros Hi. induction fuel as [|fuel IH]; intros prev; cbn [night_loop].
  - apply ends_released_silent. reflexivity.
  - apply ends_released_bind; [releases | intros t].
    destruct (t <? sunrise_before_twilight b); [|releases].
    apply ends_released_bind;
      [now apply ends_released_night_iteration | intros st; apply IH].
Qed.

Lemma ends_released_teardown E tether :
  ends_released (tether_teardown E tether).
Proof.
  unfold tether_teardown, report_tether, tether_terminate, tether_kill,
    log, print.
  releases.
Qed.

Lemma ends_released_shutdown E test_time vde jobs data_path cfg :
  ends_released (sunrise_shutdown E test_time vde jobs data_path cfg).
Proof. unfold sunrise_shutdown, log, leo, cam. releases. Qed.

Lemma initialise_releases cfg s :
  exists evs,
    initialise_microcontroller cfg s =
      (Ret tt, with_serial_open true (advance evs 0 s)) /\
    forall held, shutter_after held evs = false.
Proof.
  unfold initialise_microcontroller.
  destruct (String.eqb (exp_mode cfg) "BULB"); exec;
    eexists; (split; [f_equal; state_eq | intros held; reflexivity]).
Qed.

(** X14. The shutter trigger over a session.  Provided the configured
    high-rate interval is not negative (in a test run it is the fixed
    180), whatever [main_function] has added to the trace when it ends,
    by a return, a hand-off, an exception or an exhausted loop budget,
    leaves the trigger released: every [shutter_on] has been followed by
    its [shutter_off]. *)
Theorem X14_session_never_ends_with_the_trigger_held
    (E : env) (fuel : nat) (test_time : Z) (cfg : config_dict)
    (data_path : string) (pos : position) (s : state) :
  (test_time = 0 -> 0 <= time_checking_clear cfg) ->
  exists evs,
    trace (snd (main_function E fuel test_time cfg data_path pos s))
      = trace s ++ evs /\
    forall held, shutter_after held evs = false.
Proof.
  intros Hcfg.
  assert (Hi : 0 <= interval_time_of test_time cfg).
  { unfold interval_time_of. destruct (test_time =? 0) eqn:Ht; cbn; [|lia].
    apply Hcfg. now apply Z.eqb_eq. }
  unfold main_function.
  destruct (initialise_releases cfg s) as [e1 [H1 Q1]].
  rewrite (bind_Ret _ _ _ _ _ H1).
  match goal with
  | |- context [snd (?m ?s1)] =>
      assert (Hrel : ends_released m);
        [|destruct (Hrel s1) as [evs [Ht Hq]]]
  end.
  { apply ends_released_bind; [releases | intros st].
    apply ends_released_bind; [unfold log; releases | intros _].
    apply ends_released_bind; [apply ends_released_calculate | intros b].
    apply ends_released_bind; [apply ends_released_wait | intros r].
    apply ends_released_bind; [apply ends_released_switch_on | intros vde].
    apply ends_released_bind;
      [now apply ends_released_evening | intros _].
    apply ends_released_bind; [apply ends_released_start_night | intros t].
    apply ends_released_bind;
      [now apply ends_released_night_loop | intros _].
    apply ends_released_bind; [apply ends_released_teardown | intros _].
    apply ends_released_bind;
      [now apply ends_released_morning | intros _].
    apply ends_released_shutdown. }
  exists (e1 ++ evs). split.
  - rewrite Ht. fields. rewrite <- app_assoc. reflexivity.
  - intros held. rewrite shutter_after_app, Q1. exact Hq.
Qed.

Lemma X14_witness_quiet_station :
  (240 = 0 -> 0 <= time_checking_clear sample_cfg) /\
  exists evs,
    trace (snd (main_function quiet_env 3 240 sample_cfg "/data0/latest"
                  (0, 0, 0) (start_state 0)))
      = trace (start_state 0) ++ evs /\
    forall held, shutter_after held evs = false.
Proof.
  split; [intros _; cbn; lia|].
  apply (X14_session_never_ends_with_the_trigger_held quiet_env 3 240
           sample_cfg "/data0/latest" (0, 0, 0) (start_state 0)).
  intros _. cbn. lia.
Defined.

(** ** The teardown of the night tether *)

(** X15. The teardown of a bound tether whose child nothing has
    signalled yet, in full.  It returns exactly when the child is still
    running once the five-second sleep is over: then it sends SIGTERM and
    SIGKILL, in this order, and reports at once, without waiting for the
    child to die: the last line is "Tether_killed" when one of the two
    polls after the kill already found the child dead, and
    "Tether_not_killed", with the child left uncollected, when neither
    did.  In every other case (the child already collected, or gone by
    itself) no signal is sent and the teardown ends in [OSError]. *)
Theorem X15_teardown_returns_only_for_a_running_child
    (E : env) (s : state) :
  tether_signalled s = false ->
  exists evs,
    trace (snd (tether_teardown E (Some tt) s)) = trace s ++ evs /\
    clock (snd (tether_teardown E (Some tt) s)) = clock s + seconds 5 /\
    if tether_running_after E 5 s then
      fst (tether_teardown E (Some tt) s) = Ret tt /\
      filter is_Kill evs = [Kill SIGTERM; Kill SIGKILL] /\
      last evs Poll =
        Log DEBUG (if tether_reaped (snd (tether_teardown E (Some tt) s))
                   then "Tether_killed" else "Tether_not_killed")
    else
      fst (tether_teardown E (Some tt) s) = Raise OSError /\
      filter is_Kill evs = [].
Proof.
  intros Hs. unfold tether_running_after.
  destruct (orb (tether_reaped s) (tether_gone_by E (clock s + seconds 5)))
    eqn:H.
  - rewrite (tether_teardown_not_running E s H).
    eexists. split; [reflexivity|]. split; [reflexivity|].
    split; reflexivity.
  - apply orb_false_elim in H. destruct H as [Hr Hg].
    destruct (tether_teardown_live E s Hr Hs Hg) as [collected Hrun].
    rewrite Hrun.
    exists (teardown_events collected). split; [reflexivity|].
    split; [reflexivity|]. split; [reflexivity|].
    split; destruct collected; reflexivity.
Qed.

Lemma X15_witness_child_not_yet_dead :
  tether_signalled (start_state 0) = false /\
  exists evs,
    trace (snd (tether_teardown quiet_env (Some tt) (start_state 0)))
      = trace (start_state 0) ++ evs /\
    fst (tether_teardown quiet_env (Some tt) (start_state 0)) = Ret tt /\
    filter is_Kill evs = [Kill SIGTERM; Kill SIGKILL] /\
    last evs Poll = Log DEBUG "Tether_not_killed".
Proof.
  split; [reflexivity|].
  destruct (X15_teardown_returns_only_for_a_running_child quiet_env
              (start_state 0) eq_refl) as [evs [Ht [_ [Hr [Hk Hl]]]]].
  exists evs. split; [exact Ht|]. split; [exact Hr|]. split; [exact Hk|].
  exact Hl.
Defined.

(** Both reports occur: where the operating system has the killed child
    dead by the next poll, the teardown collects it and says so. *)
Example teardown_reports_a_prompt_exit :
  fst (tether_teardown prompt_exit_env (Some tt) (start_state 0)) = Ret tt /\
  tether_reaped (snd (tether_teardown prompt_exit_env (Some tt)
                        (start_state 0))) = true /\
  last (trace (snd (tether_teardown prompt_exit_env (Some tt)
                      (start_state 0)))) Poll = Log DEBUG "Tether_killed" /\
  tether_reaped (snd (tether_teardown quiet_env (Some tt)
                        (start_state 0))) = false.
Proof. vm_compute. repeat split. Qed.

(** X17. [check_pid], applied to the night tether, answers without
    raising and without harming the child, and its answer tells what the
    unguarded [terminate] of the teardown would do in the same state:
    [True] when the signal can be sent, [False] when it would raise
    [OSError]. *)
Theorem X17_check_pid_predicts_terminate (E : env) (s : state) :
  exists b,
    fst (check_pid E (Some tt) s) = Ret b /\
    fst (tether_terminate E (Some tt) s) =
      (if b then Ret tt else Raise OSError) /\
    tether_signalled (snd (check_pid E (Some tt) s)) = tether_signalled s /\
    tether_reaped (snd (check_pid E (Some tt) s)) = tether_reaped s /\
    clock (snd (check_pid E (Some tt) s)) = clock s.
Proof.
  rewrite check_pid_run. unfold tether_terminate, tether_send_signal.
  destruct (tether_reaped s) eqn:Hr.
  - exists false. cbn. rewrite Hr. repeat split; reflexivity.
  - exists true. cbn. rewrite orb_false_r, Hr. repeat split; reflexivity.
Qed.

(** ** The selection of the night loop *)

(** X18. A reading that is none of the three defined statuses is treated
    as clear sky: the iteration runs the high-rate acquisition for the
    high-rate interval, logs one line that tells whether the previous
    status was a defined one, and hands the undefined reading on as the
    new [cloud_status_internal]. *)
Theorem X18_undefined_status_acquires_at_high_rate
    (E : env) (current_dir : string) (interval_time : Z) (cfg : config_dict)
    (prev reading : Z) (s : state) :
  read_cloud_status E (cloud_reads s) = reading ->
  reading <> CLEAR -> reading <> CLEARING -> reading <> CLOUDY ->
  0 <= interval_time ->
  exists s' evs,
    night_iteration E 0 current_dir interval_time cfg prev s =
      (Ret reading, s') /\
    trace s' = trace s ++ evs /\
    acquisitions evs = [HighRate] /\
    status_lines evs =
      [ if orb (prev =? CLEAR) (orb (prev =? CLEARING) (prev =? CLOUDY))
        then "Gone_undefined_cloud_status"
        else "Still_undefined_cloud_status" ] /\
    clock s' = clock s + seconds interval_time.
Proof.
  intros Hr H2 H1 H0 Hi.
  apply Z.eqb_neq in H2. apply Z.eqb_neq in H1. apply Z.eqb_neq in H0.
  unfold night_iteration, cc_read_cloud_status. exec.
  rewrite Hr, H2, H1, H0. cbn.
  destruct (orb (prev =? CLEAR) (orb (prev =? CLEARING) (prev =? CLOUDY)));
    cbn;
    match goal with
    | |- context [high_acq _ _ _ _ ?s0] =>
        rewrite (high_acq_run E current_dir interval_time cfg s0 Hi)
    end; cbn;
    eexists; eexists; (split; [reflexivity|]); fields;
    (split; [rewrite <- ?app_assoc; cbn [app]; reflexivity|]);
    (split; [reflexivity|]); (split; [reflexivity|]); reflexivity.
Qed.

Lemma X18_witness_unknown_reading :
  read_cloud_status
    (sample_env usual_sun (readings [7]) false all_launches_succeed false)
    (cloud_reads (start_state 0)) = 7 /\
  7 <> CLEAR /\ 7 <> CLEARING /\ 7 <> CLOUDY /\ 0 <= 600 /\
  exists s' evs,
    night_iteration
      (sample_env usual_sun (readings [7]) false all_launches_succeed false)
      0 "/data0/latest" 600 sample_cfg CLEAR (start_state 0) =
      (Ret 7, s') /\
    trace s' = trace (start_state 0) ++ evs /\
    acquisitions evs = [HighRate] /\
    status_lines evs =
      [ if orb (CLEAR =? CLEAR) (orb (CLEAR =? CLEARING) (CLEAR =? CLOUDY))
        then "Gone_undefined_cloud_status"
        else "Still_undefined_cloud_status" ] /\
    clock s' = clock (start_state 0) + seconds 600.
Proof.
  split; [reflexivity|]. split; [discriminate|]. split; [discriminate|].
  split; [discriminate|]. split; [lia|].
  apply (X18_undefined_status_acquires_at_high_rate
           (sample_env usual_sun (readings [7]) false all_launches_succeed
              false)
           "/data0/latest" 600 sample_cfg CLEAR 7 (start_state 0));
    first [reflexivity | discriminate | lia].
Defined.

(** X19. While the sky stays clear, or stays clearing, the night loop
    logs no status line: "Gone_clear" and "Gone_clearing" mark changes
    only.  The iteration still acquires, at the rate of the status. *)
Theorem X19_unchanged_status_logs_no_transition
    (E : env) (current_dir : string) (interval_time : Z) (cfg : config_dict)
    (status : Z) (s : state) :
  read_cloud_status E (cloud_reads s) = status ->
  status = CLEAR \/ status = CLEARING ->
  0 <= acquisition_seconds interval_time cfg status ->
  exists s' evs,
    night_iteration E 0 current_dir interval_time cfg status s =
      (Ret status, s') /\
    trace s' = trace s ++ evs /\
    status_lines evs = [] /\
    acquisitions evs = [selected status] /\
    clock s' = clock s + seconds (acquisition_seconds interval_time cfg status).
Proof.
  intros Hr [-> | ->] Hd; cbn in Hd;
    unfold night_iteration, cc_read_cloud_status; exec; rewrite Hr; cbn.
  - match goal with
    | |- context [high_acq _ _ _ _ ?s0] =>
        rewrite (high_acq_run E current_dir interval_time cfg s0 Hd)
    end; cbn.
    eexists; eexists; (split; [reflexivity|]); fields.
    split; [rewrite <- ?app_assoc; cbn [app]; reflexivity|].
    repeat split; reflexivity.
  - match goal with
    | |- context [low_acq _ _ _ _ ?s0] =>
        rewrite (low_acq_run E current_dir CLEARING cfg s0 _ eq_refl
                   (or_intror eq_refl) Hd)
    end; cbn.
    eexists; eexists; (split; [reflexivity|]); fields.
    split; [rewrite <- ?app_assoc; cbn [app]; reflexivity|].
    repeat split; reflexivity.
Qed.

Lemma X19_witness_clearing_twice :
  read_cloud_status
    (sample_env usual_sun (readings [CLEARING]) false all_launches_succeed
       false)
    (cloud_reads (start_state 0)) = CLEARING /\
  (CLEARING = CLEAR \/ CLEARING = CLEARING) /\
  0 <= acquisition_seconds 600 sample_cfg CLEARING /\
  exists s' evs,
    night_iteration
      (sample_env usual_sun (readings [CLEARING]) false all_launches_succeed
         false)
      0 "/data0/latest" 600 sample_cfg CLEARING (start_state 0) =
      (Ret CLEARING, s') /\
    trace s' = trace (start_state 0) ++ evs /\
    status_lines evs = [] /\
    acquisitions evs = [selected CLEARING] /\
    clock s' = clock (start_state 0)
               + seconds (acquisition_seconds 600 sample_cfg CLEARING).
Proof.
  split; [reflexivity|]. split; [right; reflexivity|].
  split; [cbn; lia|].
  apply (X19_unchanged_status_logs_no_transition
           (sample_env usual_sun (readings [CLEARING]) false
              all_launches_succeed false)
           "/data0/latest" 600 sample_cfg CLEARING (start_state 0)).
  - reflexivity.
  - right. reflexivity.
  - cbn. lia.
Defined.

(** ** The script entry *)

(** X20. Whatever the command line, the script calls [main_function]
    with 0, when it has no argument, or with a test length of at least
    180 seconds, when the first argument spells "test": a shorter test is
    raised to 180. *)
Theorem X20_script_test_time_is_zero_or_at_least_180
    (py_int : string -> option Z) (argv : list string) (s s' : state) (n : Z) :
  script_test_time py_int argv s = (Ret n, s') ->
  (n = 0 /\ (List.length argv <= 1)%nat /\ s' = s) \/
  (180 <= n /\ (2 <= List.length argv)%nat /\
   lower (nth 1 argv "") = "test" /\
   trace s' = trace s ++ [Print (nth 1 argv "")]).
Proof.
  unfold script_test_time.
  destruct argv as [|a0 [|arg1 rest]].
  - cbn. intros H. injection H as <- <-. left. repeat split; lia.
  - cbn. intros H. injection H as <- <-. left. repeat split; lia.
  - destruct (String.eqb (lower arg1) "test") eqn:Ht; [|discriminate].
    apply String.eqb_eq in Ht.
    destruct rest as [|arg2 rest].
    + exec. intros H. injection H as <- <-.
      right. cbn. repeat split; try lia; assumption.
    + destruct (py_int arg2) as [k|]; exec; [|discriminate].
      destruct (k <? 180) eqn:Hk; exec; intros H; injection H as <- <-;
        right; cbn; repeat split; try lia; assumption.
Qed.

Lemma X20_witness_short_test :
  script_test_time sample_int ["interval_control_lin.py"; "Test"; "60"]
    (start_state 0) =
    (Ret 180, with_trace [Print "Test"] (start_state 0)) /\
  ((180 = 0 /\
    (List.length ["interval_control_lin.py"; "Test"; "60"] <= 1)%nat /\
    with_trace [Print "Test"] (start_state 0) = start_state 0) \/
   (180 <= 180 /\
    (2 <= List.length ["interval_control_lin.py"; "Test"; "60"])%nat /\
    lower (nth 1 ["interval_control_lin.py"; "Test"; "60"] "") = "test" /\
    trace (with_trace [Print "Test"] (start_state 0)) =
      trace (start_state 0)
      ++ [Print (nth 1 ["interval_control_lin.py"; "Test"; "60"] "")])).
Proof.
  split; [reflexivity|].
  apply (X20_script_test_time_is_zero_or_at_least_180 sample_int
           ["interval_control_lin.py"; "Test"; "60"]
           (start_state 0) (with_trace [Print "Test"] (start_state 0)) 180).
  reflexivity.
Defined.

(** X21. With a first argument that does not spell "test", no branch of
    the script assigns [test_time]: the call of [main_function] raises
    [NameError] while its argument is evaluated, and nothing of the
    night has run. *)
Theorem X21_script_other_argument_never_reaches_main
    (E : env) (py_int : string -> option Z) (fuel : nat)
    (argv0 arg1 : string) (rest : list string) (cfg : config_dict)
    (data_path : string) (pos : position) (s : state) :
  lower arg1 <> "test" ->
  script_main E py_int fuel (argv0 :: arg1 :: rest) cfg data_path pos s =
    (Raise (NameError "test_time"), s).
Proof.
  intros H. apply String.eqb_neq in H.
  unfold script_main, script_test_time. rewrite H. reflexivity.
Qed.

Lemma X21_witness_run_argument :
  lower "run" <> "test" /\
  script_main quiet_env sample_int 3 ["interval_control_lin.py"; "run"]
    sample_cfg "/data0/latest" (0, 0, 0) (start_state 0) =
    (Raise (NameError "test_time"), start_state 0).
Proof.
  split; [vm_compute; discriminate|].
  apply (X21_script_other_argument_never_reaches_main quiet_env sample_int 3
           "interval_control_lin.py" "run" [] sample_cfg "/data0/latest"
           (0, 0, 0) (start_state 0)).
  vm_compute. discriminate.
Defined.

(** ** A test run of any length *)



(** ** The wait for sunset without a GPS lock *)

Lemma wait_until_sunset_no_lock E cfg b (n : nat) :
  (forall q pos, snd (update_GPS_location E q pos) = "N") ->
  forall fuel st s,
    snd st = "N" ->
    (n < fuel)%nat ->
    sunset b - clock s <= seconds (30 * Z.of_nat n) ->
    (n <> 0%nat -> seconds (30 * (Z.of_nat n - 1)) < sunset b - clock s) ->
    exists st',
      wait_until_sunset E fuel 0 cfg st b s =
        (Ret (st', b),
         with_gps_queries (gps_queries s + n)
           (advance (poll_events n) (30 * Z.of_nat n) s)) /\
      snd st' = "N".
Proof.
  intros Hgps. induction n as [|n IH]; intros fuel st s Hst Hf Hup Hlow.
  - destruct fuel as [|fuel]; [lia|]. exists st. split; [|exact Hst].
    cbn [wait_until_sunset]. unfold bind, now.
    assert (Hc : (clock s <? sunset b) = false).
    { apply Z.ltb_ge. unfold seconds in Hup. lia. }
    rewrite Hc. unfold ret. f_equal. state_eq;
      try (now rewrite app_nil_r); try lia.
  - destruct fuel as [|fuel]; [lia|].
    assert (Hc : (clock s <? sunset b) = true).
    { apply Z.ltb_lt. specialize (Hlow ltac:(lia)). unfold seconds in Hlow.
      lia. }
    cbn [wait_until_sunset]. unfold bind at 1. unfold now. rewrite Hc.
    rewrite Hst. cbn [String.eqb Ascii.eqb Bool.eqb andb Z.eqb].
    unfold leo_update_GPS_location. exec. run_sleep.
    rewrite (Hgps (gps_queries s) (fst st)). cbn. unfold ret.
    match goal with
    | |- context [wait_until_sunset E fuel 0 cfg ?st1 b ?s1] =>
        destruct (IH fuel st1 s1) as [st' [Hrun Hst']]
    end.
    + apply Hgps.
    + lia.
    + fields. unfold seconds in *. lia.
    + intros Hn. specialize (Hlow ltac:(lia)). fields.
      unfold seconds in *. lia.
    + exists st'. split; [|exact Hst']. rewrite Hrun.
      f_equal. state_eq; lia.
Qed.

(** X23. Without a GPS lock, and with a receiver that keeps reporting
    none, the wait for sunset asks the receiver once after every
    30-second sleep and leaves the schedule alone: after [n] polls it
    returns the schedule it was given, still without a lock, with [n]
    more GPS queries on record. *)
Theorem X23_wait_without_lock_asks_the_gps_at_every_poll
    (E : env) (cfg : config_dict) (st : station) (b : schedule)
    (n fuel : nat) (s : state) :
  (forall q pos, snd (update_GPS_location E q pos) = "N") ->
  snd st = "N" ->
  (n < fuel)%nat ->
  sunset b - clock s <= seconds (30 * Z.of_nat n) ->
  (n <> 0%nat -> seconds (30 * (Z.of_nat n - 1)) < sunset b - clock s) ->
  exists st' s',
    wait_until_sunset E fuel 0 cfg st b s = (Ret (st', b), s') /\
    snd st' = "N" /\
    gps_queries s' = (gps_queries s + n)%nat /\
    trace s' = trace s ++ poll_events n /\
    clock s' = clock s + seconds (30 * Z.of_nat n).
Proof.
  intros Hgps Hst Hf Hup Hlow.
  destruct (wait_until_sunset_no_lock E cfg b n Hgps fuel st s Hst Hf Hup Hlow)
    as [st' [Hrun Hst']].
  exists st'. eexists. split; [exact Hrun|].
  split; [exact Hst'|]. repeat split; reflexivity.
Qed.

Lemma X23_witness_two_polls :
  (forall q pos, snd (update_GPS_location quiet_env q pos) = "N") /\
  snd ((0, 0, 0), "N") = "N" /\
  (2 < 3)%nat /\
  sunset (computed_boundaries 0 0 usual_sun (minutes 10))
    - clock (start_state (seconds 65350)) <= seconds (30 * Z.of_nat 2) /\
  (2%nat <> 0%nat ->
   seconds (30 * (Z.of_nat 2 - 1))
   < sunset (computed_boundaries 0 0 usual_sun (minutes 10))
     - clock (start_state (seconds 65350))) /\
  exists st' s',
    wait_until_sunset quiet_env 3 0 sample_cfg ((0, 0, 0), "N")
      (computed_boundaries 0 0 usual_sun (minutes 10))
      (start_state (seconds 65350)) =
      (Ret (st', computed_boundaries 0 0 usual_sun (minutes 10)), s') /\
    snd st' = "N" /\
    gps_queries s' = (gps_queries (start_state (seconds 65350)) + 2)%nat /\
    trace s' = trace (start_state (seconds 65350)) ++ poll_events 2 /\
    clock s' = clock (start_state (seconds 65350))
               + seconds (30 * Z.of_nat 2).
Proof.
  split; [intros q pos; reflexivity|]. split; [reflexivity|].
  split; [lia|]. split; [vm_compute; discriminate|].
  split; [intros _; vm_compute; reflexivity|].
  apply (X23_wait_without_lock_asks_the_gps_at_every_poll quiet_env
           sample_cfg ((0, 0, 0), "N")
           (computed_boundaries 0 0 usual_sun (minutes 10)) 2 3
           (start_state (seconds 65350))).
  - intros q pos. reflexivity.
  - reflexivity.
  - lia.
  - vm_compute. discriminate.
  - intros _. vm_compute. reflexivity.
Defined.

(** X24. A lock that arrives during the wait replaces the schedule.
    When the station waits without a lock and the receiver answers the
    query after the first sleep with a lock, the new position is logged,
    sunset and sunrise are computed afresh for it, at the clock of that
    moment and with the late-start rule, and the rest of the wait runs
    against the new sunset with no further GPS query: it returns the new
    station and the new schedule. *)
Theorem X24_lock_during_the_wait_replaces_the_schedule
    (E : env) (cfg : config_dict) (st st' : station) (b : schedule)
    (n fuel : nat) (s : state) :
  snd st = "N" ->
  clock s < sunset b ->
  update_GPS_location E (gps_queries s) (fst st) = st' ->
  snd st' <> "N" ->
  (S n < fuel)%nat ->
  sunset (schedule_at E cfg (clock s + seconds 30) (fst st'))
    - (clock s + seconds 30) <= seconds (30 * Z.of_nat n) ->
  (n <> 0%nat ->
   seconds (30 * (Z.of_nat n - 1))
   < sunset (schedule_at E cfg (clock s + seconds 30) (fst st'))
     - (clock s + seconds 30)) ->
  exists s',
    wait_until_sunset E fuel 0 cfg st b s =
      (Ret (st', schedule_at E cfg (clock s + seconds 30) (fst st')), s') /\
    trace s' = trace s
      ++ poll_events 1
      ++ [Log INFO "GPS_lonlat"]
      ++ boundary_log E (late_at E cfg (clock s + seconds 30) (fst st'))
      ++ poll_events n /\
    gps_queries s' = S (gps_queries s) /\
    clock s' = clock s + seconds (30 * Z.of_nat (S n)).
Proof.
  intros Hst Hc Hgps Hlock Hf Hup Hlow.
  destruct fuel as [|fuel]; [lia|].
  apply Z.ltb_lt in Hc. apply String.eqb_neq in Hlock.
  assert (Hno : andb (String.eqb (snd st') "N") (0 =? 0) = false)
    by (rewrite Hlock; reflexivity).
  unfold schedule_at in Hup, Hlow.
  eexists. split.
  - cbn [wait_until_sunset]. unfold bind at 1. unfold now. rewrite Hc.
    rewrite Hst. cbn [String.eqb Ascii.eqb Bool.eqb andb Z.eqb].
    unfold leo_update_GPS_location. exec. run_sleep.
    rewrite Hgps, Hlock. cbn [negb].
    rewrite calculate_sunset_and_sunrise_run. cbv beta iota. cbn [fst snd].
    match goal with
    | |- context [wait_until_sunset E fuel 0 cfg st' ?b1 ?s1] =>
        rewrite (wait_until_sunset_polls E 0 cfg st' b1 n Hno fuel s1)
    end.
    + reflexivity.
    + lia.
    + fields. unfold seconds in *. lia.
    + intros Hn. specialize (Hlow Hn). fields. unfold seconds in *. lia.
  - fields. split; [|split].
    + unfold late_at. rewrite <- ?app_assoc. cbn [app poll_events].
      rewrite <- ?app_assoc. reflexivity.
    + reflexivity.
    + unfold seconds. lia.
Qed.

Lemma X24_witness_lock_at_first_poll :
  snd ((0, 0, 0), "N") = "N" /\
  clock (start_state (seconds 65340))
    < sunset (computed_boundaries 0 0 usual_sun (minutes 10)) /\
  update_GPS_location lock_env (gps_queries (start_state (seconds 65340)))
    (fst ((0, 0, 0), "N")) = ((115, -32, 20), "L") /\
  snd ((115, -32, 20), "L") <> "N" /\
  (2 < 3)%nat /\
  exists s',
    wait_until_sunset lock_env 3 0 sample_cfg ((0, 0, 0), "N")
      (computed_boundaries 0 0 usual_sun (minutes 10))
      (start_state (seconds 65340)) =
      (Ret (((115, -32, 20), "L"),
            schedule_at lock_env sample_cfg
              (clock (start_state (seconds 65340)) + seconds 30)
              (fst ((115, -32, 20), "L"))), s') /\
    trace s' = trace (start_state (seconds 65340))
      ++ poll_events 1
      ++ [Log INFO "GPS_lonlat"]
      ++ boundary_log lock_env
           (late_at lock_env sample_cfg
              (clock (start_state (seconds 65340)) + seconds 30)
              (fst ((115, -32, 20), "L")))
      ++ poll_events 1 /\
    gps_queries s' = S (gps_queries (start_state (seconds 65340))) /\
    clock s' = clock (start_state (seconds 65340))
               + seconds (30 * Z.of_nat 2).
Proof.
  split; [reflexivity|]. split; [vm_compute; reflexivity|].
  split; [reflexivity|]. split; [discriminate|]. split; [lia|].
  apply (X24_lock_during_the_wait_replaces_the_schedule lock_env sample_cfg
           ((0, 0, 0), "N") ((115, -32, 20), "L")
           (computed_boundaries 0 0 usual_sun (minutes 10)) 1 3
           (start_state (seconds 65340))).
  - reflexivity.
  - vm_compute. reflexivity.
  - reflexivity.
  - discriminate.
  - lia.
  - vm_compute. discriminate.
  - intros _. vm_compute. reflexivity.
Defined.

(** ** Switching the hardware on *)



(** ** Moving an image to the cloud file *)

(** X26. [move_jpg_to_cloudy] moves at most one file, and only one that
    [os.path.isfile] has confirmed, to the configured cloud file, which
    it then returns; when it moves nothing it returns the joined path,
    which is not a file.  With an absolute image path the directory has
    no influence on any of this. *)
Theorem X26_move_jpg_to_cloudy_moves_checked_files_only
    (isfile : string -> bool) (current_dir imgfile cloudy_img_file : string) :
  (if isfile (os_path_join current_dir imgfile) then
     filter is_ShutilMove
       (fst (move_jpg_to_cloudy isfile current_dir imgfile cloudy_img_file)) =
       [ShutilMove (os_path_join current_dir imgfile) cloudy_img_file] /\
     snd (move_jpg_to_cloudy isfile current_dir imgfile cloudy_img_file) =
       cloudy_img_file
   else
     filter is_ShutilMove
       (fst (move_jpg_to_cloudy isfile current_dir imgfile cloudy_img_file)) =
       [] /\
     isfile
       (snd (move_jpg_to_cloudy isfile current_dir imgfile cloudy_img_file)) =
       false) /\
  (String.prefix "/" imgfile = true ->
   forall other_dir,
     move_jpg_to_cloudy isfile other_dir imgfile cloudy_img_file =
     move_jpg_to_cloudy isfile current_dir imgfile cloudy_img_file).
Proof.
  split.
  - unfold move_jpg_to_cloudy.
    destruct (isfile (os_path_join current_dir imgfile)) eqn:H; cbn;
      split; auto.
  - intros Habs other_dir. unfold move_jpg_to_cloudy, os_path_join.
    rewrite Habs. reflexivity.
Qed.
